(** * Firmware bundling and writing: a shallow embedding

    The development follows [host/lib/bundle_firmware.py] (class [Bundle])
    and [host/lib/write_firmware.py] (class [WriteFirmware]).  Python 2
    [str] values that hold binary data are lists of bytes; text (messages,
    command arguments, the flash script) is a [string]; Python integers are
    unbounded, hence [Z].  Exceptions are an explicit result type, and the
    methods that touch files, the console or external tools run in a state
    monad over an explicit [world]. *)

From Stdlib Require Import ZArith Lia Bool.
From Stdlib Require Import Strings.Byte Strings.Ascii Strings.String.
From stdpp Require Import base list gmap strings.

Local Open Scope string_scope.
Local Open Scope list_scope.
Local Open Scope Z_scope.

(** ** Bytes, exceptions *)

Abbreviation bytes := (list byte).

Definition ord (ch : byte) : Z := Z.of_N (Byte.to_N ch).

Definition chr (v : Z) : byte :=
  match Byte.of_N (Z.to_N (v mod 256)) with
  | Some b => b
  | None => x00
  end.

Definition bytes_of (s : string) : bytes := String.list_byte_of_string s.

Inductive exn : Type :=
| CmdError (msg : string)
| ValueError (msg : string)
| IOError (msg : string)
| TypeError
| StructError.

Inductive result (A : Type) : Type :=
| Ok (a : A)
| Raise (e : exn).
Arguments Ok {A} a.
Arguments Raise {A} e.

#[global] Instance result_ret : MRet result := fun A a => Ok a.

#[global] Instance result_bind : MBind result := fun A B k r =>
  match r with
  | Ok a => k a
  | Raise e => Raise e
  end.

(** ** Python slicing

    [data[lo:hi]] with Python's treatment of negative and out-of-range
    bounds: a negative bound counts from the end, and both bounds are
    clamped to [0, len]. *)

Definition slice_bound (len i : Z) : Z :=
  let j := if i <? 0 then i + len else i in
  Z.max 0 (Z.min len j).

Definition slice (data : bytes) (lo hi : Z) : bytes :=
  let len := Z.of_nat (length data) in
  let l := slice_bound len lo in
  let h := slice_bound len hi in
  take (Z.to_nat (h - l)) (drop (Z.to_nat l) data).

(** [data[lo:]] and [data[:hi]] *)
Definition slice_from (data : bytes) (lo : Z) : bytes :=
  slice data lo (Z.of_nat (length data)).

Definition slice_to (data : bytes) (hi : Z) : bytes :=
  slice data 0 hi.

(** ** struct: little-endian 32-bit words *)

Fixpoint le_value (word : bytes) : Z :=
  match word with
  | [] => 0
  | b :: rest => ord b + 256 * le_value rest
  end.

Definition le_bytes (v : Z) : bytes :=
  [chr v; chr (v / 256); chr (v / 65536); chr (v / 16777216)].

(** [struct.unpack('<I', word)[0]] (and ['<L'], ['<1L']): the argument must
    be exactly four bytes long. *)
Definition unpack_L (word : bytes) : result Z :=
  if decide (length word = 4%nat) then Ok (le_value word) else Raise StructError.

(** [struct.unpack('<2L', s)] *)
Definition unpack_2L (s : bytes) : result (Z * Z) :=
  if decide (length s = 8%nat)
  then Ok (le_value (take 4 s), le_value (drop 4 s))
  else Raise StructError.

(** [struct.pack('<L', v)]: the value must fit an unsigned 32-bit word. *)
Definition pack_L (v : Z) : result bytes :=
  if (0 <=? v) && (v <? 2 ^ 32) then Ok (le_bytes v) else Raise StructError.

(** [range(start, stop, step)] for a positive step *)
Definition py_range (start stop step : Z) : list Z :=
  map (fun k => start + step * Z.of_nat k)
      (seq 0 (Z.to_nat ((stop - start + step - 1) / step))).

(** ** Text formatting: the [%] conversions the two modules use *)

Definition digit_char (d : Z) : ascii :=
  match String.get (Z.to_nat d) "0123456789abcdef" with
  | Some c => c
  | None => "?"%char
  end.

Fixpoint digits_aux (fuel : nat) (base n : Z) (acc : string) : string :=
  match fuel with
  | O => acc
  | S fuel' =>
      let acc' := String (digit_char (n mod base)) acc in
      if n / base =? 0 then acc' else digits_aux fuel' base (n / base) acc'
  end.

(** the digits of a natural number; [log2 n + 1] rounds are enough for
    any base from 2 up *)
Definition digits (base n : Z) : string :=
  digits_aux (S (Z.to_nat (Z.log2 n))) base n EmptyString.

Fixpoint repeat_char (c : ascii) (n : nat) : string :=
  match n with
  | O => EmptyString
  | S n' => String c (repeat_char c n')
  end.

(** [%[#][0][width]x] and [%[0][width]d]: sign, then the [0x] of the
    alternate form, then zero padding up to [width], then the digits. *)
Definition fmt_int (base : Z) (alt zero : bool) (width : nat) (v : Z) : string :=
  let sign := if v <? 0 then "-" else EmptyString in
  let prefix := if alt then "0x" else EmptyString in
  let body := digits base (Z.abs v) in
  let used := (String.length sign + String.length prefix + String.length body)%nat in
  let pad := (width - used)%nat in
  if zero then sign +:+ prefix +:+ repeat_char "0" pad +:+ body
  else repeat_char " " pad +:+ sign +:+ prefix +:+ body.

Definition fmt_d : Z -> string := fmt_int 10 false false 0.      (* %d, %s of an int *)
Definition fmt_x : Z -> string := fmt_int 16 false false 0.      (* %x *)
Definition fmt_alt_x : Z -> string := fmt_int 16 true false 0.   (* %#x, %#0x *)
Definition fmt_08x : Z -> string := fmt_int 16 false true 8.     (* %08x *)
Definition fmt_alt_08x : Z -> string := fmt_int 16 true true 8.  (* %#08x *)
Definition fmt_04x : Z -> string := fmt_int 16 false true 4.     (* %04x *)

(** ** Searching text and bytes *)

(** [needle in hay] *)
Fixpoint contains (needle hay : string) : bool :=
  String.prefix needle hay ||
  match hay with
  | EmptyString => false
  | String _ hay' => contains needle hay'
  end.

Definition is_space (c : ascii) : bool :=
  let n := nat_of_ascii c in
  (n =? 32)%nat || ((9 <=? n)%nat && (n <=? 13)%nat).

Fixpoint lstrip (s : string) : string :=
  match s with
  | String c s' => if is_space c then lstrip s' else s
  | EmptyString => EmptyString
  end.

Fixpoint rstrip (s : string) : string :=
  match s with
  | EmptyString => EmptyString
  | String c s' =>
      match rstrip s' with
      | EmptyString => if is_space c then EmptyString else String c EmptyString
      | r => String c r
      end
  end.

(** [s.strip()] *)
Definition strip (s : string) : string := rstrip (lstrip s).

(** [s.split(':')[-1]]: what follows the last colon, or all of [s] *)
Fixpoint after_last_colon (s : string) : string :=
  match s with
  | EmptyString => EmptyString
  | String c s' =>
      if contains ":" s' then after_last_colon s'
      else if Ascii.eqb c ":" then s'
      else s
  end.

Fixpoint starts_with (sub data : bytes) : bool :=
  match sub, data with
  | [], _ => true
  | _ :: _, [] => false
  | a :: sub', b :: data' => Byte.eqb a b && starts_with sub' data'
  end.

(** [data.find(sub)]: lowest index of an occurrence, or -1; [i] is the
    index of the head of [data] in the whole sequence *)
Fixpoint find_at (sub data : bytes) (i : Z) : Z :=
  if starts_with sub data then i
  else match data with
       | [] => -1
       | _ :: data' => find_at sub data' (i + 1)
       end.

Definition py_find (sub data : bytes) : Z := find_at sub data 0.

(** [data.rfind(sub)]: highest index of an occurrence, or -1 *)
Fixpoint rfind_at (sub data : bytes) (i : Z) : Z :=
  match data with
  | [] => if starts_with sub [] then i else -1
  | _ :: data' =>
      let later := rfind_at sub data' (i + 1) in
      if later =? -1 then (if starts_with sub data then i else -1) else later
  end.

Definition py_rfind (sub data : bytes) : Z := rfind_at sub data 0.

(** [len(re.findall(pat, data))] for a literal, non-empty pattern: the
    matches are taken left to right and do not overlap; [skip] counts the
    bytes of the current match still to pass over. *)
Fixpoint count_matches (pat data : bytes) (skip : nat) : Z :=
  match data with
  | [] => 0
  | _ :: data' =>
      match skip with
      | S k => count_matches pat data' k
      | O =>
          if starts_with pat data
          then 1 + count_matches pat data' (length pat - 1)
          else count_matches pat data' 0
      end
  end.

(** [re.sub(pat, repl, data)] for a literal, non-empty pattern and a
    replacement without backslashes: every match is replaced. *)
Fixpoint re_sub (pat repl data : bytes) (skip : nat) : bytes :=
  match data with
  | [] => []
  | b :: data' =>
      match skip with
      | S k => re_sub pat repl data' k
      | O =>
          if starts_with pat data
          then repl ++ re_sub pat repl data' (length pat - 1)
          else b :: re_sub pat repl data' 0
      end
  end.

(** [len(s)] as a Python integer *)
Definition len {A} (l : list A) : Z := Z.of_nat (length l).

(** ** Bundle.DecodeTextBase *)

Definition SENTINEL : Z := 0x12345678.

(** What the inner [for] loop leaves behind: either the function has
    returned a value, or the loop ran to its end with the [found] flag. *)
Inductive scan : Type :=
| Returned (v : Z)
| Scanned (found : bool).

Fixpoint scan_window (data : bytes) (start : Z) (idx : list Z) (found : bool)
  : result scan :=
  match idx with
  | [] => Ok (Scanned found)
  | i :: idx' =>
      value ← unpack_L (slice data i (i + 4));
      if found then Ok (Returned (value - start))
      else scan_window data start idx'
             (if value =? SENTINEL then true else found)
  end.

Fixpoint scan_windows (data : bytes) (starts : list Z) (found : bool)
  : result (option Z) :=
  match starts with
  | [] => Ok None
  | start :: starts' =>
      s ← scan_window data start (py_range start (start + 160) 4) found;
      match s with
      | Returned v => Ok (Some v)
      | Scanned found' => scan_windows data starts' found'
      end
  end.

Definition DecodeTextBase (data : bytes) : result (option Z) :=
  scan_windows data [0; 0x4000] false.

(** ** Bundle._UpdateChecksum *)

Definition byte_sum (data : bytes) : Z :=
  fold_left (fun checksum ch => checksum + ord ch) data 0.

Definition _UpdateChecksum (data : bytes) : result bytes :=
  let checksum := byte_sum (slice_to data (-4)) in
  packed ← pack_L (Z.land checksum 0xffffffff);
  Ok (slice_to data (-4) ++ packed).

(** ** The environment

    [tools] (files, external commands), [cros_output] (console messages),
    [time] and the [fdt] accessors are collaborators outside the two
    modules.  The world records what the code does to them as a trace of
    events, and supplies what they answer: the outcome of the n-th external
    command and the time it takes. *)

Inductive level : Type := LvNotice | LvInfo | LvWarning | LvProgress.

Inductive event : Type :=
| EvOut (lvl : level) (msg : string)
| EvRun (cmd : string) (args : list string) (sudo : bool)
| EvWrite (fname : string) (data : bytes)
| EvSleep (ms : Z)
| EvOutputSize (label fname : string).

(** An [fdt.Fdt] object: the file behind it and its read accessors. *)
Record Fdt : Type := mkFdt {
  fname : string;
  GetString : string -> string -> result string;
  GetInt : string -> string -> option Z -> result Z
}.

(** The attributes of a [WriteFirmware] object. *)
Record WriteFirmware : Type := mkWriteFirmware {
  _fdt : Fdt;
  text_base : option Z;
  update : bool;
  verify : bool;
  _servo_port : option Z
}.

Record world : Type := mkWorld {
  files : gmap string bytes;
  trace : list event;
  ncalls : nat;
  tool : nat -> string -> list string -> result string;
  duration : nat -> Z;
  clock : Z;
  outdir : string;
  stdout_is_tty : bool;
  self : WriteFirmware
}.

Definition M (A : Type) : Type := world -> world * result A.

#[global] Instance M_ret : MRet M := fun A a w => (w, Ok a).

#[global] Instance M_bind : MBind M := fun A B k m w =>
  match m w with
  | (w', Ok a) => k a w'
  | (w', Raise e) => (w', Raise e)
  end.

Definition raise {A} (e : exn) : M A := fun w => (w, Raise e).

Definition lift {A} (r : result A) : M A := fun w => (w, r).

Definition get_world : M world := fun w => (w, Ok w).

(** [try: body finally: final] *)
Definition try_finally {A} (body : M A) (final : M unit) : M A := fun w =>
  match body w with
  | (w1, r) =>
      match final w1 with
      | (w2, Ok _) => (w2, r)
      | (w2, Raise e) => (w2, Raise e)
      end
  end.

(** [try: body except CmdError as err: handler(str(err))] *)
Definition except_CmdError {A} (body : M A) (handler : string -> M A) : M A :=
  fun w =>
  match body w with
  | (w1, Raise (CmdError err)) => handler err w1
  | other => other
  end.

Definition emit (ev : event) : M unit := fun w =>
  (mkWorld (files w) (trace w ++ [ev]) (ncalls w) (tool w) (duration w)
           (clock w) (outdir w) (stdout_is_tty w) (self w), Ok tt).

Definition Notice (msg : string) : M unit := emit (EvOut LvNotice msg).
Definition Progress (msg : string) : M unit := emit (EvOut LvProgress msg).
Definition out_Info (msg : string) : M unit := emit (EvOut LvInfo msg).
Definition Warning (msg : string) : M unit := emit (EvOut LvWarning msg).

Definition ReadFile (name : string) : M bytes := fun w =>
  match files w !! name with
  | Some data => (w, Ok data)
  | None => (w, Raise (IOError ("No such file or directory: '" +:+ name +:+ "'")))
  end.

Definition WriteFile (name : string) (data : bytes) : M unit := fun w =>
  (mkWorld (<[name := data]> (files w)) (trace w ++ [EvWrite name data])
           (ncalls w) (tool w) (duration w) (clock w) (outdir w)
           (stdout_is_tty w) (self w), Ok tt).

Definition OutputSize (label name : string) : M unit :=
  emit (EvOutputSize label name).

(** [tools.Run(cmd, args, sudo)]: the command is recorded, takes at least
    a millisecond, and answers what the world says. *)
Definition Run (cmd : string) (args : list string) (sudo : bool) : M string :=
  fun w =>
  (mkWorld (files w) (trace w ++ [EvRun cmd args sudo]) (S (ncalls w))
           (tool w) (duration w)
           (clock w + Z.max 1 (duration w (ncalls w))) (outdir w)
           (stdout_is_tty w) (self w),
   tool w (ncalls w) cmd args).

(** [time.sleep], in milliseconds *)
Definition sleep (ms : Z) : M unit := fun w =>
  (mkWorld (files w) (trace w ++ [EvSleep ms]) (ncalls w) (tool w)
           (duration w) (clock w + ms) (outdir w) (stdout_is_tty w) (self w),
   Ok tt).

Definition set_text_base (tb : option Z) : M unit := fun w =>
  (mkWorld (files w) (trace w) (ncalls w) (tool w) (duration w) (clock w)
           (outdir w) (stdout_is_tty w)
           (mkWriteFirmware (_fdt (self w)) tb (update (self w))
                            (verify (self w)) (_servo_port (self w))),
   Ok tt).

(** [os.path.join] of a directory and a relative name *)
Definition path_join (dir name : string) : string :=
  if String.eqb dir EmptyString then name
  else if String.eqb (String.substring (String.length dir - 1) 1 dir) "/"
       then dir +:+ name
       else dir +:+ "/" +:+ name.

(** ** Bundle.CalcTextBase *)

(** the truth value of a decoded text base: [None] and [0] are false *)
Definition truthy (v : option Z) : bool :=
  match v with
  | Some n => negb (n =? 0)
  | None => false
  end.

Definition CalcTextBase (name : string) (fdt : Fdt) (fname : string) : M Z :=
  data ← ReadFile fname;
  fdt_text_base ← lift (GetInt fdt "/chromeos-config" "textbase" (Some 0));
  text_base ← lift (DecodeTextBase data);
  let text_base_str :=
    match text_base with
    | Some v => if truthy text_base then fmt_alt_x v else "None"
    | None => "None"
    end in
  out_Info ("TEXT_BASE: fdt says " +:+ fmt_alt_x fdt_text_base +:+ ", " +:+
            fname +:+ " says " +:+ text_base_str);;
  match text_base with
  | Some v =>
      if truthy text_base && negb (v =? fdt_text_base) then
        Warning ("TEXT_BASE " +:+ fmt_x v +:+ " in " +:+ name +:+
                 "U-Boot doesn't match fdt value of " +:+
                 fmt_x fdt_text_base +:+ ". Using " +:+ fmt_x v);;
        mret v
      else mret fdt_text_base
  | None => mret fdt_text_base
  end.

(** ** Bundle._UpdateBl2Parameters

    The method only computes on its arguments and writes messages, so it
    lives in a writer over results: the messages, then the outcome. *)

Definition Logged (A : Type) : Type := list (level * string) * result A.

#[global] Instance Logged_ret : MRet Logged := fun A a => ([], Ok a).

#[global] Instance Logged_bind : MBind Logged := fun A B k m =>
  match m with
  | (msgs, Ok a) => (msgs ++ fst (k a), snd (k a))
  | (msgs, Raise e) => (msgs, Raise e)
  end.

Definition say (lvl : level) (msg : string) : Logged unit := ([(lvl, msg)], Ok tt).

Definition quiet {A} (r : result A) : Logged A := ([], r).

Definition fail {A} (e : exn) : Logged A := ([], Raise e).

(** running a logged computation against the console *)
Definition logged {A} (m : Logged A) : M A := fun w =>
  (mkWorld (files w) (trace w ++ map (fun lm => EvOut (fst lm) (snd lm)) (fst m))
           (ncalls w) (tool w) (duration w) (clock w) (outdir w)
           (stdout_is_tty w) (self w),
   snd m).

(** [l.index(x)], when [x in l] *)
Fixpoint index_of (x : string) (l : list string) (i : Z) : option Z :=
  match l with
  | [] => None
  | y :: l' => if String.eqb x y then Some i else index_of x l' (i + 1)
  end.

Definition char_str (b : byte) : string := String (ascii_of_byte b) EmptyString.

(** the body of the [if]/[elif] chain: the new value of one parameter *)
Definition param_value (spl_source : string) (fdt : Fdt) (spl_load_size : Z)
    (param : byte) (value : Z) : Logged Z :=
  if Byte.eqb param "m" then
    mem_type ← quiet (GetString fdt "/dmc" "mem-type");
    let mem_types := ["ddr2"; "ddr3"; "lpddr2"; "lpddr3"] in
    match index_of mem_type mem_types 0 with
    | None => fail (CmdError ("Unknown memory type '" +:+ mem_type +:+ "'"))
    | Some value =>
        say LvInfo ("  Memory type: " +:+ mem_type +:+ " (" +:+ fmt_d value +:+ ")");;
        mret value
    end
  else if Byte.eqb param "M" then
    mem_manuf ← quiet (GetString fdt "/dmc" "mem-manuf");
    let mem_manufs := ["autodetect"; "elpida"; "samsung"] in
    match index_of mem_manuf mem_manufs 0 with
    | None => fail (CmdError ("Unknown memory manufacturer: '" +:+ mem_manuf +:+ "'"))
    | Some value =>
        say LvInfo ("  Memory manufacturer: " +:+ mem_manuf +:+ " (" +:+
                    fmt_d value +:+ ")");;
        mret value
    end
  else if Byte.eqb param "f" then
    hz ← quiet (GetInt fdt "/dmc" "clock-frequency" None);
    let mem_freq := hz / 1000000 in
    (if (mem_freq =? 533) || (mem_freq =? 667) || (mem_freq =? 800) then mret tt
     else say LvWarning ("Unexpected memory speed '" +:+ fmt_d mem_freq +:+ "'"));;
    say LvInfo ("  Memory speed: " +:+ fmt_d mem_freq);;
    mret mem_freq
  else if Byte.eqb param "v" then
    let value := 31 in
    say LvInfo ("  Memory interleave: " +:+ fmt_alt_x value);;
    mret value
  else if Byte.eqb param "u" then
    let value := Z.land (spl_load_size + 0xfff) (Z.lnot 0xfff) in
    say LvInfo ("  U-Boot size: " +:+ fmt_alt_x value +:+ " (rounded up from " +:+
                fmt_alt_x spl_load_size +:+ ")");;
    mret value
  else if Byte.eqb param "b" then
    value ← (if String.eqb spl_source "straps" then mret 32
             else if String.eqb spl_source "emmc" then mret 4
             else if String.eqb spl_source "spi" then mret 20
             else if String.eqb spl_source "usb" then mret 33
             else fail (CmdError ("Invalid boot source '" +:+ spl_source +:+ "'")));
    say LvInfo ("  Boot source: " +:+ fmt_alt_x value);;
    mret value
  else
    say LvWarning ("Unknown machine parameter type '" +:+ char_str param +:+ "'");;
    say LvInfo ("  Unknown value: " +:+ fmt_alt_x value);;
    mret value.

(** the [for param in param_list] loop *)
Fixpoint update_params (spl_source : string) (fdt : Fdt) (spl_load_size : Z)
    (data : bytes) (pos : Z) (param_list : bytes) (upto : Z) (new_data : bytes)
  : Logged bytes :=
  match param_list with
  | [] => mret new_data
  | param :: rest =>
      value ← quiet (unpack_L (slice data (pos + upto) (pos + upto + 4)));
      value ← param_value spl_source fdt spl_load_size param value;
      packed ← quiet (pack_L value);
      update_params spl_source fdt spl_load_size data pos rest (upto + 4)
                    (new_data ++ packed)
  end.

(** [struct.unpack('<%ds' % n, s)[0]] *)
Definition unpack_s (n : Z) (s : bytes) : result bytes :=
  if n =? len s then Ok s else Raise StructError.

Definition _UpdateBl2Parameters (spl_source : string) (fdt : Fdt)
    (spl_load_size : Z) (data : bytes) (pos : Z) : Logged bytes :=
  '(version, size) ← quiet (unpack_2L (slice data (pos + 4) (pos + 12)));
  if negb (version =? 1) then
    fail (CmdError ("Cannot update machine parameter block version '" +:+
                    fmt_d version +:+ "'"))
  else if (size <? 0) || (pos + size >? len data) then
    fail (CmdError ("Machine parameter block size " +:+ fmt_d size +:+
                    " is invalid: pos=" +:+ fmt_d pos +:+ ", size=" +:+
                    fmt_d size +:+ ", space=" +:+ fmt_d (len data - pos) +:+
                    ", len=" +:+ fmt_d (len data)))
  else
    let pos := pos + 12 in
    param_list ← quiet (unpack_s (len data - pos) (slice_from data pos));
    let param_len := py_find [x00] param_list in
    let param_list := slice_to param_list param_len in
    let pos := pos + Z.land (param_len + 4) (Z.lnot 3) in
    new_data ← update_params spl_source fdt spl_load_size data pos param_list 0 [];
    let data := slice_to data pos ++ new_data ++ slice_from data (pos + len new_data) in
    say LvInfo "BL2 configuration complete";;
    mret data.

(** ** Bundle.ConfigureExynosBl2 *)

Definition MARKER : Z := 0xdeadbeef.

Definition ConfigureExynosBl2 (spl_source : string) (fdt : Fdt)
    (spl_load_size : Z) (orig_bl2 : string) (name : string) : M string :=
  out_Info "Configuring BL2";;
  w ← get_world;
  let bl2 := path_join (outdir w) ("updated-spl" +:+ name +:+ ".bin") in
  data ← ReadFile orig_bl2;
  WriteFile bl2 data;;
  data ← ReadFile bl2;
  marker ← lift (pack_L MARKER);
  let pos := py_rfind marker data in
  if pos =? 0 then
    raise (CmdError ("Could not find machine parameter block in '" +:+
                     orig_bl2 +:+ "'"))
  else
    data ← logged (_UpdateBl2Parameters spl_source fdt spl_load_size data pos);
    data ← lift (_UpdateChecksum data);
    WriteFile bl2 data;;
    mret bl2.

(** ** write_firmware.RoundUp *)

Definition RoundUp (value boundary : Z) : Z :=
  Z.land (value + boundary - 1) (Z.lnot (boundary - 1)).

(** ** WriteFirmware._GetFlashScript *)

Definition dq : string := String (ascii_of_nat 34) EmptyString.

Definition replace_me : string := "zsHEXYla".

Definition _GetFlashScript (payload_size : Z) (update verify : bool)
    (boot_type : string) (checksum : Z) (bus : string) : string * string :=
  let page_size := 4096 in
  let page_size := if String.eqb boot_type "sdmmc" then 512 else page_size in
  let update := if negb (String.eqb boot_type "spi") then false else update in
  let cmds := [
    "setenv address       0x" +:+ replace_me;
    "setenv firmware_size " +:+ fmt_alt_x payload_size;
    "setenv length        " +:+ fmt_alt_x (RoundUp payload_size page_size);
    "setenv blocks   " +:+ fmt_alt_x (RoundUp payload_size page_size / page_size);
    "setenv _crc    " +:+ dq +:+ "crc32 -v ${address} ${firmware_size} " +:+
      fmt_alt_08x checksum +:+ dq;
    "setenv _clear  " +:+ dq +:+
      "echo Clearing RAM; mw.b     ${address} 0 ${length}" +:+ dq
  ] in
  let cmds :=
    if String.eqb boot_type "nand" then
      cmds ++ [
        "setenv _init   " +:+ dq +:+ "echo Init NAND;  nand info" +:+ dq;
        "setenv _erase  " +:+ dq +:+
          "echo Erase NAND; nand erase            0 ${length}" +:+ dq;
        "setenv _write  " +:+ dq +:+
          "echo Write NAND; nand write ${address} 0 ${length}" +:+ dq;
        "setenv _read   " +:+ dq +:+
          "echo Read NAND;  nand read  ${address} 0 ${length}" +:+ dq
      ]
    else if String.eqb boot_type "sdmmc" then
      cmds ++ [
        "setenv _init   " +:+ dq +:+
          "echo Init EMMC;  mmc rescan            0" +:+ dq;
        "setenv _erase  " +:+ dq +:+ "echo Erase EMMC; " +:+ dq;
        "setenv _write  " +:+ dq +:+
          "echo Write EMMC; mmc write 0 ${address} 0 ${blocks} boot1" +:+ dq;
        "setenv _read   " +:+ dq +:+
          "echo Read EMMC;  mmc read 0 ${address} 0 ${blocks} boot1" +:+ dq
      ]
    else
      cmds ++ [
        "setenv _init   " +:+ dq +:+
          "echo Init SPI;   sf probe            " +:+ bus +:+ dq;
        "setenv _erase  " +:+ dq +:+
          "echo Erase SPI;  sf erase            0 ${length}" +:+ dq;
        "setenv _write  " +:+ dq +:+
          "echo Write SPI;  sf write ${address} 0 ${length}" +:+ dq;
        "setenv _read   " +:+ dq +:+
          "echo Read SPI;   sf read  ${address} 0 ${length}" +:+ dq;
        "setenv _update " +:+ dq +:+
          "echo Update SPI; sf update ${address} 0 ${length}" +:+ dq
      ] in
  let cmds := cmds ++ [
    "echo Firmware loaded to ${address}, size ${firmware_size}, length ${length}";
    "if run _crc; then";
    "run _init"
  ] in
  let cmds :=
    if update then cmds ++ ["time run _update"]
    else cmds ++ ["run _erase"; "run _write"] in
  let cmds :=
    if verify then cmds ++ ["run _clear"; "run _read"; "run _crc"]
    else cmds ++ ["echo Skipping verify"] in
  let cmds := cmds ++ [
    "else";
    "echo";
    "echo " +:+ dq +:+
      "** Checksum error on load: please check download tool **" +:+ dq;
    "fi"
  ] in
  let script := String.concat "; " cmds in
  (script, replace_me).

(** [if x:] on a string that may be [None] *)
Definition given (o : option string) : bool :=
  match o with
  | Some s => negb (String.eqb s EmptyString)
  | None => false
  end.

Definition or_empty (o : option string) : string :=
  match o with
  | Some s => s
  | None => EmptyString
  end.

(** [data.find(sub, start)] for a start that is not negative *)
Definition py_find_from (sub data : bytes) (start : Z) : Z :=
  if start >? len data then -1
  else find_at sub (drop (Z.to_nat start) data) start.

Definition zeros (n : Z) : bytes := replicate (Z.to_nat n) x00.

Section WriteFirmware.

(** [binascii.crc32], the device-tree writer behind [fdt.PutString], and
    the regular-expression match that pulls the boot device out of a BCT
    dump, are taken as they come. *)
Variable crc32 : bytes -> Z.
Variable fdt_put_string : bytes -> string -> string -> string -> bytes.
Variable bct_boot_type : string -> result string.

(** Modelled from the spec: [fdt.Copy] and [fdt.PutString] belong to the
    device-tree accessors, which are not among the sources; a copy is a
    new file with the same contents, and a put rewrites the file. *)
Definition Fdt_Copy (fdt : Fdt) (new_name : string) : M Fdt :=
  data ← ReadFile (fname fdt);
  WriteFile new_name data;;
  mret (mkFdt new_name (GetString fdt) (GetInt fdt)).

Definition Fdt_PutString (fdt : Fdt) (node prop value : string) : M unit :=
  data ← ReadFile (fname fdt);
  WriteFile (fname fdt) (fdt_put_string data node prop value).

(** *** WriteFirmware.PrepareFlasher

    [assemble_flasher] is the part of the method between reading the
    files and writing the flasher: where the payload goes, the load
    address, its substitution into the device tree, and the image.
    [load_address] is a one-element tuple in the source, which [%]
    formats as its element; [len(a) is not len(b)] compares two small
    integers, which is [!=]. *)
Definition assemble_flasher (text_base : option Z) (replace_me : string)
    (data fdt_data payload_data : bytes) : result bytes :=
  let payload_offset := len data + len fdt_data in
  let alignment := 0x1000 in
  let payload_offset :=
    Z.land (payload_offset + alignment - 1) (Z.lnot (alignment - 1)) in
  text_base ← match text_base with
              | Some tb => Ok tb
              | None => Raise TypeError
              end;
  let load_address := text_base + payload_offset in
  let new_str := fmt_08x load_address in
  if negb (Nat.eqb (String.length replace_me) (String.length new_str)) then
    Raise (ValueError ("Internal error: replacement string '" +:+ replace_me +:+
                       "' length does not match new string '" +:+ new_str +:+ "'"))
  else
    let matches := count_matches (bytes_of replace_me) fdt_data 0 in
    if negb (matches =? 1) then
      Raise (ValueError ("Internal error: replacement string '" +:+ replace_me +:+
                         "' already exists in the fdt (" +:+ fmt_d matches +:+
                         " matches)"))
    else
      let fdt_data := re_sub (bytes_of replace_me) (bytes_of new_str) fdt_data 0 in
      let data := data ++ fdt_data in
      let data := data ++ zeros (payload_offset - len data) in
      let data := data ++ payload_data in
      Ok data.

Definition PrepareFlasher (uboot payload : string) (update verify : bool)
    (boot_type bus : string) : M string :=
  w ← get_world;
  fdt ← Fdt_Copy (_fdt (self w)) (path_join (outdir w) "flasher.dtb");
  payload_data ← ReadFile payload;
  let checksum := Z.land (crc32 payload_data) 0xffffffff in
  let '(script, replace_me) :=
    _GetFlashScript (len payload_data) update verify boot_type checksum bus in
  data ← ReadFile uboot;
  Fdt_PutString fdt "/config" "bootcmd" script;;
  fdt_data ← ReadFile (fname fdt);
  data ← lift (assemble_flasher (text_base (self w)) replace_me data fdt_data
                                payload_data);
  let flasher := path_join (outdir w) "flasher-for-image.bin" in
  WriteFile flasher data;;
  OutputSize "U-Boot" uboot;;
  OutputSize "Payload" payload;;
  Notice ("Payload checksum " +:+ fmt_08x checksum);;
  OutputSize "Flasher" flasher;;
  mret flasher.

(** *** WriteFirmware.NvidiaFlashImage *)

(** the [for _ in range(10)] loop around tegrarcm, [n] rounds to go *)
Fixpoint tegrarcm_loop (n : nat) (args : list string) (last_err : option string)
  : M bool :=
  match n with
  | O => mret false
  | S n' =>
      except_CmdError
        (Run "tegrarcm" args true;;
         Notice "Flasher downloaded - please see serial output for progress.";;
         mret true)
        (fun err =>
           w ← get_world;
           if negb (stdout_is_tty w) then mret false
           else if negb (contains "could not open USB device" err) then
             raise (CmdError ("tegrarcm failed: " +:+ err))
           else
             last_err' ← (if negb (bool_decide (Some err = last_err)) then
                            Notice err;;
                            Progress "Please connect USB A-A cable and do a recovery-reset";;
                            mret (Some err)
                          else mret last_err);
             sleep 1000;;
             tegrarcm_loop n' args last_err')
  end.

Definition NvidiaFlashImage (flash_dest : option string)
    (uboot bct payload : string) (bootstub : option string) : M bool :=
  bct_dumped ← Run "bct_dump" [bct] false;
  boot_type ← lift (bct_boot_type bct_dumped);
  w ← get_world;
  image ← (if given flash_dest then
             PrepareFlasher uboot payload (update (self w)) (verify (self w))
                            boot_type "0"
           else if given bootstub then mret (or_empty bootstub)
           else
             (if bool_decide (text_base (self w) = Some (-1)) then
                data ← ReadFile payload;
                tb ← lift (DecodeTextBase (slice_from data 0x10000));
                set_text_base tb
              else mret tt);;
             mret payload);
  w ← get_world;
  tb ← lift (match text_base (self w) with
             | Some tb => Ok tb
             | None => Raise TypeError
             end);
  Notice ("TEXT_BASE is " +:+ fmt_alt_x tb);;
  Progress "Uploading flasher image";;
  let args := ["--bct"; bct; "--bootloader"; image; "--loadaddr"; fmt_alt_x tb] in
  tegrarcm_loop 10 args None.

(** *** WriteFirmware._WaitForUSBDevice

    [time.time()] reads the clock of the world, in milliseconds.  Every
    round runs one command, which takes a millisecond at least, so
    [timeout] seconds allow no more than [1000 * timeout] rounds. *)
Fixpoint wait_loop (rounds : nat) (name : string) (args : list string)
    (start_time timeout_ms : Z) : M bool :=
  match rounds with
  | O => mret false
  | S rounds' =>
      w ← get_world;
      if clock w - start_time <? timeout_ms then
        except_CmdError
          (Run "lsusb" args true;;
           Progress ("Found " +:+ name +:+ " board");;
           mret true)
          (fun _ => wait_loop rounds' name args start_time timeout_ms)
      else mret false
  end.

Definition _WaitForUSBDevice (name : string) (vendor_id product_id timeout : Z)
  : M bool :=
  Progress "Waiting for board to appear on USB bus";;
  w ← get_world;
  let start_time := clock w in
  let args := ["-d"; fmt_04x vendor_id +:+ ":" +:+ fmt_04x product_id] in
  wait_loop (S (Z.to_nat (1000 * timeout))) name args start_time (1000 * timeout).

(** *** WriteFirmware._DutControl *)
Definition _DutControl (args : list string) : M string :=
  w ← get_world;
  match _servo_port (self w) with
  | None => raise (IOError "No servo access available, please use --servo")
  | Some port =>
      let args := if port =? 0 then args else args ++ ["-p"; fmt_d port] in
      Run "dut-control" args false
  end.

(** *** WriteFirmware._ExtractPayloadParts *)
Definition _ExtractPayloadParts (payload : string) : M (string * string * string) :=
  w ← get_world;
  let bl1 := path_join (outdir w) "bl1.bin" in
  let bl2 := path_join (outdir w) "bl2.bin" in
  let image := path_join (outdir w) "u-boot-from-image.bin" in
  data ← ReadFile payload;
  let bl1_size := 0x2000 in
  WriteFile bl1 (slice_to data bl1_size);;
  first_instr ← lift (pack_L 0xea000014);
  let uboot_offset := py_find_from first_instr data (bl1_size + 0x3800) in
  if uboot_offset =? -1 then
    raise (ValueError "Could not locate start of U-Boot")
  else
    let bl2_size := uboot_offset - bl1_size - 0x800 in
    let allowed := [14; 30] in
    if negb (bool_decide (Z.shiftr bl2_size 10 ∈ allowed)) then
      raise (ValueError ("BL2 size is " +:+ fmt_d (Z.shiftr bl2_size 10) +:+
                         "K - only " +:+
                         String.concat ", " (map fmt_d allowed) +:+ " supported"))
    else
      Notice ("BL2 size is " +:+ fmt_d (Z.shiftr bl2_size 10) +:+ "KB");;
      let bl2_end := uboot_offset - 0x800 in
      WriteFile bl2 (slice data 0x2000 bl2_end);;
      WriteFile image (slice_from data uboot_offset);;
      mret (bl1, bl2, image).

(** *** WriteFirmware.ExynosFlashImage *)

Definition required_dut_hub_sel : string := "dut_sees_servo".

(** the body of the [try]: one round per entry of [download_list] *)
Fixpoint download_stages (vendor_id product_id : Z)
    (items : list (string * Z * string)) (upto : Z) : M unit :=
  match items with
  | [] => mret tt
  | (stage, addr, file) :: rest =>
      found ← _WaitForUSBDevice "exynos" vendor_id product_id 4;
      if negb found then
        if upto =? 0 then raise (CmdError "Could not find Exynos board on USB port")
        else raise (CmdError ("Stage '" +:+ stage +:+ "' did not complete"))
      else
        Notice file;;
        Progress ("Uploading stage '" +:+ stage +:+ "'");;
        (if upto =? 0 then sleep 500 else mret tt);;
        Run "smdk-usbdl" ["-a"; fmt_alt_x addr; "-f"; file] true;;
        (if upto =? 1 then
           _DutControl ["fw_up:off"; "pwr_button:release"];; mret tt
         else mret tt);;
        download_stages vendor_id product_id rest (upto + 1)
  end.

(** the [finally] clause *)
Definition release_servo (preserved_dut_hub_sel : string) : M unit :=
  let args := ["fw_up:off"; "pwr_button:release"] in
  let args :=
    if negb (String.eqb preserved_dut_hub_sel required_dut_hub_sel)
    then args ++ ["dut_hub_sel:" +:+ preserved_dut_hub_sel]
    else args in
  _DutControl args;; mret tt.

(** the signals of the reset that precedes the transfer *)
Definition reset_args (preserved_dut_hub_sel : string) : list string :=
  let args := ["warm_reset:on"; "fw_up:on"; "pwr_button:press"; "sleep:.1";
               "warm_reset:off"] in
  let args :=
    if negb (String.eqb preserved_dut_hub_sel required_dut_hub_sel)
    then args ++ ["dut_hub_sel:" +:+ required_dut_hub_sel]
    else args in
  ["cold_reset:on"; "sleep:.2"; "cold_reset:off"] ++ args.

(** the [try] ... [finally] statement *)
Definition transfer (vendor_id product_id : Z)
    (download_list : list (string * Z * string))
    (preserved_dut_hub_sel : string) : M unit :=
  try_finally
    (download_stages vendor_id product_id download_list 0)
    (release_servo preserved_dut_hub_sel).

Definition ExynosFlashImage (flash_dest : option string)
    (flash_uboot bl1 bl2 payload : string) (kernel : option string) : M bool :=
  w ← get_world;
  '(bl1, bl2, image) ←
    (if given flash_dest then
       image ← PrepareFlasher flash_uboot payload (update (self w))
                              (verify (self w)) (or_empty flash_dest) "1:0";
       mret (bl1, bl2, image)
     else _ExtractPayloadParts payload);
  let vendor_id := 0x04e8 in
  let product_id := 0x1234 in
  answer ← _DutControl ["dut_hub_sel"];
  let preserved_dut_hub_sel := after_last_colon (strip answer) in
  let args := reset_args preserved_dut_hub_sel in
  Progress "Reseting board via servo";;
  _DutControl args;;
  dl_image ←
    (if given kernel then
       let dl_image := path_join (outdir w) "image-plus-kernel.bin" in
       data ← ReadFile image;
       payload_data ← ReadFile payload;
       let data := data ++ zeros (len payload_data - len data) in
       kernel_data ← ReadFile (or_empty kernel);
       WriteFile dl_image (data ++ kernel_data);;
       mret dl_image
     else mret image);
  Progress "Uploading image";;
  let download_list := [
    ("bl1", 0x02021400, bl1);
    ("bl2", 0x02023400, bl2);
    ("u-boot", 0x43e00000, dl_image)
  ] in
  transfer vendor_id product_id download_list preserved_dut_hub_sel;;
  Notice "Image downloaded - please see serial output for progress.";;
  mret true.

End WriteFirmware.

(** * The vocabulary of the statements *)

Definition W0 : list Z := py_range 0 (0 + 160) 4.
Definition W1 : list Z := py_range 0x4000 (0x4000 + 160) 4.

Definition declared_fdt (declared : Z) : Fdt :=
  mkFdt "board.dtb"
    (fun _ _ => Raise (CmdError "no such property"))
    (fun _ prop default =>
       if String.eqb prop "textbase" then Ok declared
       else match default with
            | Some v => Ok v
            | None => Raise (CmdError "no such property")
            end).

Definition idle_world (fs : gmap string bytes) (fdt : Fdt) : world :=
  mkWorld fs [] 0 (fun _ _ _ => Ok EmptyString) (fun _ => 1) 0 "out" true
          (mkWriteFirmware fdt (Some 0x108000) true false (Some 0)).

Definition add_events (w : world) (evs : list event) : world :=
  mkWorld (files w) (trace w ++ evs) (ncalls w) (tool w) (duration w)
          (clock w) (outdir w) (stdout_is_tty w) (self w).

Definition text_base_info (declared : Z) (fname text_base_str : string) : event :=
  EvOut LvInfo ("TEXT_BASE: fdt says " +:+ fmt_alt_x declared +:+ ", " +:+
                fname +:+ " says " +:+ text_base_str).

Definition text_base_warning (v : Z) (name : string) (declared : Z) : event :=
  EvOut LvWarning ("TEXT_BASE " +:+ fmt_x v +:+ " in " +:+ name +:+
                   "U-Boot doesn't match fdt value of " +:+ fmt_x declared +:+
                   ". Using " +:+ fmt_x v).

Definition with_file (w : world) (name : string) (data : bytes) : world :=
  mkWorld (<[name := data]> (files w)) (trace w ++ [EvWrite name data])
          (ncalls w) (tool w) (duration w) (clock w) (outdir w)
          (stdout_is_tty w) (self w).

Definition out_events (msgs : list (level * string)) : list event :=
  map (fun lm => EvOut (fst lm) (snd lm)) msgs.

Definition bl2_name (w : world) (name : string) : string :=
  path_join (outdir w) ("updated-spl" +:+ name +:+ ".bin").

(** the world once the copy of the original has been written *)
Definition bl2_copied (w : world) (name : string) (data : bytes) : world :=
  with_file (add_events w [EvOut LvInfo "Configuring BL2"]) (bl2_name w name) data.

Definition board_fdt (mem_type mem_manuf : string) (clock_frequency : Z) : Fdt :=
  mkFdt "board.dtb"
    (fun _ prop =>
       if String.eqb prop "mem-type" then Ok mem_type
       else if String.eqb prop "mem-manuf" then Ok mem_manuf
       else Raise (CmdError "no such property"))
    (fun _ prop default =>
       if String.eqb prop "clock-frequency" then Ok clock_frequency
       else match default with
            | Some v => Ok v
            | None => Raise (CmdError "no such property")
            end).

Definition bl2_example (params : string) (pad slots tail : bytes) : bytes :=
  [x00] ++ le_bytes MARKER ++ le_bytes 1 ++
  le_bytes (12 + len (bytes_of params) + len pad + len slots + len tail + 4) ++
  bytes_of params ++ pad ++ slots ++ tail ++ le_bytes 0.

Definition bad_version_bl2 : bytes :=
  [x00] ++ le_bytes MARKER ++ le_bytes 2 ++ le_bytes 24 ++ bytes_of "v" ++
  [x00; x00; x00] ++ le_bytes 0 ++ le_bytes 0.

Definition payload_offset_of (data fdt_data : bytes) : Z :=
  Z.land (len data + len fdt_data + 0x1000 - 1) (Z.lnot (0x1000 - 1)).

Section FlasherFiles.
Variable crc32 : bytes -> Z.
Variable fdt_put_string : bytes -> string -> string -> string -> bytes.

(** the device tree that carries the script, as [PrepareFlasher] reads it back *)
Definition flasher_fdt (d payload_data : bytes) (update verify : bool)
    (boot_type bus : string) : bytes :=
  fdt_put_string d "/config" "bootcmd"
    (fst (_GetFlashScript (len payload_data) update verify boot_type
            (Z.land (crc32 payload_data) 0xffffffff) bus)).

Definition dtb_name (w : world) : string := path_join (outdir w) "flasher.dtb".
Definition flasher_name (w : world) : string :=
  path_join (outdir w) "flasher-for-image.bin".

(** the world when the image is about to be assembled *)
Definition fdt_written (w : world) (d fdt_data : bytes) : world :=
  with_file (with_file w (dtb_name w) d) (dtb_name w) fdt_data.

End FlasherFiles.

(** a short device tree for the examples: 42 bytes of the script, then the
    old contents *)
Definition short_put (d : bytes) (node prop value : string) : bytes :=
  take 42 (drop 22 (bytes_of value)) ++ d.

(** CRC-32, bit by bit *)
Fixpoint crc32_bits (n : nat) (crc : Z) : Z :=
  match n with
  | O => crc
  | Datatypes.S n' =>
      crc32_bits n' (if Z.odd crc then Z.lxor (Z.shiftr crc 1) 0xedb88320
                     else Z.shiftr crc 1)
  end.

Definition crc32_bitwise (data : bytes) : Z :=
  Z.lxor (fold_left (fun crc ch => crc32_bits 8 (Z.lxor crc (ord ch))) data 0xffffffff)
         0xffffffff.

Definition flasher_world (text_base : Z) : world :=
  mkWorld {[ "board.dtb" := replicate 8 x01;
             "u-boot.bin" := replicate 100 x02;
             "image.bin" := bytes_of "PAYLOAD" ]}
          [] 0 (fun _ _ _ => Ok EmptyString) (fun _ => 1) 0 "out" true
          (mkWriteFirmware (declared_fdt text_base) (Some text_base) true false (Some 0)).

Definition not_enumerated (err : string) : bool :=
  contains "could not open USB device" err.

Definition prompt : event :=
  EvOut LvProgress "Please connect USB A-A cable and do a recovery-reset".

Definition downloaded : event :=
  EvOut LvNotice "Flasher downloaded - please see serial output for progress.".

(** what one failed, retried attempt leaves in the trace *)
Definition retry_events (args : list string) (last_err : option string) (err : string)
  : list event :=
  [EvRun "tegrarcm" args true] ++
  (if bool_decide (Some err = last_err) then [] else [EvOut LvNotice err; prompt]) ++
  [EvSleep 1000].

Fixpoint retries_events (args : list string) (last_err : option string)
    (errs : list string) : list event :=
  match errs with
  | [] => []
  | err :: rest => retry_events args last_err err ++ retries_events args (Some err) rest
  end.

Definition last_error (last_err : option string) (errs : list string) : option string :=
  match last errs with
  | Some err => Some err
  | None => last_err
  end.

(** the world after an attempt that failed and is retried *)
Definition after_retry (w : world) (args : list string) (last_err : option string)
    (err : string) : world :=
  mkWorld (files w) (trace w ++ retry_events args last_err err) (Datatypes.S (ncalls w))
          (tool w) (duration w)
          (clock w + Z.max 1 (duration w (ncalls w)) + 1000) (outdir w)
          (stdout_is_tty w) (self w).

(** the world after a command has been run *)
Definition after_run (w : world) (cmd : string) (args : list string) (sudo : bool)
  : world :=
  mkWorld (files w) (trace w ++ [EvRun cmd args sudo]) (Datatypes.S (ncalls w))
          (tool w) (duration w)
          (clock w + Z.max 1 (duration w (ncalls w))) (outdir w)
          (stdout_is_tty w) (self w).

(** a world whose tegrarcm fails [fails] times with [err] and then works *)
Definition flaky_world (fails : nat) (err : string) (tty : bool) : world :=
  mkWorld ∅ [] 0
          (fun n cmd _ =>
             if String.eqb cmd "tegrarcm" && (n <? fails)%nat
             then Raise (CmdError err) else Ok EmptyString)
          (fun _ => 1) 0 "out" tty
          (mkWriteFirmware (declared_fdt 0x108000) (Some 0x108000) true false (Some 0)).

Definition release_args (preserved_dut_hub_sel : string) : list string :=
  ["fw_up:off"; "pwr_button:release"] ++
  (if negb (String.eqb preserved_dut_hub_sel required_dut_hub_sel)
   then ["dut_hub_sel:" +:+ preserved_dut_hub_sel] else []).

Definition port_args (port : Z) : list string :=
  if port =? 0 then [] else ["-p"; fmt_d port].

(** the arguments of the dut-control commands of a trace, in order *)
Fixpoint dut_control_args (tr : list event) : list string :=
  match tr with
  | [] => []
  | EvRun cmd args _ :: tr' =>
      (if String.eqb cmd "dut-control" then args else []) ++ dut_control_args tr'
  | _ :: tr' => dut_control_args tr'
  end.

Fixpoint strip_prefix (p s : string) : option string :=
  match p, s with
  | EmptyString, _ => Some s
  | String a p', String b s' => if Ascii.eqb a b then strip_prefix p' s' else None
  | String _ _, EmptyString => None
  end.

(** the value an argument [line:value] gives to a control line *)
Definition setting_of (line arg : string) : option string :=
  strip_prefix (line +:+ ":") arg.

(** the value a control line is left with by a sequence of arguments *)
Definition last_setting (line : string) (args : list string) : option string :=
  fold_left (fun acc arg => match setting_of line arg with
                            | Some v => Some v
                            | None => acc
                            end) args None.

(** no dut-control command of [mid] but the early release of the button *)
Definition servo_quiet (port : Z) (mid : list event) : Prop :=
  Forall (fun ev => forall cmd a s, ev = EvRun cmd a s -> cmd = "dut-control" ->
                    a = ["fw_up:off"; "pwr_button:release"] ++ port_args port) mid.

Definition grows (port : Z) {A} (m : M A) : Prop :=
  forall w, _servo_port (self w) = Some port ->
    exists mid, trace (fst (m w)) = trace w ++ mid /\
                self (fst (m w)) = self w /\
                servo_quiet port mid.

Definition leading_ok (s : string) : bool :=
  match s with
  | EmptyString => true
  | String c _ => (nat_of_ascii c <? 58)%nat
  end.

Definition is_line (line : string) : Prop :=
  line = "fw_up" \/ line = "pwr_button" \/ line = "warm_reset" \/
  line = "cold_reset" \/ line = "dut_hub_sel".

Definition keep (line : string) (acc : option string) (arg : string) : option string :=
  match setting_of line arg with
  | Some v => Some v
  | None => acc
  end.

(** a world with a servo on [port] whose board shows up at once *)
Definition servo_world (port : Z) : world :=
  mkWorld ∅ [] 0 (fun _ _ _ => Ok EmptyString) (fun _ => 1) 0 "out" true
          (mkWriteFirmware (declared_fdt 0x108000) (Some 0x108000) true false (Some port)).

(** the parameter codes of the block at [pos], and where their value slots
    begin, as [_UpdateBl2Parameters] works them out *)
Definition param_codes (data : bytes) (pos : Z) : bytes :=
  let param_list := slice_from data (pos + 12) in
  slice_to param_list (py_find [x00] param_list).

Definition param_slots (data : bytes) (pos : Z) : Z :=
  pos + 12 + Z.land (py_find [x00] (slice_from data (pos + 12)) + 4) (Z.lnot 3).

(** the [k]-th value slot *)
Definition slot (data : bytes) (slots : Z) (k : nat) : bytes :=
  slice data (slots + 4 * Z.of_nat k) (slots + 4 * Z.of_nat k + 4).

Definition known_code (param : byte) : bool :=
  Byte.eqb param "m" || Byte.eqb param "M" || Byte.eqb param "f" ||
  Byte.eqb param "v" || Byte.eqb param "u" || Byte.eqb param "b".

(** the word [DecodeTextBase] reads at offset [i] *)
Definition word_at (data : bytes) (i : Z) : Z := le_value (slice data i (i + 4)).

(** the offsets in the order [DecodeTextBase] visits them: the forty words
    of the first window, then the forty words of the second *)
Definition scan_order : list Z := W0 ++ W1.

(** the offset of the [j]-th word visited *)
Definition word_offset (j : nat) : Z :=
  if (j <? 40)%nat then 4 * Z.of_nat j else 0x4000 + 4 * (Z.of_nat j - 40).

(** text in which no [z] is followed by [s], and which does not end in [z]:
    the placeholder cannot begin in it *)
Fixpoint tame (data : bytes) : bool :=
  match data with
  | [] => true
  | b :: rest =>
      match rest with
      | [] => negb (Byte.eqb "z" b)
      | c :: _ => negb (Byte.eqb "z" b && Byte.eqb "s" c) && tame rest
      end
  end.

(** text without the letter [z] *)
Definition noz (data : bytes) : bool := forallb (fun b => negb (Byte.eqb "z" b)) data.

Definition tame_s (s : string) : Prop := tame (bytes_of s) = true.

(** the external commands of a trace, and the time it sleeps *)
Definition runs (tr : list event) : list event :=
  List.filter (fun ev => match ev with EvRun _ _ _ => true | _ => false end) tr.

Fixpoint slept (tr : list event) : Z :=
  match tr with
  | [] => 0
  | EvSleep ms :: tr' => ms + slept tr'
  | _ :: tr' => slept tr'
  end.

(** the world with another text base *)
Definition with_text_base (w : world) (tb : option Z) : world :=
  mkWorld (files w) (trace w) (ncalls w) (tool w) (duration w) (clock w)
          (outdir w) (stdout_is_tty w)
          (mkWriteFirmware (_fdt (self w)) tb (update (self w))
                           (verify (self w)) (_servo_port (self w))).

(** a world whose payload is [data] and whose text base is not known *)
Definition payload_world (data : bytes) : world :=
  mkWorld {[ "image.bin" := data ]} [] 0 (fun _ _ _ => Ok EmptyString) (fun _ => 1) 0
          "out" true
          (mkWriteFirmware (declared_fdt (-1)) (Some (-1)) true false (Some 0)).

Definition lsusb_args (vendor_id product_id : Z) : list string :=
  ["-d"; fmt_04x vendor_id +:+ ":" +:+ fmt_04x product_id].

Definition waiting : event := EvOut LvProgress "Waiting for board to appear on USB bus".

Definition found_board (name : string) : event :=
  EvOut LvProgress ("Found " +:+ name +:+ " board").

(** a world where lsusb fails [fails] times, each call taking [ms] *)
Definition usb_world (fails : nat) (ms : Z) : world :=
  mkWorld ∅ [] 0
          (fun n cmd _ =>
             if (n <? fails)%nat then Raise (CmdError "no device") else Ok EmptyString)
          (fun _ => ms) 0 "out" true
          (mkWriteFirmware (declared_fdt 0x108000) (Some 0x108000) true false (Some 0)).

(** the first instruction of U-Boot, and where [_ExtractPayloadParts] finds it *)
Definition first_instr : bytes := le_bytes 0xea000014.

Definition uboot_offset_of (data : bytes) : Z :=
  py_find_from first_instr data (0x2000 + 0x3800).

Definition bl1_name (w : world) : string := path_join (outdir w) "bl1.bin".
Definition bl2_part_name (w : world) : string := path_join (outdir w) "bl2.bin".
Definition image_name (w : world) : string := path_join (outdir w) "u-boot-from-image.bin".

(** an Exynos payload: BL1, a BL2 of [bl2_size] bytes, the gap, U-Boot *)
Definition exynos_payload (bl2_size : Z) (uboot : bytes) : bytes :=
  replicate 0x2000 x01 ++ replicate (Z.to_nat bl2_size) x02 ++ replicate 0x800 x00 ++
  first_instr ++ uboot.

(** a computation that runs no external command, does not sleep and leaves
    the [WriteFirmware] object alone *)
Definition calm {A} (m : M A) : Prop :=
  forall w, exists mid,
    trace (fst (m w)) = trace w ++ mid /\ runs mid = [] /\ slept mid = 0 /\
    self (fst (m w)) = self w.

Definition no_servo : exn := IOError "No servo access available, please use --servo".

(** a world without a servo *)
Definition no_servo_world (fs : gmap string bytes) : world :=
  mkWorld fs [] 0 (fun _ _ _ => Ok EmptyString) (fun _ => 1) 0 "out" true
          (mkWriteFirmware (declared_fdt 0x108000) (Some 0x108000) true false None).

(** ** WriteFirmware.WriteToSd

    [spl_source] is the attribute of the bundle that [ConfigureExynosBl2]
    consults.  [os.stat(raw_image).st_size] is the length of the file that
    [PrepareFlasher] has just written. *)
Definition WriteToSd (crc32 : bytes -> Z)
    (fdt_put_string : bytes -> string -> string -> string -> bytes)
    (spl_source : string) (flash_dest : option string) (disk uboot payload : string)
  : M unit :=
  w ← get_world;
  image ←
    (if given flash_dest then
       raw_image ← PrepareFlasher crc32 fdt_put_string uboot payload (update (self w))
                                  (verify (self w)) (or_empty flash_dest) "1:0";
       '(bl1, bl2, _) ← _ExtractPayloadParts payload;
       raw ← ReadFile raw_image;
       let spl_load_size := len raw in
       bl2 ← ConfigureExynosBl2 spl_source (_fdt (self w)) spl_load_size bl2 "flasher";
       bl1_data ← ReadFile bl1;
       bl2_data ← ReadFile bl2;
       let data := bl1_data ++ bl2_data in
       let data := data ++ zeros (0x6000 - len data) in
       raw_data ← ReadFile raw_image;
       let data := data ++ raw_data in
       let image := path_join (outdir w) "flasher-with-bl.bin" in
       WriteFile image data;;
       Progress ("Writing flasher to " +:+ disk);;
       mret image
     else
       Progress ("Writing image to " +:+ disk);;
       mret payload);
  Run "dd" ["if=" +:+ image; "of=" +:+ disk; "bs=512"; "seek=1"] true;;
  mret tt.

Definition sd_image_name (w : world) : string :=
  path_join (outdir w) "flasher-with-bl.bin".

Definition dd_args (image disk : string) : list string :=
  ["if=" +:+ image; "of=" +:+ disk; "bs=512"; "seek=1"].

(** a payload with an 8KB BL1, a 14KB BL2 that carries a parameter block,
    the gap and U-Boot, and a world that holds it *)
Definition sd_payload : bytes :=
  replicate 0x2000 x01 ++
  bl2_example "v" [x00; x00; x00] (zeros 4) (zeros (0x3800 - 25)) ++
  replicate 0x800 x00 ++ first_instr ++ bytes_of "u-boot".

Definition sd_world : world :=
  mkWorld {[ "board.dtb" := replicate 8 x01;
             "u-boot.bin" := replicate 100 x02;
             "image.bin" := sd_payload ]}
          [] 0 (fun _ _ _ => Ok EmptyString) (fun _ => 1) 0 "out" true
          (mkWriteFirmware (declared_fdt 0x108000) (Some 0x108000) true false (Some 0)).

(** the download of one stage, and the downloads of a trace *)
Definition usbdl (item : string * Z * string) : event :=
  match item with
  | (_, addr, file) => EvRun "smdk-usbdl" ["-a"; fmt_alt_x addr; "-f"; file] true
  end.

Definition downloads (tr : list event) : list event :=
  List.filter (fun ev => match ev with
                         | EvRun cmd _ _ => String.eqb cmd "smdk-usbdl"
                         | _ => false
                         end) tr.

(** a computation that downloads nothing *)
Definition no_download {A} (m : M A) : Prop :=
  forall w, exists mid, trace (fst (m w)) = trace w ++ mid /\ downloads mid = [].

(** a computation whose downloads are a prefix of [evs], and all of [evs]
    when it ends normally *)
Definition downloads_within {A} (evs : list event) (m : M A) : Prop :=
  forall w, exists mid rest,
    trace (fst (m w)) = trace w ++ mid /\
    evs = downloads mid ++ rest /\
    (forall a, snd (m w) = Ok a -> rest = []).

(** * Properties *)

(** * Bytes and words *)

Lemma ord_range (b : byte) : 0 <= ord b < 256.
Proof. unfold ord. pose proof (Byte.to_N_bounded b). lia. Qed.

Lemma ord_chr (v : Z) : ord (chr v) = v mod 256.
Proof.
  unfold ord, chr.
  assert (Hm : 0 <= v mod 256 < 256) by (apply Z.mod_pos_bound; lia).
  destruct (Byte.of_N (Z.to_N (v mod 256))) as [b|] eqn:E.
  - apply Byte.to_of_N in E. rewrite E. lia.
  - apply Byte.of_N_None_iff in E. lia.
Qed.

Lemma ord_inj (a b : byte) : ord a = ord b -> a = b.
Proof.
  unfold ord. intros H.
  assert (E : Byte.to_N a = Byte.to_N b) by lia.
  pose proof (Byte.of_to_N a) as Ha. pose proof (Byte.of_to_N b) as Hb.
  rewrite E in Ha. congruence.
Qed.

Lemma le_value_le_bytes (v : Z) : 0 <= v < 2 ^ 32 -> le_value (le_bytes v) = v.
Proof.
  intros Hv. unfold le_bytes, le_value. rewrite !ord_chr.
  change (2 ^ 32) with 4294967296 in Hv.
  pose proof (Z.div_mod v 256 ltac:(lia)).
  pose proof (Z.div_mod (v / 256) 256 ltac:(lia)).
  pose proof (Z.div_mod (v / 256 / 256) 256 ltac:(lia)).
  replace (v / 65536) with (v / 256 / 256) by (rewrite Z.div_div by lia; reflexivity).
  replace (v / 16777216) with (v / 256 / 256 / 256) by (rewrite !Z.div_div by lia; reflexivity).
  assert (v / 256 / 256 / 256 < 256).
  { apply Z.div_lt_upper_bound; [lia|]. apply Z.div_lt_upper_bound; [lia|].
    apply Z.div_lt_upper_bound; lia. }
  assert (0 <= v / 256 / 256 / 256).
  { apply Z.div_pos; [|lia]. apply Z.div_pos; [|lia]. apply Z.div_pos; lia. }
  rewrite (Z.mod_small (v / 256 / 256 / 256)) by lia.
  lia.
Qed.

Lemma length_le_bytes (v : Z) : length (le_bytes v) = 4%nat.
Proof. reflexivity. Qed.

Lemma pack_L_Ok (v : Z) (packed : bytes) :
  pack_L v = Ok packed -> packed = le_bytes v /\ 0 <= v < 2 ^ 32.
Proof.
  unfold pack_L. destruct (0 <=? v) eqn:E1; destruct (v <? 2 ^ 32) eqn:E2;
    simpl; intros H; inversion H; subst. split; [reflexivity|lia].
Qed.

Lemma pack_L_in_range (v : Z) : 0 <= v < 2 ^ 32 -> pack_L v = Ok (le_bytes v).
Proof.
  intros Hv. unfold pack_L.
  destruct (0 <=? v) eqn:E1; destruct (v <? 2 ^ 32) eqn:E2; simpl; try reflexivity; lia.
Qed.

Lemma le_value_range (word : bytes) : 0 <= le_value word < 256 ^ Z.of_nat (length word).
Proof.
  induction word as [|b word IH].
  - simpl. lia.
  - cbn [le_value length]. pose proof (ord_range b).
    rewrite Nat2Z.inj_succ, Z.pow_succ_r by lia. lia.
Qed.

Lemma unpack_pack (v : Z) (packed : bytes) :
  pack_L v = Ok packed -> unpack_L packed = Ok v.
Proof.
  intros H. apply pack_L_Ok in H as [-> Hv].
  unfold unpack_L. rewrite length_le_bytes.
  destruct (decide (4%nat = 4%nat)); [|congruence].
  f_equal. apply le_value_le_bytes; assumption.
Qed.

(** * Slices *)

Lemma slice_in_range (data : bytes) (lo hi : Z) :
  0 <= lo <= hi -> hi <= len data ->
  slice data lo hi = take (Z.to_nat (hi - lo)) (drop (Z.to_nat lo) data).
Proof.
  intros H1 H2. unfold slice, slice_bound, len in *.
  destruct (lo <? 0) eqn:E1; [lia|]. destruct (hi <? 0) eqn:E2; [lia|].
  rewrite !Z.min_r, !Z.max_r by lia. reflexivity.
Qed.

Lemma slice_to_in_range (data : bytes) (hi : Z) :
  0 <= hi <= len data -> slice_to data hi = take (Z.to_nat hi) data.
Proof.
  intros H. unfold slice_to. rewrite slice_in_range by lia.
  rewrite Z.sub_0_r. reflexivity.
Qed.

Lemma slice_from_in_range (data : bytes) (lo : Z) :
  0 <= lo <= len data -> slice_from data lo = drop (Z.to_nat lo) data.
Proof.
  intros H. unfold slice_from. fold (len data). rewrite slice_in_range by lia.
  apply take_ge. rewrite length_drop. unfold len in *. lia.
Qed.

Lemma slice_to_neg4 (data : bytes) :
  (4 <= length data)%nat -> slice_to data (-4) = take (length data - 4) data.
Proof.
  intros H. unfold slice_to, slice, slice_bound.
  change (0 <? 0) with false. change (-4 <? 0) with true. cbv iota.
  rewrite (Z.min_r _ 0), (Z.max_l 0 0) by lia.
  rewrite Z.min_r, Z.max_r by lia.
  rewrite drop_0. f_equal. lia.
Qed.

Lemma length_slice (data : bytes) (lo hi : Z) :
  0 <= lo <= hi -> hi <= len data -> len (slice data lo hi) = hi - lo.
Proof.
  intros H1 H2. rewrite slice_in_range by assumption.
  unfold len in *. rewrite length_take, length_drop. lia.
Qed.

Lemma slice_length_le (data : bytes) (lo hi : Z) :
  0 <= lo < hi -> len data < hi -> (length (slice data lo hi) < Z.to_nat (hi - lo))%nat.
Proof.
  intros H1 H3. unfold slice, slice_bound, len in *.
  destruct (lo <? 0) eqn:E1; [lia|]. destruct (hi <? 0) eqn:E2; [lia|].
  rewrite length_take, length_drop. lia.
Qed.

(** * The byte sum *)

Lemma byte_sum_from (data : bytes) (acc : Z) :
  fold_left (fun checksum ch => checksum + ord ch) data acc = acc + byte_sum data.
Proof.
  unfold byte_sum. revert acc. induction data as [|b data IH]; intros acc; simpl.
  - lia.
  - rewrite IH, (IH (0 + ord b)). lia.
Qed.

Lemma byte_sum_cons (b : byte) (data : bytes) : byte_sum (b :: data) = ord b + byte_sum data.
Proof. unfold byte_sum at 1. simpl. apply byte_sum_from. Qed.

Lemma byte_sum_app (a b : bytes) : byte_sum (a ++ b) = byte_sum a + byte_sum b.
Proof.
  induction a as [|x a IH]; simpl.
  - unfold byte_sum at 2. simpl. lia.
  - rewrite !byte_sum_cons, IH. lia.
Qed.

Lemma byte_sum_nonneg (data : bytes) : 0 <= byte_sum data.
Proof.
  induction data as [|b data IH].
  - unfold byte_sum. simpl. lia.
  - rewrite byte_sum_cons. pose proof (ord_range b). lia.
Qed.

Lemma byte_sum_insert (data : bytes) (i : nat) (b b0 : byte) :
  data !! i = Some b0 -> byte_sum (<[i := b]> data) = byte_sum data - ord b0 + ord b.
Proof.
  revert i. induction data as [|x data IH]; intros [|i] H; simpl in *; try discriminate.
  - inversion H; subst. rewrite !byte_sum_cons. lia.
  - rewrite !byte_sum_cons, (IH _ H). lia.
Qed.

Lemma land_mask32 (x : Z) : 0 <= x -> Z.land x 0xffffffff = x mod 2 ^ 32.
Proof. intros H. change 0xffffffff with (Z.ones 32). apply Z.land_ones. lia. Qed.

Lemma UpdateChecksum_eq (data : bytes) :
  (4 <= length data)%nat ->
  _UpdateChecksum data =
    Ok (take (length data - 4) data ++
        le_bytes (byte_sum (take (length data - 4) data) mod 2 ^ 32)).
Proof.
  intros H. unfold _UpdateChecksum. rewrite slice_to_neg4 by assumption.
  rewrite land_mask32 by apply byte_sum_nonneg.
  rewrite pack_L_in_range by (apply Z.mod_pos_bound; lia). reflexivity.
Qed.

Lemma le_bytes_inj (u v : Z) :
  0 <= u < 2 ^ 32 -> 0 <= v < 2 ^ 32 -> le_bytes u = le_bytes v -> u = v.
Proof.
  intros Hu Hv E. rewrite <- (le_value_le_bytes u Hu), <- (le_value_le_bytes v Hv).
  congruence.
Qed.

(** C3.  For every byte sequence [B] of at least four bytes,
    [_UpdateChecksum] succeeds, keeps [B[0:-4]] and writes, as the last four
    bytes, the little-endian sum of the bytes of [B[0:-4]] modulo 2^32.  If
    one byte before the last four is then changed and the last four are
    kept, the stored checksum differs from the recomputed one, and a new
    update does not give the same bytes back. *)
Theorem UpdateChecksum_detects_corruption (B : bytes) :
  (4 <= length B)%nat ->
  exists B',
    _UpdateChecksum B = Ok B' /\
    length B' = length B /\
    take (length B - 4) B' = take (length B - 4) B /\
    drop (length B - 4) B' = le_bytes (byte_sum (take (length B - 4) B) mod 2 ^ 32) /\
    forall (i : nat) (b b0 : byte),
      (i < length B - 4)%nat -> B !! i = Some b0 -> b <> b0 ->
      let T := <[i := b]> B' in
      drop (length B - 4) T = drop (length B - 4) B' /\
      drop (length B - 4) T <> le_bytes (byte_sum (take (length B - 4) T) mod 2 ^ 32) /\
      _UpdateChecksum T <> Ok T.
Proof.
  intros HB. set (n := (length B - 4)%nat).
  set (ck := le_bytes (byte_sum (take n B) mod 2 ^ 32)).
  exists (take n B ++ ck).
  assert (Hn : length (take n B) = n) by (rewrite length_take; lia).
  assert (Hlen : length (take n B ++ ck) = length B).
  { rewrite length_app, Hn. unfold ck. rewrite length_le_bytes. lia. }
  split; [apply UpdateChecksum_eq; assumption|].
  split; [assumption|].
  split; [rewrite take_app_length' by done; reflexivity|].
  split; [rewrite drop_app_length' by done; reflexivity|].
  intros i b b0 Hi Hb0 Hne T.
  assert (HT : T = <[i := b]> (take n B) ++ ck).
  { unfold T. rewrite insert_app_l by lia. reflexivity. }
  assert (HnT : length (<[i := b]> (take n B)) = n) by (rewrite length_insert; assumption).
  assert (Hsum : byte_sum (take n T) = byte_sum (take n B) - ord b0 + ord b).
  { rewrite HT, take_app_length' by done.
    apply byte_sum_insert. rewrite lookup_take_lt by lia. assumption. }
  assert (Hdiff : byte_sum (take n T) mod 2 ^ 32 <> byte_sum (take n B) mod 2 ^ 32).
  { rewrite Hsum. intros E.
    pose proof (ord_range b). pose proof (ord_range b0).
    assert (ord b <> ord b0) by (intros Heq; apply Hne, ord_inj, Heq).
    set (s := byte_sum (take n B)) in *.
    assert (Hd : (s - ord b0 + ord b - s) mod 2 ^ 32 = 0).
    { rewrite Zminus_mod, E, Z.sub_diag. reflexivity. }
    replace (s - ord b0 + ord b - s) with (ord b - ord b0) in Hd by lia.
    apply Z.mod_divide in Hd; [|lia]. destruct Hd as [k Hk].
    change (2 ^ 32) with 4294967296 in Hk. lia. }
  assert (Hdrop : drop n T = ck).
  { rewrite HT, drop_app_length' by done. reflexivity. }
  split; [rewrite Hdrop, drop_app_length' by done; reflexivity|].
  split.
  - rewrite Hdrop. unfold ck. intros E. apply le_bytes_inj in E;
      [congruence | apply Z.mod_pos_bound; lia | apply Z.mod_pos_bound; lia].
  - rewrite UpdateChecksum_eq by (unfold T; rewrite length_insert; lia).
    unfold T at 1 2 3. rewrite length_insert, Hlen. fold n. fold T.
    intros E. inversion E as [E'].
    rewrite <- (take_drop n T) in E' at 3.
    apply app_inv_head in E'. rewrite Hdrop in E'. unfold ck in E'.
    apply le_bytes_inj in E';
      [congruence | apply Z.mod_pos_bound; lia | apply Z.mod_pos_bound; lia].
Qed.

(** * DecodeTextBase *)

Lemma unpack_L_slice_Ok (data : bytes) (i v : Z) :
  0 <= i -> unpack_L (slice data i (i + 4)) = Ok v -> i + 4 <= len data.
Proof.
  intros Hi H. unfold unpack_L in H.
  destruct (decide (length (slice data i (i + 4)) = 4%nat)) as [E|E]; [|discriminate].
  destruct (Z_lt_le_dec (len data) (i + 4)) as [Hlt|Hle]; [|assumption].
  pose proof (slice_length_le data i (i + 4) ltac:(lia) Hlt). lia.
Qed.

Lemma unpack_L_slice_in (data : bytes) (i : Z) :
  0 <= i -> i + 4 <= len data ->
  unpack_L (slice data i (i + 4)) = Ok (le_value (slice data i (i + 4))).
Proof.
  intros Hi H. unfold unpack_L.
  pose proof (length_slice data i (i + 4) ltac:(lia) H) as Hl. unfold len in Hl.
  destruct (decide (length (slice data i (i + 4)) = 4%nat)); [reflexivity | lia].
Qed.

Lemma unpack_L_Raise (word : bytes) (e : exn) : unpack_L word = Raise e -> e = StructError.
Proof. unfold unpack_L. destruct (decide _); congruence. Qed.

Lemma scan_window_total (data : bytes) (start : Z) (idx : list Z) (found : bool) :
  Forall (fun i => 0 <= i /\ i + 4 <= len data) idx ->
  exists s, scan_window data start idx found = Ok s.
Proof.
  intros H. revert found. induction H as [|i idx [Hi Hb] _ IH]; intros found; simpl.
  - eauto.
  - rewrite unpack_L_slice_in by assumption. simpl.
    destruct found; [eauto|]. apply IH.
Qed.

Lemma scan_window_Scanned (data : bytes) (start : Z) (idx : list Z) (found found' : bool) :
  Forall (fun i => 0 <= i) idx ->
  scan_window data start idx found = Ok (Scanned found') ->
  Forall (fun i => i + 4 <= len data) idx.
Proof.
  intros H. revert found. induction H as [|i idx Hi _ IH]; intros found Hs; simpl in *.
  - constructor.
  - destruct (unpack_L (slice data i (i + 4))) as [v|e] eqn:E; simpl in Hs; [|discriminate].
    destruct found; [discriminate|].
    constructor; [eapply unpack_L_slice_Ok; eassumption | eapply IH; eassumption].
Qed.

Lemma scan_window_Raise (data : bytes) (start : Z) (idx : list Z) (found : bool) (e : exn) :
  scan_window data start idx found = Raise e -> e = StructError.
Proof.
  revert found. induction idx as [|i idx IH]; intros found Hs; simpl in *; [discriminate|].
  destruct (unpack_L (slice data i (i + 4))) as [v|e'] eqn:E; simpl in Hs.
  - destruct found; [discriminate|]. eapply IH; eassumption.
  - inversion Hs; subst. eapply unpack_L_Raise; eassumption.
Qed.

Lemma DecodeTextBase_unfold (data : bytes) :
  DecodeTextBase data =
    match scan_window data 0 W0 false with
    | Ok (Returned v) => Ok (Some v)
    | Ok (Scanned f) =>
        match scan_window data 0x4000 W1 f with
        | Ok (Returned v) => Ok (Some v)
        | Ok (Scanned _) => Ok None
        | Raise e => Raise e
        end
    | Raise e => Raise e
    end.
Proof.
  unfold DecodeTextBase, scan_windows, W0, W1, mbind, result_bind.
  destruct (scan_window data 0 _ false) as [[v|f]|e]; reflexivity.
Qed.

Lemma DecodeTextBase_Raise (data : bytes) (e : exn) :
  DecodeTextBase data = Raise e -> e = StructError.
Proof.
  rewrite DecodeTextBase_unfold.
  destruct (scan_window data 0 W0 false) as [[v|f]|e0] eqn:E0;
    [discriminate | | intros H; inversion H; subst; eapply scan_window_Raise; eassumption].
  destruct (scan_window data 0x4000 W1 f) as [[v|f']|e1] eqn:E1;
    [discriminate | discriminate |
     intros H; inversion H; subst; eapply scan_window_Raise; eassumption].
Qed.

Lemma window_indices (start : Z) :
  0 <= start ->
  Forall (fun i => 0 <= i /\ i + 4 <= start + 160) (py_range start (start + 160) 4) /\
  start + 156 ∈ py_range start (start + 160) 4.
Proof.
  intros H. unfold py_range.
  replace (start + 160 - start + 4 - 1) with 163 by lia.
  change (Z.to_nat (163 / 4)) with 40%nat.
  split.
  - apply Forall_forall. intros i Hi. apply list_elem_of_fmap in Hi as [k [-> Hk]].
    apply elem_of_seq in Hk. lia.
  - apply list_elem_of_fmap. exists 39%nat. split; [lia|]. apply elem_of_seq. lia.
Qed.

Lemma DecodeTextBase_total (data : bytes) :
  0x40a0 <= len data -> exists r, DecodeTextBase data = Ok r.
Proof.
  intros H. rewrite DecodeTextBase_unfold.
  destruct (scan_window_total data 0 W0 false) as [s0 E0].
  { eapply Forall_impl; [apply (window_indices 0); lia|]. simpl. lia. }
  rewrite E0. destruct s0 as [v|f]; [eauto|].
  destruct (scan_window_total data 0x4000 W1 f) as [s1 E1].
  { eapply Forall_impl; [apply (window_indices 0x4000); lia|]. simpl. lia. }
  rewrite E1. destruct s1; eauto.
Qed.

Lemma DecodeTextBase_None_length (data : bytes) :
  DecodeTextBase data = Ok None -> 0x40a0 <= len data.
Proof.
  rewrite DecodeTextBase_unfold.
  destruct (scan_window data 0 W0 false) as [[v|f]|e0] eqn:E0; try discriminate.
  destruct (scan_window data 0x4000 W1 f) as [[v|f']|e1] eqn:E1; try discriminate.
  intros _. apply scan_window_Scanned in E1.
  - rewrite Forall_forall in E1.
    specialize (E1 _ (proj2 (window_indices 0x4000 ltac:(lia)))). lia.
  - eapply Forall_impl; [apply (window_indices 0x4000); lia|]. simpl. lia.
Qed.

Lemma le_value_zeros (n : nat) : le_value (replicate n x00) = 0.
Proof. induction n as [|n IH]; simpl; [reflexivity|]. rewrite IH. reflexivity. Qed.

Lemma slice_zeros (n lo hi : Z) : exists k, slice (zeros n) lo hi = replicate k x00.
Proof.
  unfold slice, zeros. rewrite drop_replicate, take_replicate. eauto.
Qed.

Lemma scan_window_zeros (n start : Z) (idx : list Z) (s : scan) :
  scan_window (zeros n) start idx false = Ok s -> s = Scanned false.
Proof.
  induction idx as [|i idx IH]; simpl; [congruence|].
  unfold unpack_L. destruct (decide _); simpl; [|discriminate].
  destruct (slice_zeros n i (i + 4)) as [k ->]. rewrite le_value_zeros.
  change (0 =? SENTINEL) with false. exact IH.
Qed.

Lemma DecodeTextBase_zeros (n v : Z) : DecodeTextBase (zeros n) <> Ok (Some v).
Proof.
  rewrite DecodeTextBase_unfold.
  destruct (scan_window (zeros n) 0 W0 false) as [s0|e0] eqn:E0; [|discriminate].
  apply scan_window_zeros in E0 as ->.
  destruct (scan_window (zeros n) 0x4000 W1 false) as [s1|e1] eqn:E1; [|discriminate].
  apply scan_window_zeros in E1 as ->. discriminate.
Qed.

(** C10.  [DecodeTextBase] unpacks each word without a bounds check.  On
    a buffer shorter than 0x40a0 bytes it never returns [None]: unless a
    sentinel match makes it return a value, the unpack of a short slice
    raises.  On a buffer of 0x40a0 bytes or more it always returns.  For
    every shorter length the buffer of zeros raises. *)
Theorem DecodeTextBase_unchecked_reads (data : bytes) :
  (len data < 0x40a0 ->
     DecodeTextBase data <> Ok None /\
     ((forall v, DecodeTextBase data <> Ok (Some v)) ->
      DecodeTextBase data = Raise StructError)) /\
  (0x40a0 <= len data -> exists r, DecodeTextBase data = Ok r) /\
  (forall n, 0 <= n < 0x40a0 ->
     len (zeros n) = n /\ DecodeTextBase (zeros n) = Raise StructError).
Proof.
  assert (Hshort : forall d, len d < 0x40a0 -> DecodeTextBase d <> Ok None).
  { intros d Hd E. apply DecodeTextBase_None_length in E. lia. }
  assert (Hraise : forall d, len d < 0x40a0 ->
            (forall v, DecodeTextBase d <> Ok (Some v)) ->
            DecodeTextBase d = Raise StructError).
  { intros d Hd Hno. destruct (DecodeTextBase d) as [[v|]|e] eqn:E.
    - exfalso. eapply Hno. reflexivity.
    - exfalso. eapply Hshort; eassumption.
    - f_equal. eapply DecodeTextBase_Raise; eassumption. }
  split; [|split].
  - intros Hd. split; [apply Hshort | apply Hraise]; assumption.
  - apply DecodeTextBase_total.
  - intros n Hn.
    assert (Hl : len (zeros n) = n).
    { unfold len, zeros. rewrite length_replicate. lia. }
    split; [assumption|].
    apply Hraise; [lia | intros v; apply DecodeTextBase_zeros].
Qed.

Lemma DecodeTextBase_unchecked_reads_witness :
  DecodeTextBase [] = Raise StructError /\
  (exists r, DecodeTextBase (zeros 0x40a0) = Ok r).
Proof.
  split.
  - apply (proj1 (DecodeTextBase_unchecked_reads [])).
    + vm_compute. reflexivity.
    + intros v. vm_compute. discriminate.
  - apply (proj1 (proj2 (DecodeTextBase_unchecked_reads (zeros 0x40a0)))).
    vm_compute. discriminate.
Defined.

(** C6.  The code evaluated where it leaves the claim.  With the sentinel
    in the last word of the first window (offset 156) and 0x108000 after
    it, [DecodeTextBase] returns the first word of the second window minus
    0x4000, here 0x20c000 - 0x4000 = 0x208000, not the word that follows
    the sentinel, 0x108000.  A buffer of 12 zero bytes, which holds no
    sentinel, raises instead of returning [None].  The example of the claim
    holds: the sentinel at offset 8 followed by 0x00108000 gives
    0x00108000. *)
Theorem DecodeTextBase_window_carry :
  let data := zeros 156 ++ le_bytes SENTINEL ++ le_bytes 0x108000 ++
              zeros (0x4000 - 164) ++ le_bytes 0x20c000 ++ zeros 156 in
  len data = 0x40a0 /\
  slice data 156 160 = le_bytes SENTINEL /\
  slice data 160 164 = le_bytes 0x108000 /\
  slice data 0x4000 0x4004 = le_bytes 0x20c000 /\
  DecodeTextBase data = Ok (Some 0x208000) /\
  DecodeTextBase data <> Ok (Some 0x108000) /\
  DecodeTextBase (zeros 12) = Raise StructError /\
  DecodeTextBase (le_bytes 0 ++ le_bytes 0 ++ le_bytes SENTINEL ++ le_bytes 0x00108000)
    = Ok (Some 0x00108000).
Proof. vm_compute. repeat split; try reflexivity. discriminate. Qed.

(** * CalcTextBase *)

Lemma CalcTextBase_run (name : string) (fdt : Fdt) (fname : string) (w : world)
    (data : bytes) (declared : Z) (decoded : option Z) :
  files w !! fname = Some data ->
  GetInt fdt "/chromeos-config" "textbase" (Some 0) = Ok declared ->
  DecodeTextBase data = Ok decoded ->
  CalcTextBase name fdt fname w =
    match decoded with
    | Some v =>
        if negb (v =? 0) && negb (v =? declared)
        then (add_events w [text_base_info declared fname (fmt_alt_x v);
                            text_base_warning v name declared], Ok v)
        else (add_events w [text_base_info declared fname
                              (if negb (v =? 0) then fmt_alt_x v else "None")],
              Ok declared)
    | None => (add_events w [text_base_info declared fname "None"], Ok declared)
    end.
Proof.
  intros Hf Hg Hd.
  unfold CalcTextBase, mbind, M_bind, ReadFile, lift. rewrite Hf, Hg, Hd.
  destruct decoded as [v|]; cbn.
  - destruct (v =? 0) eqn:E0; cbn.
    + reflexivity.
    + destruct (v =? declared) eqn:E1; cbn.
      * reflexivity.
      * unfold add_events. cbn. rewrite <- app_assoc. reflexivity.
  - reflexivity.
Qed.

(** C7, amended.  When the decoder returns a text base that is not zero
    and differs from the declared one, [CalcTextBase] returns the decoded
    value and, after the Info line, emits a warning that quotes the decoded
    value, the name and the declared value.  When the decoder returns
    [None] or zero, the declared value is returned and no warning is
    emitted.  With the sentinel at offset 0, the next word 0x10c000 and a
    declared 0x108000, the result is 0x10c000 and the warning records
    both. *)
Theorem CalcTextBase_decoded_wins (name : string) (fdt : Fdt) (fname : string)
    (w : world) (data : bytes) (declared : Z) (decoded : option Z) :
  files w !! fname = Some data ->
  GetInt fdt "/chromeos-config" "textbase" (Some 0) = Ok declared ->
  DecodeTextBase data = Ok decoded ->
  (forall v, decoded = Some v -> v <> 0 -> v <> declared ->
     CalcTextBase name fdt fname w =
       (add_events w [text_base_info declared fname (fmt_alt_x v);
                      text_base_warning v name declared], Ok v)) /\
  (decoded = None \/ decoded = Some 0 ->
     CalcTextBase name fdt fname w =
       (add_events w [text_base_info declared fname "None"], Ok declared)) /\
  (slice data 0 4 = le_bytes SENTINEL -> slice data 4 8 = le_bytes 0x10c000 ->
     declared = 0x108000 ->
     CalcTextBase name fdt fname w =
       (add_events w
          [EvOut LvInfo ("TEXT_BASE: fdt says 0x108000, " +:+ fname +:+ " says 0x10c000");
           EvOut LvWarning ("TEXT_BASE 10c000 in " +:+ name +:+
                            "U-Boot doesn't match fdt value of 108000. Using 10c000")],
        Ok 0x10c000)).
Proof.
  intros Hf Hg Hd.
  pose proof (CalcTextBase_run name fdt fname w data declared decoded Hf Hg Hd) as Hrun.
  split; [|split].
  - intros v -> Hv0 Hvd. rewrite Hrun.
    destruct (v =? 0) eqn:E0; [lia|]. destruct (v =? declared) eqn:E1; [lia|]. reflexivity.
  - intros [-> | ->]; rewrite Hrun; reflexivity.
  - intros Hs Hn ->.
    assert (decoded = Some 0x10c000) as ->.
    { rewrite DecodeTextBase_unfold in Hd. unfold W0 in Hd.
      change (py_range 0 (0 + 160) 4) with (0 :: 4 :: py_range 8 (0 + 160) 4) in Hd.
      cbn [scan_window] in Hd. change (0 + 4) with 4 in Hd. change (4 + 4) with 8 in Hd.
      rewrite Hs, Hn in Hd. vm_compute in Hd. congruence. }
    rewrite Hrun. reflexivity.
Qed.

Lemma CalcTextBase_decoded_wins_witness :
  let data := le_bytes SENTINEL ++ le_bytes 0x10c000 in
  let fdt := declared_fdt 0x108000 in
  let w := idle_world {[ "u-boot.bin" := data ]} fdt in
  CalcTextBase "spl " fdt "u-boot.bin" w =
    (add_events w [text_base_info 0x108000 "u-boot.bin" (fmt_alt_x 0x10c000);
                   text_base_warning 0x10c000 "spl " 0x108000], Ok 0x10c000).
Proof.
  intros data fdt w.
  refine (proj1 (CalcTextBase_decoded_wins "spl " fdt "u-boot.bin" w data 0x108000
                   (Some 0x10c000) _ _ _) 0x10c000 eq_refl _ _).
  - vm_compute. reflexivity.
  - reflexivity.
  - vm_compute. reflexivity.
  - lia.
  - lia.
Defined.

(** the claim as it stands fails when the decoded text base is 0 *)
Lemma CalcTextBase_zero_is_ignored :
  let data := le_bytes SENTINEL ++ le_bytes 0 in
  let fdt := declared_fdt 0x108000 in
  let w := idle_world {[ "u-boot.bin" := data ]} fdt in
  DecodeTextBase data = Ok (Some 0) /\
  GetInt fdt "/chromeos-config" "textbase" (Some 0) = Ok 0x108000 /\
  0 <> 0x108000 /\
  CalcTextBase EmptyString fdt "u-boot.bin" w =
    (add_events w [EvOut LvInfo "TEXT_BASE: fdt says 0x108000, u-boot.bin says None"],
     Ok 0x108000).
Proof.
  intros data fdt w.
  split; [vm_compute; reflexivity|].
  split; [reflexivity|].
  split; [lia|].
  vm_compute. reflexivity.
Qed.

(** * The parameter block *)

Lemma snd_Logged_bind {A B} (m : Logged A) (k : A -> Logged B) :
  snd (m ≫= k) = snd m ≫= (fun a => snd (k a)).
Proof. destruct m as [msgs [a|e]]; reflexivity. Qed.

Lemma snd_quiet {A} (r : result A) : snd (quiet r) = r.
Proof. reflexivity. Qed.

Lemma result_bind_Ok {A B} (r : result A) (k : A -> result B) (b : B) :
  r ≫= k = Ok b -> exists a, r = Ok a /\ k a = Ok b.
Proof. destruct r as [a|e]; [eauto | discriminate]. Qed.

(** the new value of a parameter depends on the old one only for an
    unknown code, which keeps it *)
Lemma param_value_stable (spl_source : string) (fdt : Fdt) (spl_load_size : Z)
    (param : byte) (value v : Z) :
  snd (param_value spl_source fdt spl_load_size param value) = Ok v ->
  snd (param_value spl_source fdt spl_load_size param v) = Ok v.
Proof.
  unfold param_value.
  repeat match goal with
         | |- context [if Byte.eqb param ?c then _ else _] =>
             destruct (Byte.eqb param c); [intros H; exact H|]
         end.
  rewrite !snd_Logged_bind. cbn. congruence.
Qed.

Lemma update_params_replay (spl_source : string) (fdt : Fdt) (spl_load_size : Z)
    (param_list : bytes) :
  forall (data : bytes) (pos upto : Z) (new_data out : bytes),
    snd (update_params spl_source fdt spl_load_size data pos param_list upto new_data)
      = Ok out ->
    exists tail,
      out = new_data ++ tail /\
      length tail = (4 * length param_list)%nat /\
      forall (data' pre post new_data' : bytes),
        data' = pre ++ tail ++ post ->
        len pre = pos + upto -> 0 <= pos + upto ->
        snd (update_params spl_source fdt spl_load_size data' pos param_list upto new_data')
          = Ok (new_data' ++ tail).
Proof.
  induction param_list as [|param rest IH]; intros data pos upto new_data out H.
  - cbn in H. inversion H; subst. exists []. rewrite app_nil_r.
    split; [reflexivity|]. split; [reflexivity|].
    intros. cbn. rewrite app_nil_r. reflexivity.
  - cbn [update_params] in H. rewrite !snd_Logged_bind in H.
    apply result_bind_Ok in H as [v0 [Hread H]]. rewrite snd_quiet in Hread.
    rewrite snd_Logged_bind in H.
    apply result_bind_Ok in H as [v [Hval H]].
    rewrite snd_Logged_bind in H.
    apply result_bind_Ok in H as [packed [Hpack H]]. rewrite snd_quiet in Hpack.
    apply IH in H as [tail [-> [Hlen Hreplay]]].
    exists (packed ++ tail).
    pose proof (pack_L_Ok _ _ Hpack) as [Hp Hrange].
    assert (Hpl : length packed = 4%nat) by (subst packed; reflexivity).
    split; [rewrite app_assoc; reflexivity|].
    split; [rewrite length_app, Hlen, Hpl; cbn [length]; lia|].
    intros data' pre post new_data' -> Hpre Hnn.
    cbn [update_params]. rewrite !snd_Logged_bind, snd_quiet.
    assert (Hs : slice (pre ++ (packed ++ tail) ++ post) (pos + upto) (pos + upto + 4)
                 = packed).
    { rewrite slice_in_range.
      - replace (Z.to_nat (pos + upto)) with (length pre) by (unfold len in Hpre; lia).
        rewrite drop_app_length.
        replace (Z.to_nat (pos + upto + 4 - (pos + upto))) with 4%nat by lia.
        rewrite <- app_assoc. rewrite take_app_length' by done. reflexivity.
      - lia.
      - unfold len in *. rewrite !length_app. lia. }
    rewrite Hs, (unpack_pack _ _ Hpack). cbn [mbind result_bind].
    rewrite snd_Logged_bind, (param_value_stable _ _ _ _ _ _ Hval). cbn [mbind result_bind].
    rewrite snd_Logged_bind, snd_quiet, Hpack. cbn [mbind result_bind].
    rewrite (Hreplay (pre ++ (packed ++ tail) ++ post) (pre ++ packed) post
                     (new_data' ++ packed)).
    + rewrite <- app_assoc. reflexivity.
    + rewrite <- !app_assoc. reflexivity.
    + unfold len in *. rewrite length_app. lia.
    + lia.
Qed.

Lemma UpdateBl2Parameters_Ok_iff (spl_source : string) (fdt : Fdt) (spl_load_size : Z)
    (data : bytes) (pos : Z) (out : bytes) :
  snd (_UpdateBl2Parameters spl_source fdt spl_load_size data pos) = Ok out <->
  exists size nd,
    unpack_2L (slice data (pos + 4) (pos + 12)) = Ok (1, size) /\
    (size <? 0) || (pos + size >? len data) = false /\
    len data - (pos + 12) = len (slice_from data (pos + 12)) /\
    let param_list := slice_from data (pos + 12) in
    let param_len := py_find [x00] param_list in
    let slots := pos + 12 + Z.land (param_len + 4) (Z.lnot 3) in
    snd (update_params spl_source fdt spl_load_size data slots
           (slice_to param_list param_len) 0 []) = Ok nd /\
    out = slice_to data slots ++ nd ++ slice_from data (slots + len nd).
Proof.
  unfold _UpdateBl2Parameters. rewrite snd_Logged_bind, snd_quiet.
  destruct (unpack_2L (slice data (pos + 4) (pos + 12))) as [[version size]|e] eqn:Eh;
    cbn [mbind result_bind].
  2: { split; [discriminate | intros (? & ? & ? & _); discriminate]. }
  destruct (version =? 1) eqn:Ev; cbn [negb].
  2: { split; [discriminate|]. intros (s & nd & H & _). inversion H; subst. discriminate. }
  apply Z.eqb_eq in Ev. subst version.
  destruct ((size <? 0) || (pos + size >? len data)) eqn:Es.
  { split; [discriminate|]. intros (s & nd & H & Hs & _). inversion H; subst. congruence. }
  rewrite snd_Logged_bind, snd_quiet. unfold unpack_s.
  destruct (len data - (pos + 12) =? len (slice_from data (pos + 12))) eqn:El;
    cbn [mbind result_bind].
  2: { split; [discriminate|]. intros (s & nd & _ & _ & H & _). lia. }
  apply Z.eqb_eq in El. rewrite snd_Logged_bind.
  destruct (snd (update_params spl_source fdt spl_load_size data _ _ 0 [])) as [nd|e] eqn:Eu;
    cbn [mbind result_bind].
  - rewrite snd_Logged_bind. cbn. split.
    + intros H. inversion H; subst. exists size, nd. repeat split; try assumption.
    + intros (s & nd' & H & _ & _ & Hu & ->). inversion Hu; subst. reflexivity.
  - split; [discriminate|]. intros (s & nd' & _ & _ & _ & Hu & _). discriminate.
Qed.

Lemma land_lnot_ones (n x : Z) :
  0 <= n -> Z.land x (Z.lnot (Z.ones n)) = 2 ^ n * (x / 2 ^ n).
Proof.
  intros Hn. rewrite <- Z.ldiff_land, Z.ldiff_ones_r by assumption.
  rewrite Z.shiftl_mul_pow2, Z.shiftr_div_pow2 by assumption. lia.
Qed.

Lemma align4 (k : Z) : 0 <= k -> k + 1 <= Z.land (k + 4) (Z.lnot 3) <= k + 4.
Proof.
  intros Hk. change 3 with (Z.ones 2). rewrite land_lnot_ones by lia.
  change (2 ^ 2) with 4.
  pose proof (Z.div_mod (k + 4) 4 ltac:(lia)).
  pose proof (Z.mod_pos_bound (k + 4) 4 ltac:(lia)). lia.
Qed.

Lemma find_at_bounds (sub data : bytes) (i : Z) :
  find_at sub data i = -1 \/ i <= find_at sub data i <= i + len data.
Proof.
  revert i. induction data as [|x data IH]; intros i; cbn [find_at].
  - destruct (starts_with sub []); [right; unfold len; simpl; lia | left; reflexivity].
  - destruct (starts_with sub (x :: data)).
    + right. unfold len. simpl. lia.
    + destruct (IH (i + 1)) as [H|H]; [left; assumption|right].
      unfold len in *. cbn [length]. lia.
Qed.

Lemma find_nul_lt (data : bytes) (i : Z) :
  0 <= i -> 0 <= find_at [x00] data i -> find_at [x00] data i < i + len data.
Proof.
  revert i. induction data as [|x data IH]; intros i Hi; cbn [find_at starts_with].
  - lia.
  - destruct (Byte.eqb x00 x && true).
    + unfold len. cbn [length]. lia.
    + intros H. specialize (IH (i + 1) ltac:(lia) H). unfold len in *. cbn [length]. lia.
Qed.

Lemma find_nul_take (a b : bytes) (i : Z) (k : nat) :
  0 <= i -> find_at [x00] a i = i + Z.of_nat k ->
  take (S k) b = take (S k) a ->
  find_at [x00] b i = i + Z.of_nat k.
Proof.
  revert b i k. induction a as [|x a IH]; intros b i k Hi Hf Ht.
  - cbn in Hf. lia.
  - cbn [find_at starts_with] in Hf. cbn [take] in Ht.
    destruct b as [|y b]; [discriminate|]. cbn [take] in Ht. inversion Ht; subst y.
    cbn [find_at starts_with].
    destruct (Byte.eqb x00 x && true).
    + assumption.
    + destruct (find_at_bounds [x00] a (i + 1)) as [Hb|Hb]; [lia|].
      destruct k as [|k]; [lia|].
      replace (i + Z.of_nat (S k)) with (i + 1 + Z.of_nat k) in * by lia.
      apply IH; [lia | assumption | assumption].
Qed.

Lemma slice_app_l (pre rest : bytes) (lo hi : Z) :
  0 <= lo <= hi -> hi <= len pre -> slice (pre ++ rest) lo hi = slice pre lo hi.
Proof.
  intros H1 H2. rewrite !slice_in_range; try lia.
  - unfold len in *. rewrite drop_app_le by lia. rewrite take_app_le; [reflexivity|].
    rewrite length_drop. lia.
  - unfold len in *. rewrite length_app. lia.
Qed.

Lemma unpack_2L_length (s : bytes) (r : Z * Z) : unpack_2L s = Ok r -> length s = 8%nat.
Proof. unfold unpack_2L. destruct (decide _); [auto | discriminate]. Qed.

Lemma rfind_at_bounds (sub data : bytes) (i : Z) :
  0 <= i -> -1 <= rfind_at sub data i.
Proof.
  revert i. induction data as [|x data IH]; intros i Hi; cbn [rfind_at].
  - destruct (starts_with sub []); lia.
  - specialize (IH (i + 1) ltac:(lia)).
    destruct (rfind_at sub data (i + 1) =? -1); [|assumption].
    destruct (starts_with sub (x :: data)); lia.
Qed.

Lemma py_rfind_bounds (sub data : bytes) : -1 <= py_rfind sub data.
Proof. apply rfind_at_bounds. lia. Qed.

Lemma patch_then_checksum_idempotent (spl_source : string) (fdt : Fdt)
    (spl_load_size : Z) (d0 p0 d1 : bytes) (pos : Z) :
  -1 <= pos ->
  snd (_UpdateBl2Parameters spl_source fdt spl_load_size d0 pos) = Ok p0 ->
  _UpdateChecksum p0 = Ok d1 ->
  0 <= py_find [x00] (slice_from d0 (pos + 12)) ->
  pos + 12 + Z.land (py_find [x00] (slice_from d0 (pos + 12)) + 4) (Z.lnot 3)
    + 4 * py_find [x00] (slice_from d0 (pos + 12)) <= len d0 - 4 ->
  len d1 = len d0 /\
  snd (_UpdateBl2Parameters spl_source fdt spl_load_size d1 pos) = Ok d1 /\
  _UpdateChecksum d1 = Ok d1.
Proof.
  intros Hpos Hrun Hck Hk Hfit.
  apply UpdateBl2Parameters_Ok_iff in Hrun as (size & nd & Hh & Hsz & Hl & Hu & Hout).
  cbv zeta in Hu, Hout.
  remember (py_find [x00] (slice_from d0 (pos + 12))) as k eqn:Hkdef.
  pose proof (align4 k Hk) as Hal.
  remember (Z.land (k + 4) (Z.lnot 3)) as pad eqn:Hpad.
  remember (pos + 12 + pad) as slots eqn:Hslots.
  assert (HP : pos + 12 <= len d0) by lia.
  (* the parameter list *)
  assert (Hfrom0 : slice_from d0 (pos + 12) = drop (Z.to_nat (pos + 12)) d0)
    by (apply slice_from_in_range; lia).
  assert (Hplist0 : slice_to (slice_from d0 (pos + 12)) k
                    = take (Z.to_nat k) (drop (Z.to_nat (pos + 12)) d0)).
  { rewrite Hfrom0. apply slice_to_in_range. unfold len in *. rewrite length_drop. lia. }
  (* the new values *)
  apply update_params_replay in Hu as (tail & Hnd & Htl & Hreplay).
  cbn [app] in Hnd. subst tail.
  assert (Hndlen : len nd = 4 * k).
  { unfold len in *. rewrite Htl, Hplist0, length_take, length_drop. lia. }
  (* the patched binary and its checksum *)
  assert (Hp0 : p0 = take (Z.to_nat slots) d0 ++ nd ++ drop (Z.to_nat (slots + 4 * k)) d0).
  { rewrite Hout, Hndlen. rewrite slice_to_in_range, slice_from_in_range by lia.
    reflexivity. }
  assert (Hpre : length (take (Z.to_nat slots) d0) = Z.to_nat slots)
    by (unfold len in *; rewrite length_take; lia).
  assert (Hp0len : length p0 = length d0).
  { rewrite Hp0, !length_app, Hpre, length_drop. unfold len in *. lia. }
  rewrite UpdateChecksum_eq in Hck by (unfold len in *; lia).
  assert (Hd1 : take (length p0 - 4) p0 ++
                le_bytes (byte_sum (take (length p0 - 4) p0) mod 2 ^ 32) = d1)
    by congruence.
  clear Hck.
  set (ck := le_bytes (byte_sum (take (length p0 - 4) p0) mod 2 ^ 32)) in *.
  set (m := (length d0 - 4 - Z.to_nat (slots + 4 * k))%nat).
  assert (Htake : take (length p0 - 4) p0
                  = take (Z.to_nat slots) d0 ++ nd ++ take m (drop (Z.to_nat (slots + 4 * k)) d0)).
  { rewrite Hp0len. rewrite Hp0 at 1.
    rewrite take_app_ge by (unfold len in *; lia). f_equal.
    rewrite take_app_ge by (unfold len in *; lia). f_equal.
    f_equal. unfold m, len in *. lia. }
  set (pre := take (Z.to_nat slots) d0) in *.
  set (post := take m (drop (Z.to_nat (slots + 4 * k)) d0) ++ ck).
  assert (Hd1' : d1 = pre ++ nd ++ post).
  { rewrite <- Hd1, Htake. unfold post. rewrite <- !app_assoc. reflexivity. }
  assert (Hd1len : length d1 = length d0).
  { rewrite <- Hd1, length_app, length_take, Hp0len. unfold ck.
    rewrite length_le_bytes. unfold len in *. lia. }
  assert (Hd0' : d0 = pre ++ drop (Z.to_nat slots) d0) by (unfold pre; rewrite take_drop; reflexivity).
  split; [unfold len; rewrite Hd1len; reflexivity|]. split.
  - apply UpdateBl2Parameters_Ok_iff. exists size, nd.
    assert (Hslice : slice d1 (pos + 4) (pos + 12) = slice d0 (pos + 4) (pos + 12)).
    { rewrite Hd1'. rewrite Hd0' at 1.
      rewrite !slice_app_l by (unfold len; lia). reflexivity. }
    assert (Hfrom1 : slice_from d1 (pos + 12) = drop (Z.to_nat (pos + 12)) d1)
      by (apply slice_from_in_range; unfold len in *; lia).
    assert (Hfind : py_find [x00] (slice_from d1 (pos + 12)) = k).
    { rewrite Hfrom1. unfold py_find.
      replace k with (0 + Z.of_nat (Z.to_nat k)) at 1 by lia.
      eapply (find_nul_take (drop (Z.to_nat (pos + 12)) d0)); [lia | |].
      - rewrite <- Hfrom0. fold (py_find [x00] (slice_from d0 (pos + 12))).
        rewrite <- Hkdef. lia.
      - rewrite Hd1'. rewrite Hd0' at 1.
        rewrite !drop_app_le by lia.
        rewrite !take_app_le by (rewrite length_drop; lia). reflexivity. }
    assert (Hplist1 : slice_to (slice_from d1 (pos + 12)) k
                      = slice_to (slice_from d0 (pos + 12)) k).
    { rewrite Hplist0, Hfrom1. rewrite slice_to_in_range
        by (unfold len in *; rewrite length_drop; lia).
      rewrite Hd1'. rewrite Hd0' at 1.
      rewrite !drop_app_le by lia.
      rewrite !take_app_le by (rewrite length_drop; lia). reflexivity. }
    split; [rewrite Hslice; assumption|].
    split; [unfold len in *; rewrite Hd1len; assumption|].
    split; [rewrite Hfrom1; unfold len in *; rewrite length_drop; lia|].
    cbv zeta. rewrite Hfind, Hplist1, <- Hpad, <- Hslots.
    split.
    + apply (Hreplay d1 pre post []); [assumption | unfold len; lia | lia].
    + rewrite Hndlen.
      rewrite slice_to_in_range, slice_from_in_range by (unfold len in *; lia).
      assert (Ht : take (Z.to_nat slots) d1 = pre).
      { rewrite Hd1'. apply take_app_length'. lia. }
      assert (Hdr : drop (Z.to_nat (slots + 4 * k)) d1 = post).
      { rewrite Hd1'.
        replace (Z.to_nat (slots + 4 * k)) with (length (pre ++ nd))
          by (rewrite length_app; unfold len in *; lia).
        rewrite app_assoc. apply drop_app_length. }
      rewrite Ht, Hdr. assumption.
  - rewrite UpdateChecksum_eq by (unfold len in *; lia).
    rewrite Hd1len, <- Hp0len. rewrite <- Hd1 at 1 2.
    rewrite take_app_length' by (rewrite length_take; lia).
    fold ck. rewrite Hd1. reflexivity.
Qed.

Lemma ConfigureExynosBl2_run (spl_source : string) (fdt : Fdt) (spl_load_size : Z)
    (orig_bl2 name : string) (w : world) (data : bytes) :
  files w !! orig_bl2 = Some data ->
  ConfigureExynosBl2 spl_source fdt spl_load_size orig_bl2 name w =
    let w1 := bl2_copied w name data in
    let pos := py_rfind (le_bytes MARKER) data in
    if pos =? 0 then
      (w1, Raise (CmdError ("Could not find machine parameter block in '" +:+
                            orig_bl2 +:+ "'")))
    else
      let patched := _UpdateBl2Parameters spl_source fdt spl_load_size data pos in
      let w2 := add_events w1 (out_events (fst patched)) in
      match snd patched with
      | Raise e => (w2, Raise e)
      | Ok p =>
          match _UpdateChecksum p with
          | Raise e => (w2, Raise e)
          | Ok d => (with_file w2 (bl2_name w name) d, Ok (bl2_name w name))
          end
      end.
Proof.
  intros Hf.
  unfold ConfigureExynosBl2, mbind, M_bind, out_Info, emit, get_world, ReadFile,
    WriteFile, lift, raise, logged, mret, M_ret.
  cbn [files trace ncalls tool duration clock outdir stdout_is_tty self].
  rewrite Hf. cbn [files trace ncalls tool duration clock outdir stdout_is_tty self].
  rewrite lookup_insert_eq.
  change (pack_L MARKER) with (Ok (le_bytes MARKER)).
  cbv beta iota zeta. fold (bl2_name w name).
  destruct (py_rfind (le_bytes MARKER) data =? 0); [reflexivity|].
  destruct (_UpdateBl2Parameters spl_source fdt spl_load_size data
              (py_rfind (le_bytes MARKER) data)) as [msgs [p|e]];
    cbn [fst snd]; [|reflexivity].
  destruct (_UpdateChecksum p) as [d|e]; reflexivity.
Qed.

(** * Where the block is *)

Lemma starts_with_take (sub data : bytes) :
  starts_with sub data = true <-> take (length sub) data = sub.
Proof.
  revert data. induction sub as [|a sub IH]; intros data; cbn [starts_with length take].
  - split; reflexivity.
  - destruct data as [|b data]; [split; discriminate|]. cbn [take].
    rewrite andb_true_iff, IH. split.
    + intros [Hab ->]. apply Byte.byte_dec_bl in Hab. congruence.
    + intros H. inversion H as [[Hb Ht]]. rewrite Ht. split; [|assumption].
      apply Byte.byte_dec_lb. reflexivity.
Qed.

Lemma rfind_at_spec (sub data : bytes) (i : Z) :
  0 <= i ->
  (rfind_at sub data i = -1 /\
   forall k, (k <= length data)%nat -> starts_with sub (drop k data) = false) \/
  (exists n, rfind_at sub data i = i + Z.of_nat n /\ (n <= length data)%nat /\
     starts_with sub (drop n data) = true /\
     forall k, (n < k <= length data)%nat -> starts_with sub (drop k data) = false).
Proof.
  revert i. induction data as [|x data IH]; intros i Hi; cbn [rfind_at].
  - destruct (starts_with sub []) eqn:E.
    + right. exists 0%nat. split; [lia|]. split; [cbn [length]; lia|].
      split; [assumption|]. intros k Hk. cbn [length] in Hk. lia.
    + left. split; [reflexivity|]. intros k Hk. rewrite drop_nil. assumption.
  - destruct (IH (i + 1) ltac:(lia)) as [[Hr Hno] | (n & Hr & Hn & Hyes & Hno)].
    + rewrite Hr. change (-1 =? -1) with true. cbv iota.
      destruct (starts_with sub (x :: data)) eqn:E.
      * right. exists 0%nat. split; [lia|]. split; [cbn [length]; lia|].
        split; [assumption|].
        intros [|k] Hk; [lia|]. cbn [drop]. apply Hno. cbn [length] in Hk. lia.
      * left. split; [reflexivity|].
        intros [|k] Hk; [assumption|]. cbn [drop]. apply Hno. cbn [length] in Hk. lia.
    + rewrite Hr. destruct (i + 1 + Z.of_nat n =? -1) eqn:E; [lia|].
      right. exists (Datatypes.S n). split; [lia|]. split; [cbn [length]; lia|].
      split; [assumption|].
      intros [|k] Hk; [lia|]. cbn [drop]. apply Hno. cbn [length] in Hk. lia.
Qed.

Lemma slice_is_marker (sub data : bytes) (j : Z) :
  0 <= j -> (0 < length sub)%nat ->
  slice data j (j + Z.of_nat (length sub)) = sub ->
  (Z.to_nat j <= length data)%nat /\ starts_with sub (drop (Z.to_nat j) data) = true.
Proof.
  intros Hj Hsub Hs.
  assert (Hlen : j + Z.of_nat (length sub) <= len data).
  { destruct (Z_lt_le_dec (len data) (j + Z.of_nat (length sub))) as [Hlt|]; [|assumption].
    pose proof (slice_length_le data j (j + Z.of_nat (length sub)) ltac:(lia) Hlt) as Hl.
    rewrite Hs in Hl. lia. }
  rewrite slice_in_range in Hs by lia.
  split; [unfold len in *; lia|].
  apply starts_with_take.
  replace (Z.to_nat (j + Z.of_nat (length sub) - j)) with (length sub) in Hs by lia.
  assumption.
Qed.

Lemma py_rfind_last (sub data : bytes) (pos : Z) :
  (0 < length sub)%nat -> py_rfind sub data = pos -> 0 <= pos ->
  slice data pos (pos + Z.of_nat (length sub)) = sub /\
  forall j, pos < j -> slice data j (j + Z.of_nat (length sub)) <> sub.
Proof.
  intros Hsub Hr Hpos. unfold py_rfind in Hr.
  destruct (rfind_at_spec sub data 0 ltac:(lia)) as [[Hm _] | (n & Hn & Hle & Hyes & Hno)];
    [lia|].
  assert (pos = Z.of_nat n) as -> by lia.
  apply starts_with_take in Hyes.
  assert (Hfit : (n + length sub <= length data)%nat).
  { apply (f_equal length) in Hyes. rewrite length_take, length_drop in Hyes. lia. }
  split.
  - rewrite slice_in_range by (unfold len; lia).
    replace (Z.to_nat (Z.of_nat n + Z.of_nat (length sub) - Z.of_nat n)) with (length sub) by lia.
    rewrite Nat2Z.id. assumption.
  - intros j Hj Hs. apply slice_is_marker in Hs as [Hjl Hs]; [|lia|assumption].
    rewrite Hno in Hs; [discriminate | lia].
Qed.

Lemma unpack_2L_slice (data : bytes) (pos : Z) :
  0 <= pos + 4 -> pos + 12 <= len data ->
  unpack_2L (slice data (pos + 4) (pos + 12)) =
    Ok (le_value (slice data (pos + 4) (pos + 8)), le_value (slice data (pos + 8) (pos + 12))).
Proof.
  intros H1 H2. unfold unpack_2L.
  pose proof (length_slice data (pos + 4) (pos + 12) ltac:(lia) H2) as Hl.
  unfold len in Hl.
  destruct (decide (length (slice data (pos + 4) (pos + 12)) = 8%nat)); [|lia].
  rewrite !slice_in_range by lia.
  replace (Z.to_nat (pos + 12 - (pos + 4))) with 8%nat by lia.
  replace (Z.to_nat (pos + 8 - (pos + 4))) with 4%nat by lia.
  replace (Z.to_nat (pos + 12 - (pos + 8))) with 4%nat by lia.
  set (l := drop (Z.to_nat (pos + 4)) data).
  assert (H3 : take 4 (take 8 l) = take 4 l) by (rewrite take_take; reflexivity).
  assert (H4 : drop 4 (take 8 l) = take 4 (drop (Z.to_nat (pos + 8)) data)).
  { change 8%nat with (4 + 4)%nat. rewrite <- take_drop_commute. unfold l.
    rewrite drop_drop. do 2 f_equal. lia. }
  rewrite H3, H4. reflexivity.
Qed.

Lemma UpdateBl2Parameters_header (spl_source : string) (fdt : Fdt) (spl_load_size : Z)
    (data : bytes) (pos : Z) :
  0 <= pos + 4 -> pos + 12 <= len data ->
  let version := le_value (slice data (pos + 4) (pos + 8)) in
  let size := le_value (slice data (pos + 8) (pos + 12)) in
  (version <> 1 ->
     _UpdateBl2Parameters spl_source fdt spl_load_size data pos =
       ([], Raise (CmdError ("Cannot update machine parameter block version '" +:+
                             fmt_d version +:+ "'")))) /\
  (version = 1 -> pos + size > len data ->
     exists msg,
       _UpdateBl2Parameters spl_source fdt spl_load_size data pos =
         ([], Raise (CmdError msg))).
Proof.
  intros H1 H2 version size. unfold _UpdateBl2Parameters.
  rewrite unpack_2L_slice by assumption. fold version size.
  split.
  - intros Hv. cbn. destruct (version =? 1) eqn:E; [lia|]. reflexivity.
  - intros Hv Hs. cbn. destruct (version =? 1) eqn:E; [|lia]. cbn [negb].
    destruct (size <? 0) eqn:E1; cbn [orb]; [eauto|].
    destruct (pos + size >? len data) eqn:E2; [eauto | lia].
Qed.

(** C4, amended.  The block is located at the last occurrence of the
    four-byte little-endian marker ef be ad de.  When that occurrence is at
    a position above 0 and the header lies within the binary, a version
    other than 1, or a declared size that puts the end of the block beyond
    the binary, raises a CmdError; the output file then holds the copy of
    the original and nothing else was written, so no checksum was
    recomputed. *)
Theorem ConfigureExynosBl2_block_checks (spl_source : string) (fdt : Fdt)
    (spl_load_size : Z) (orig_bl2 name : string) (w : world) (data : bytes) :
  files w !! orig_bl2 = Some data ->
  let marker := le_bytes MARKER in
  let pos := py_rfind marker data in
  0 < pos ->
  marker = [xef; xbe; xad; xde] /\
  slice data pos (pos + 4) = marker /\
  (forall j, pos < j -> slice data j (j + 4) <> marker) /\
  (pos + 12 <= len data ->
   let version := le_value (slice data (pos + 4) (pos + 8)) in
   let size := le_value (slice data (pos + 8) (pos + 12)) in
   version <> 1 \/ pos + size > len data ->
   exists msg w',
     ConfigureExynosBl2 spl_source fdt spl_load_size orig_bl2 name w
       = (w', Raise (CmdError msg)) /\
     files w' !! bl2_name w name = Some data /\
     trace w' = trace w ++ [EvOut LvInfo "Configuring BL2";
                            EvWrite (bl2_name w name) data]).
Proof.
  intros Hf marker pos Hpos.
  destruct (py_rfind_last marker data pos ltac:(cbn; lia) eq_refl ltac:(lia)) as [Hat Hlast].
  change (Z.of_nat (length marker)) with 4 in *.
  split; [reflexivity|]. split; [assumption|]. split; [assumption|].
  intros Hlen version size Hbad.
  rewrite (ConfigureExynosBl2_run _ _ _ _ _ _ _ Hf). cbv zeta. fold marker pos.
  destruct (pos =? 0) eqn:E; [lia|].
  destruct (UpdateBl2Parameters_header spl_source fdt spl_load_size data pos
              ltac:(lia) Hlen) as [Hver Hsize].
  fold version size in Hver, Hsize.
  assert (Hraise : exists msg,
             _UpdateBl2Parameters spl_source fdt spl_load_size data pos
               = ([], Raise (CmdError msg))).
  { destruct (Z.eq_dec version 1) as [Hv|Hv].
    - destruct Hbad as [Hb|Hb]; [contradiction|]. apply Hsize; assumption.
    - eexists. apply Hver. assumption. }
  destruct Hraise as [msg ->]. cbn [fst snd out_events map].
  exists msg. eexists. split; [reflexivity|]. split.
  - unfold add_events, bl2_copied, with_file. cbn [files]. apply lookup_insert_eq.
  - unfold add_events, bl2_copied, with_file. cbn [trace].
    rewrite app_nil_r. cbn [trace add_events]. rewrite <- app_assoc. reflexivity.
Qed.

Lemma ConfigureExynosBl2_block_checks_witness :
  let fdt := board_fdt "ddr3" "samsung" 800000000 in
  let w := idle_world {[ "bl2.bin" := bad_version_bl2 ]} fdt in
  exists msg w',
    ConfigureExynosBl2 "straps" fdt 0x5000 "bl2.bin" EmptyString w
      = (w', Raise (CmdError msg)) /\
    files w' !! bl2_name w EmptyString = Some bad_version_bl2 /\
    trace w' = trace w ++ [EvOut LvInfo "Configuring BL2";
                           EvWrite (bl2_name w EmptyString) bad_version_bl2].
Proof.
  intros fdt w.
  refine (proj2 (proj2 (proj2
            (ConfigureExynosBl2_block_checks "straps" fdt 0x5000 "bl2.bin" EmptyString
               w bad_version_bl2 _ _))) _ _).
  - vm_compute. reflexivity.
  - vm_compute. reflexivity.
  - vm_compute. discriminate.
  - left. vm_compute. discriminate.
Defined.

(** the claim as it stands: an eight-byte marker, and no marker is fatal *)
Lemma ConfigureExynosBl2_marker_counterexample :
  let fdt := board_fdt "ddr3" "samsung" 800000000 in
  let marker8 := le_bytes MARKER ++ le_bytes 0 in
  let blk := bl2_example "v" [x00; x00; x00] (le_bytes 0) [] in
  let plain := [x00; x00; x00; x01; x00; x00; x00; x00; x00; x00; x00; x00] in
  py_find marker8 blk = -1 /\
  py_rfind (le_bytes MARKER) blk = 1 /\
  snd (ConfigureExynosBl2 "straps" fdt 0x5000 "bl2.bin" EmptyString
         (idle_world {[ "bl2.bin" := blk ]} fdt)) = Ok "out/updated-spl.bin" /\
  py_find (le_bytes MARKER) plain = -1 /\
  py_rfind (le_bytes MARKER) plain = -1 /\
  snd (ConfigureExynosBl2 "straps" fdt 0x5000 "bl2.bin" EmptyString
         (idle_world {[ "bl2.bin" := plain ]} fdt)) = Ok "out/updated-spl.bin".
Proof. vm_compute. repeat split; reflexivity. Qed.

(** C5, amended.  Let [ConfigureExynosBl2] succeed on a binary whose
    parameter block (header, NUL-terminated code list and value slots) ends
    before the four trailing checksum bytes.  If the last marker of the
    output is where the last marker of the input was, running it again on
    its own output with the same configuration succeeds and leaves the
    output byte for byte the same. *)
Theorem ConfigureExynosBl2_idempotent (spl_source : string) (fdt : Fdt)
    (spl_load_size : Z) (orig_bl2 name : string) (w w1 : world)
    (d0 : bytes) (out : string) :
  files w !! orig_bl2 = Some d0 ->
  ConfigureExynosBl2 spl_source fdt spl_load_size orig_bl2 name w = (w1, Ok out) ->
  let pos := py_rfind (le_bytes MARKER) d0 in
  let param_len := py_find [x00] (slice_from d0 (pos + 12)) in
  0 <= param_len ->
  pos + 12 + Z.land (param_len + 4) (Z.lnot 3) + 4 * param_len <= len d0 - 4 ->
  exists d1,
    files w1 !! out = Some d1 /\ len d1 = len d0 /\
    (py_rfind (le_bytes MARKER) d1 = pos ->
     exists w2,
       ConfigureExynosBl2 spl_source fdt spl_load_size out name w1 = (w2, Ok out) /\
       files w2 !! out = Some d1).
Proof.
  intros Hf Hrun pos param_len Hk Hfit.
  rewrite (ConfigureExynosBl2_run _ _ _ _ _ _ _ Hf) in Hrun. cbv zeta in Hrun.
  fold pos in Hrun.
  destruct (pos =? 0) eqn:Epos; [discriminate|].
  destruct (_UpdateBl2Parameters spl_source fdt spl_load_size d0 pos)
    as [msgs [p0|e]] eqn:Ep; cbn [fst snd] in Hrun; [|discriminate].
  destruct (_UpdateChecksum p0) as [d1|e] eqn:Eck; [|discriminate].
  inversion Hrun as [[Hw1 Hout]]. clear Hrun. rewrite ?Hw1, ?Hout.
  assert (Hsnd : snd (_UpdateBl2Parameters spl_source fdt spl_load_size d0 pos) = Ok p0)
    by (rewrite Ep; reflexivity).
  destruct (patch_then_checksum_idempotent spl_source fdt spl_load_size d0 p0 d1 pos
              (py_rfind_bounds _ _) Hsnd Eck Hk Hfit) as (Hlen & Hagain & Hck).
  exists d1.
  assert (Hd1 : files w1 !! out = Some d1).
  { rewrite <- Hw1, <- Hout. unfold with_file. cbn [files]. apply lookup_insert_eq. }
  split; [assumption|]. split; [assumption|].
  intros Hsame.
  assert (Hname : bl2_name w1 name = out).
  { rewrite <- Hw1, <- Hout. reflexivity. }
  rewrite (ConfigureExynosBl2_run _ _ _ _ _ _ _ Hd1). cbv zeta.
  rewrite Hsame, Epos.
  destruct (_UpdateBl2Parameters spl_source fdt spl_load_size d1 pos)
    as [msgs' [p1|e]] eqn:Ep1; cbn [fst snd] in *; [|discriminate].
  inversion Hagain; subst p1. rewrite Hck, Hname.
  eexists. split; [reflexivity|].
  unfold with_file. cbn [files]. apply lookup_insert_eq.
Qed.

Lemma ConfigureExynosBl2_idempotent_witness :
  let fdt := board_fdt "ddr3" "samsung" 800000000 in
  let d0 := bl2_example "mMfvub" [x00; x00] (zeros 24) [] in
  let w := idle_world {[ "bl2.bin" := d0 ]} fdt in
  let w1 := fst (ConfigureExynosBl2 "straps" fdt 0x5001 "bl2.bin" EmptyString w) in
  exists d1,
    files w1 !! "out/updated-spl.bin" = Some d1 /\ len d1 = len d0 /\
    (py_rfind (le_bytes MARKER) d1 = py_rfind (le_bytes MARKER) d0 ->
     exists w2,
       ConfigureExynosBl2 "straps" fdt 0x5001 "out/updated-spl.bin" EmptyString w1
         = (w2, Ok "out/updated-spl.bin") /\
       files w2 !! "out/updated-spl.bin" = Some d1).
Proof.
  intros fdt d0 w w1.
  refine (ConfigureExynosBl2_idempotent "straps" fdt 0x5001 "bl2.bin" EmptyString
            w w1 d0 "out/updated-spl.bin" _ _ _ _).
  - vm_compute. reflexivity.
  - vm_compute. reflexivity.
  - vm_compute. discriminate.
  - vm_compute. discriminate.
Defined.

(** the claim as it stands: a marker that the patch itself completes *)
Lemma ConfigureExynosBl2_drift_counterexample :
  let fdt := board_fdt "ddr3" "samsung" 222000000 in
  let d0 := bl2_example "zf" [x00; x00] ([x00; xef; xbe; xad] ++ le_bytes 0) [] in
  let w := idle_world {[ "bl2.bin" := d0 ]} fdt in
  let first := ConfigureExynosBl2 "straps" fdt 0x5000 "bl2.bin" EmptyString w in
  py_rfind (le_bytes MARKER) d0 = 1 /\
  le_value (slice d0 5 9) = 1 /\
  1 + le_value (slice d0 9 13) = len d0 /\
  snd first = Ok "out/updated-spl.bin" /\
  snd (ConfigureExynosBl2 "straps" fdt 0x5000 "out/updated-spl.bin" EmptyString
         (fst first)) = Raise StructError.
Proof. vm_compute. repeat split; reflexivity. Qed.

(** * Substituting the placeholder *)

Section Substitution.
Variables pat repl : bytes.
Hypothesis pat_nonempty : (0 < length pat)%nat.

Lemma count_matches_skip (data : bytes) (k : nat) :
  count_matches pat data k = count_matches pat (drop k data) 0.
Proof.
  revert k. induction data as [|b data IH]; intros k.
  - rewrite drop_nil. reflexivity.
  - destruct k as [|k]; [reflexivity|]. cbn [count_matches drop]. apply IH.
Qed.

Lemma re_sub_skip (data : bytes) (k : nat) :
  re_sub pat repl data k = re_sub pat repl (drop k data) 0.
Proof.
  revert k. induction data as [|b data IH]; intros k.
  - rewrite drop_nil. reflexivity.
  - destruct k as [|k]; [reflexivity|]. cbn [re_sub drop]. apply IH.
Qed.

Lemma count_matches_nonneg (data : bytes) (k : nat) : 0 <= count_matches pat data k.
Proof.
  revert k. induction data as [|b data IH]; intros k; cbn [count_matches]; [lia|].
  destruct k as [|k]; [|apply IH].
  destruct (starts_with pat (b :: data)).
  - specialize (IH (length pat - 1)%nat). lia.
  - apply IH.
Qed.

Lemma starts_with_split (data : bytes) :
  starts_with pat data = true -> data = pat ++ drop (length pat) data.
Proof.
  intros H. apply starts_with_take in H. rewrite <- H at 1. symmetry. apply take_drop.
Qed.

Lemma drop_pat_tail (b : byte) (data : bytes) :
  drop (length pat - 1) data = drop (length pat) (b :: data).
Proof.
  destruct (length pat) as [|n] eqn:E; [lia|]. cbn [drop].
  replace (Datatypes.S n - 1)%nat with n by lia. reflexivity.
Qed.

Lemma re_sub_none (data : bytes) :
  count_matches pat data 0 = 0 -> re_sub pat repl data 0 = data.
Proof.
  induction data as [|b data IH]; [reflexivity|]. cbn [count_matches re_sub].
  destruct (starts_with pat (b :: data)).
  - pose proof (count_matches_nonneg data (length pat - 1)). lia.
  - intros H. rewrite IH by assumption. reflexivity.
Qed.

Lemma re_sub_once (data : bytes) :
  count_matches pat data 0 = 1 ->
  exists pre post,
    data = pre ++ pat ++ post /\ re_sub pat repl data 0 = pre ++ repl ++ post.
Proof.
  induction data as [|b data IH]; cbn [count_matches re_sub]; [discriminate|].
  destruct (starts_with pat (b :: data)) eqn:E.
  - intros H. rewrite count_matches_skip in H. rewrite re_sub_skip.
    rewrite (drop_pat_tail b) in *.
    exists [], (drop (length pat) (b :: data)). cbn [app].
    split; [apply starts_with_split; assumption|].
    rewrite re_sub_none by lia. reflexivity.
  - intros H. destruct (IH H) as (pre & post & -> & Hs).
    exists (b :: pre), post. rewrite Hs. split; reflexivity.
Qed.
End Substitution.

Lemma length_bytes_of (s : string) : length (bytes_of s) = String.length s.
Proof.
  unfold bytes_of, list_byte_of_string.
  rewrite length_map. induction s as [|c s IH]; cbn; congruence.
Qed.

Lemma round_up_4096 (x : Z) :
  let r := Z.land (x + 0x1000 - 1) (Z.lnot (0x1000 - 1)) in
  r mod 4096 = 0 /\ x <= r < x + 4096.
Proof.
  cbv zeta. change (0x1000 - 1) with (Z.ones 12).
  rewrite land_lnot_ones by lia. change (2 ^ 12) with 4096.
  replace (x + 0x1000 - 1) with (x + 4095) by lia.
  pose proof (Z.div_mod (x + 4095) 4096 ltac:(lia)).
  pose proof (Z.mod_pos_bound (x + 4095) 4096 ltac:(lia)).
  split; [|lia].
  rewrite Z.mul_comm. apply Z.mod_mul. lia.
Qed.

(** * The flasher image *)

Lemma assemble_flasher_cases (text_base : Z) (data fdt_data payload_data : bytes) :
  let payload_offset := payload_offset_of data fdt_data in
  let new_str := fmt_08x (text_base + payload_offset) in
  let matches := count_matches (bytes_of replace_me) fdt_data 0 in
  (String.length new_str <> 8%nat \/ matches <> 1 ->
   exists msg,
     assemble_flasher (Some text_base) replace_me data fdt_data payload_data
       = Raise (ValueError msg)) /\
  (String.length new_str = 8%nat -> matches = 1 ->
   exists pre post,
     fdt_data = pre ++ bytes_of replace_me ++ post /\
     assemble_flasher (Some text_base) replace_me data fdt_data payload_data
       = Ok (data ++ (pre ++ bytes_of new_str ++ post) ++
             zeros (payload_offset - len data - len fdt_data) ++ payload_data)).
Proof.
  intros payload_offset new_str matches.
  unfold assemble_flasher. cbn [mbind result_bind]. cbv zeta.
  fold (payload_offset_of data fdt_data). fold payload_offset. fold new_str. fold matches.
  change (String.length replace_me) with 8%nat.
  split.
  - intros Hbad. destruct (Nat.eqb 8 (String.length new_str)) eqn:E1; cbn [negb]; [|eauto].
    apply Nat.eqb_eq in E1.
    destruct (matches =? 1) eqn:E2; cbn [negb]; [|eauto]. lia.
  - intros H8 H1. rewrite H8, Nat.eqb_refl. cbn [negb].
    destruct (matches =? 1) eqn:E2; [|lia]. cbn [negb].
    destruct (re_sub_once (bytes_of replace_me) (bytes_of new_str)
                ltac:(rewrite length_bytes_of; cbn; lia) fdt_data H1)
      as (pre & post & Hsplit & Hsub).
    exists pre, post. split; [assumption|]. rewrite Hsub.
    assert (Hl : len (data ++ pre ++ bytes_of new_str ++ post) = len data + len fdt_data).
    { rewrite Hsplit. unfold len. rewrite !length_app, !length_bytes_of, H8.
      change (String.length replace_me) with 8%nat. lia. }
    rewrite Hl. rewrite <- !app_assoc.
    replace (payload_offset - (len data + len fdt_data))
      with (payload_offset - len data - len fdt_data) by lia.
    reflexivity.
Qed.

Lemma GetFlashScript_pair (payload_size : Z) (update verify : bool)
    (boot_type : string) (checksum : Z) (bus : string) :
  _GetFlashScript payload_size update verify boot_type checksum bus =
    (fst (_GetFlashScript payload_size update verify boot_type checksum bus), replace_me).
Proof. reflexivity. Qed.

Section FlasherTheorems.
Variable crc32 : bytes -> Z.
Variable fdt_put_string : bytes -> string -> string -> string -> bytes.

Lemma PrepareFlasher_run (uboot payload : string) (update verify : bool)
    (boot_type bus : string) (w : world) (d u p : bytes) :
  files w !! fname (_fdt (self w)) = Some d ->
  <[dtb_name w := d]> (files w) !! payload = Some p ->
  <[dtb_name w := d]> (files w) !! uboot = Some u ->
  let fdt_data := flasher_fdt crc32 fdt_put_string d p update verify boot_type bus in
  let w2 := fdt_written w d fdt_data in
  PrepareFlasher crc32 fdt_put_string uboot payload update verify boot_type bus w =
    match assemble_flasher (text_base (self w)) replace_me u fdt_data p with
    | Raise e => (w2, Raise e)
    | Ok image =>
        (add_events (with_file w2 (flasher_name w) image)
           [EvOutputSize "U-Boot" uboot; EvOutputSize "Payload" payload;
            EvOut LvNotice ("Payload checksum " +:+
                            fmt_08x (Z.land (crc32 p) 0xffffffff));
            EvOutputSize "Flasher" (flasher_name w)],
         Ok (flasher_name w))
    end.
Proof.
  intros Hd Hp Hu fdt_data w2.
  unfold PrepareFlasher, Fdt_Copy, Fdt_PutString, mbind, M_bind, get_world, ReadFile,
    WriteFile, lift, OutputSize, Notice, emit, mret, M_ret.
  cbn [files trace ncalls tool duration clock outdir stdout_is_tty self fname].
  rewrite Hd. cbn [files trace ncalls tool duration clock outdir stdout_is_tty self fname].
  fold (dtb_name w). rewrite Hp.
  cbn [files trace ncalls tool duration clock outdir stdout_is_tty self fname].
  rewrite GetFlashScript_pair.
  cbn [files trace ncalls tool duration clock outdir stdout_is_tty self fname].
  rewrite Hu.
  cbn [files trace ncalls tool duration clock outdir stdout_is_tty self fname].
  rewrite lookup_insert_eq.
  cbn [files trace ncalls tool duration clock outdir stdout_is_tty self fname].
  rewrite lookup_insert_eq.
  cbn [files trace ncalls tool duration clock outdir stdout_is_tty self fname].
  fold (flasher_fdt crc32 fdt_put_string d p update verify boot_type bus). fold fdt_data.
  destruct (assemble_flasher (text_base (self w)) replace_me u fdt_data p) as [image|e];
    [|reflexivity].
  unfold add_events, with_file, w2, fdt_written, with_file, flasher_name.
  cbn [files trace ncalls tool duration clock outdir stdout_is_tty self].
  rewrite <- !app_assoc. reflexivity.
Qed.
End FlasherTheorems.

Lemma append_inj_r (a b c : string) : a +:+ b = a +:+ c -> b = c.
Proof. induction a as [|x a IH]; cbn; intros H; [assumption|]. inversion H. auto. Qed.

Lemma path_join_inj (dir a b : string) : path_join dir a = path_join dir b -> a = b.
Proof.
  unfold path_join. destruct (String.eqb dir EmptyString); [auto|].
  destruct (String.eqb _ "/").
  - apply append_inj_r.
  - intros H. apply append_inj_r in H. apply (append_inj_r "/") in H. assumption.
Qed.

Section FlasherClaims.
Variable crc32 : bytes -> Z.
Variable fdt_put_string : bytes -> string -> string -> string -> bytes.

(** C1.  When [PrepareFlasher] returns, [payload_offset] is
    [len(uboot) + len(fdt)] rounded up to a multiple of 4096; the image is
    the u-boot bytes, the fdt bytes with the placeholder replaced by the
    [%08x] of [text_base + payload_offset], zero padding, and the payload;
    the payload begins at [payload_offset].  For a boot loader of 100 bytes
    and an fdt of 50 bytes the offset is 4096 and the load address is
    [text_base + 4096]. *)
Theorem PrepareFlasher_layout (uboot payload : string) (update verify : bool)
    (boot_type bus : string) (w w' : world) (d u p : bytes) (flasher : string) :
  files w !! fname (_fdt (self w)) = Some d ->
  <[dtb_name w := d]> (files w) !! payload = Some p ->
  <[dtb_name w := d]> (files w) !! uboot = Some u ->
  PrepareFlasher crc32 fdt_put_string uboot payload update verify boot_type bus w
    = (w', Ok flasher) ->
  let fdt_data := flasher_fdt crc32 fdt_put_string d p update verify boot_type bus in
  let payload_offset := RoundUp (len u + len fdt_data) 4096 in
  exists tb image pre post,
    text_base (self w) = Some tb /\
    files w' !! flasher = Some image /\
    fdt_data = pre ++ bytes_of replace_me ++ post /\
    image = u ++ (pre ++ bytes_of (fmt_08x (tb + payload_offset)) ++ post) ++
            zeros (payload_offset - len u - len fdt_data) ++ p /\
    drop (Z.to_nat payload_offset) image = p /\
    payload_offset mod 4096 = 0 /\
    len u + len fdt_data <= payload_offset < len u + len fdt_data + 4096 /\
    (len u = 100 -> len fdt_data = 50 ->
     payload_offset = 4096 /\ drop 4096 image = p /\
     image = u ++ (pre ++ bytes_of (fmt_08x (tb + 4096)) ++ post) ++
             zeros (4096 - 150) ++ p).
Proof.
  intros Hd Hp Hu Hrun fdt_data payload_offset.
  rewrite (PrepareFlasher_run crc32 fdt_put_string _ _ _ _ _ _ _ _ _ _ Hd Hp Hu) in Hrun.
  cbv zeta in Hrun. fold fdt_data in Hrun.
  destruct (text_base (self w)) as [tb|] eqn:Etb; [|discriminate].
  change (RoundUp (len u + len fdt_data) 4096) with (payload_offset_of u fdt_data)
    in payload_offset.
  destruct (assemble_flasher_cases tb u fdt_data p) as [Hbad Hgood].
  fold payload_offset in Hbad, Hgood.
  destruct (Nat.eq_dec (String.length (fmt_08x (tb + payload_offset))) 8%nat) as [H8|H8].
  2: { destruct Hbad as [msg Hm]; [left; assumption|]. rewrite Hm in Hrun. discriminate. }
  destruct (Z.eq_dec (count_matches (bytes_of replace_me) fdt_data 0) 1) as [H1|H1].
  2: { destruct Hbad as [msg Hm]; [right; assumption|]. rewrite Hm in Hrun. discriminate. }
  destruct (Hgood H8 H1) as (pre & post & Hsplit & Hasm). rewrite Hasm in Hrun.
  inversion Hrun as [[Hw' Hflasher]]. clear Hrun.
  set (image := u ++ (pre ++ bytes_of (fmt_08x (tb + payload_offset)) ++ post) ++
                zeros (payload_offset - len u - len fdt_data) ++ p).
  destruct (round_up_4096 (len u + len fdt_data)) as [Hmod Hbound].
  fold (payload_offset_of u fdt_data) in Hmod, Hbound. fold payload_offset in Hmod, Hbound.
  assert (Hsublen : len (pre ++ bytes_of (fmt_08x (tb + payload_offset)) ++ post)
                    = len fdt_data).
  { rewrite Hsplit. unfold len. rewrite !length_app, !length_bytes_of, H8. reflexivity. }
  assert (Hdrop : drop (Z.to_nat payload_offset) image = p).
  { unfold image. rewrite !app_assoc. apply drop_app_length'.
    unfold len, zeros in *. rewrite !length_app, length_replicate.
    rewrite !length_app in Hsublen. lia. }
  exists tb, image, pre, post.
  split; [reflexivity|].
  split; [unfold add_events, with_file; cbn [files]; apply lookup_insert_eq|].
  split; [assumption|]. split; [reflexivity|]. split; [assumption|].
  split; [assumption|]. split; [assumption|].
  intros H100 H50.
  assert (Hoff : payload_offset = 4096).
  { pose proof (Z.div_mod payload_offset 4096 ltac:(lia)) as Hdm.
    rewrite Hmod in Hdm.
    assert (payload_offset / 4096 = 1) by lia. lia. }
  split; [assumption|].
  split; [rewrite <- Hdrop, Hoff; reflexivity|].
  unfold image. rewrite Hoff, H100, H50. reflexivity.
Qed.

(** C2.  The placeholder of the script generator has 8 characters.  If
    the [%08x] of the load address has another length, or the placeholder
    does not occur exactly once in the fdt bytes, [PrepareFlasher] raises a
    ValueError and the flasher file has not been written.  Otherwise the
    substitution succeeds and the fdt bytes keep their length. *)
Theorem PrepareFlasher_placeholder_checks (uboot payload : string) (update verify : bool)
    (boot_type bus : string) (w : world) (d u p : bytes) (tb : Z) :
  files w !! fname (_fdt (self w)) = Some d ->
  <[dtb_name w := d]> (files w) !! payload = Some p ->
  <[dtb_name w := d]> (files w) !! uboot = Some u ->
  text_base (self w) = Some tb ->
  let fdt_data := flasher_fdt crc32 fdt_put_string d p update verify boot_type bus in
  let payload_offset := RoundUp (len u + len fdt_data) 4096 in
  let new_str := fmt_08x (tb + payload_offset) in
  let matches := count_matches (bytes_of replace_me) fdt_data 0 in
  (forall payload_size update verify boot_type checksum bus,
     snd (_GetFlashScript payload_size update verify boot_type checksum bus)
       = replace_me) /\
  String.length replace_me = 8%nat /\
  (String.length new_str <> String.length replace_me \/ matches <> 1 ->
   exists msg w',
     PrepareFlasher crc32 fdt_put_string uboot payload update verify boot_type bus w
       = (w', Raise (ValueError msg)) /\
     trace w' = trace w ++ [EvWrite (dtb_name w) d; EvWrite (dtb_name w) fdt_data] /\
     files w' !! flasher_name w = files w !! flasher_name w) /\
  (String.length new_str = String.length replace_me -> matches = 1 ->
   exists w' pre post,
     PrepareFlasher crc32 fdt_put_string uboot payload update verify boot_type bus w
       = (w', Ok (flasher_name w)) /\
     fdt_data = pre ++ bytes_of replace_me ++ post /\
     files w' !! flasher_name w =
       Some (u ++ (pre ++ bytes_of new_str ++ post) ++
             zeros (payload_offset - len u - len fdt_data) ++ p) /\
     len (pre ++ bytes_of new_str ++ post) = len fdt_data).
Proof.
  intros Hd Hp Hu Htb fdt_data payload_offset new_str matches.
  split; [reflexivity|]. split; [reflexivity|].
  change (String.length replace_me) with 8%nat.
  change (RoundUp (len u + len fdt_data) 4096) with (payload_offset_of u fdt_data)
    in payload_offset.
  destruct (assemble_flasher_cases tb u fdt_data p) as [Hbad Hgood].
  fold payload_offset new_str matches in Hbad, Hgood.
  rewrite (PrepareFlasher_run crc32 fdt_put_string _ _ _ _ _ _ _ _ _ _ Hd Hp Hu).
  cbv zeta. fold fdt_data. rewrite Htb.
  split.
  - intros H. destruct (Hbad H) as [msg ->].
    exists msg. eexists. split; [reflexivity|]. split.
    + unfold fdt_written, with_file. cbn [trace]. rewrite <- app_assoc. reflexivity.
    + unfold fdt_written, with_file. cbn [files].
      assert (Hne : dtb_name w <> flasher_name w).
      { intros E. apply path_join_inj in E. discriminate. }
      rewrite !lookup_insert_ne by assumption. reflexivity.
  - intros H8 H1. destruct (Hgood H8 H1) as (pre & post & Hsplit & ->).
    eexists. exists pre, post. split; [reflexivity|]. split; [assumption|].
    split; [unfold add_events, with_file; cbn [files]; apply lookup_insert_eq|].
    rewrite Hsplit. unfold len. rewrite !length_app, !length_bytes_of, H8. reflexivity.
Qed.
End FlasherClaims.

Lemma PrepareFlasher_layout_witness :
  let w := flasher_world 0x108000 in
  let w' := fst (PrepareFlasher crc32_bitwise short_put "u-boot.bin" "image.bin"
                   true false "spi" "0" w) in
  exists image,
    files w' !! "out/flasher-for-image.bin" = Some image /\
    drop 4096 image = bytes_of "PAYLOAD" /\
    take 9 (drop 100 image) = bytes_of "x00109000".
Proof.
  intros w w'.
  destruct (PrepareFlasher_layout crc32_bitwise short_put "u-boot.bin" "image.bin"
              true false "spi" "0" w w' (replicate 8 x01) (replicate 100 x02)
              (bytes_of "PAYLOAD") "out/flasher-for-image.bin")
    as (tb & image & pre & post & Htb & Hfile & Hsplit & Himg & Hdrop & _ & _ & Hex).
  - vm_compute. reflexivity.
  - vm_compute. reflexivity.
  - vm_compute. reflexivity.
  - vm_compute. reflexivity.
  - exists image. split; [assumption|].
    destruct Hex as (_ & Hd & _); [vm_compute; reflexivity | vm_compute; reflexivity |].
    split; [assumption|].
    vm_compute in Hfile. injection Hfile as <-. vm_compute. reflexivity.
Defined.

Lemma PrepareFlasher_placeholder_checks_witness :
  let w := flasher_world 0x108000 in
  exists w' pre post,
    PrepareFlasher crc32_bitwise short_put "u-boot.bin" "image.bin" true false "spi" "0" w
      = (w', Ok "out/flasher-for-image.bin") /\
    flasher_fdt crc32_bitwise short_put (replicate 8 x01) (bytes_of "PAYLOAD")
                true false "spi" "0" = pre ++ bytes_of replace_me ++ post /\
    len (pre ++ bytes_of "00109000" ++ post) = 50.
Proof.
  intros w.
  destruct (PrepareFlasher_placeholder_checks crc32_bitwise short_put "u-boot.bin"
              "image.bin" true false "spi" "0" w (replicate 8 x01) (replicate 100 x02)
              (bytes_of "PAYLOAD") 0x108000)
    as (_ & _ & _ & Hgood).
  - vm_compute. reflexivity.
  - vm_compute. reflexivity.
  - vm_compute. reflexivity.
  - vm_compute. reflexivity.
  - destruct Hgood as (w' & pre & post & Hrun & Hsplit & _ & Hlen).
    + vm_compute. reflexivity.
    + vm_compute. reflexivity.
    + exists w', pre, post. split; [exact Hrun|]. split; [exact Hsplit|]. exact Hlen.
Defined.

(** * The tegrarcm retry loop *)

Section RetryLoop.
Variable args : list string.

Lemma tegrarcm_attempt (n : nat) (last_err : option string) (w : world) :
  tegrarcm_loop (Datatypes.S n) args last_err w =
    match tool w (ncalls w) "tegrarcm" args with
    | Ok _ => (add_events (after_run w "tegrarcm" args true) [downloaded], Ok true)
    | Raise (CmdError err) =>
        if negb (stdout_is_tty w) then (after_run w "tegrarcm" args true, Ok false)
        else if negb (not_enumerated err) then
          (after_run w "tegrarcm" args true,
           Raise (CmdError ("tegrarcm failed: " +:+ err)))
        else tegrarcm_loop n args (Some err) (after_retry w args last_err err)
    | Raise e => (after_run w "tegrarcm" args true, Raise e)
    end.
Proof.
  cbn [tegrarcm_loop].
  unfold except_CmdError, mbind, M_bind, Run, Notice, Progress, emit, get_world, sleep,
    raise, mret, M_ret, after_run, after_retry, add_events, retry_events.
  cbn [files trace ncalls tool duration clock outdir stdout_is_tty self].
  destruct (tool w (ncalls w) "tegrarcm" args) as [out|[err| | | |]]; try reflexivity.
  cbn [files trace ncalls tool duration clock outdir stdout_is_tty self].
  destruct (stdout_is_tty w); cbn [negb]; [|reflexivity].
  fold (not_enumerated err). destruct (not_enumerated err); cbn [negb]; [|reflexivity].
  destruct (bool_decide (Some err = last_err)) eqn:E; cbn [negb];
    cbn [files trace ncalls tool duration clock outdir stdout_is_tty self].
  - rewrite <- !app_assoc. cbn [app].
    apply bool_decide_eq_true in E. rewrite <- E. reflexivity.
  - rewrite <- !app_assoc. reflexivity.
Qed.

Lemma tegrarcm_after_failures (errs : list string) :
  forall (n : nat) (last_err : option string) (w : world),
    stdout_is_tty w = true ->
    (forall i err, errs !! i = Some err ->
       tool w (ncalls w + i) "tegrarcm" args = Raise (CmdError err) /\
       not_enumerated err = true) ->
    exists wk,
      tegrarcm_loop (length errs + n) args last_err w =
        tegrarcm_loop n args (last_error last_err errs) wk /\
      trace wk = trace w ++ retries_events args last_err errs /\
      ncalls wk = (ncalls w + length errs)%nat /\
      tool wk = tool w /\
      stdout_is_tty wk = true.
Proof.
  induction errs as [|err rest IH]; intros n last_err w Htty Hrec.
  - exists w. cbn. rewrite app_nil_r, Nat.add_0_r. auto.
  - destruct (Hrec 0%nat err eq_refl) as [Hfail Hne]. rewrite Nat.add_0_r in Hfail.
    cbn [length Nat.add]. rewrite tegrarcm_attempt, Hfail, Htty, Hne. cbn [negb].
    destruct (IH n (Some err) (after_retry w args last_err err)) as (wk & Hk & Ht & Hn & Hto & Hty).
    + assumption.
    + intros i e Hi. cbn [after_retry ncalls tool].
      replace (Datatypes.S (ncalls w) + i)%nat with (ncalls w + Datatypes.S i)%nat by lia.
      apply Hrec. assumption.
    + exists wk. split; [|split; [|split; [|split]]].
      * rewrite Hk. f_equal. unfold last_error.
        destruct rest as [|e2 rest]; [reflexivity|].
        change (last (err :: e2 :: rest)) with (last (e2 :: rest)).
        destruct (last (e2 :: rest)) eqn:E; [reflexivity|].
        apply last_None in E. discriminate.
      * rewrite Ht. cbn [after_retry trace retries_events]. rewrite <- app_assoc.
        reflexivity.
      * rewrite Hn. cbn [after_retry ncalls length]. lia.
      * assumption.
      * assumption.
Qed.
End RetryLoop.

(** C8, amended.  With stdout a terminal: a failed tegrarcm whose error
    text contains "could not open USB device" is retried, up to 10 attempts
    in all, with a sleep of one second after each failure, and the error is
    logged only when it differs from the one logged before; a failure with
    any other text raises at once; three such failures and a success make
    4 invocations, the result True and the error logged once.  Without a
    terminal a failed invocation ends the loop at once with False. *)
Theorem tegrarcm_retry_policy (args : list string) (w : world) (errs : list string) :
  (length errs <= 10)%nat ->
  (forall i err, errs !! i = Some err ->
     tool w (ncalls w + i) "tegrarcm" args = Raise (CmdError err) /\
     not_enumerated err = true) ->
  let attempt := tool w (ncalls w + length errs) "tegrarcm" args in
  let run := tegrarcm_loop 10 args None w in
  let retried := retries_events args None errs in
  (stdout_is_tty w = true ->
   (length errs = 10%nat ->
      snd run = Ok false /\ trace (fst run) = trace w ++ retried) /\
   ((length errs < 10)%nat -> forall out, attempt = Ok out ->
      snd run = Ok true /\
      trace (fst run) = trace w ++ retried ++ [EvRun "tegrarcm" args true; downloaded]) /\
   ((length errs < 10)%nat -> forall err, attempt = Raise (CmdError err) ->
      not_enumerated err = false ->
      snd run = Raise (CmdError ("tegrarcm failed: " +:+ err)) /\
      trace (fst run) = trace w ++ retried ++ [EvRun "tegrarcm" args true]) /\
   (forall err out, errs = [err; err; err] -> attempt = Ok out ->
      snd run = Ok true /\
      trace (fst run) = trace w ++
        [EvRun "tegrarcm" args true; EvOut LvNotice err; prompt; EvSleep 1000;
         EvRun "tegrarcm" args true; EvSleep 1000;
         EvRun "tegrarcm" args true; EvSleep 1000;
         EvRun "tegrarcm" args true; downloaded])) /\
  (stdout_is_tty w = false ->
   forall err, tool w (ncalls w) "tegrarcm" args = Raise (CmdError err) ->
     snd run = Ok false /\ trace (fst run) = trace w ++ [EvRun "tegrarcm" args true]).
Proof.
  intros Hlen Hrec attempt run retried.
  split.
  - intros Htty.
    destruct (tegrarcm_after_failures args errs (10 - length errs) None w Htty Hrec)
      as (wk & Hk & Ht & Hn & Hto & Hty).
    replace (length errs + (10 - length errs))%nat with 10%nat in Hk by lia.
    fold run in Hk. fold retried in Ht.
    assert (Hlt : (length errs < 10)%nat -> forall out : result string, attempt = out ->
              run = match out with
                    | Ok _ => (add_events (after_run wk "tegrarcm" args true) [downloaded],
                               Ok true)
                    | Raise (CmdError err) =>
                        if negb (not_enumerated err)
                        then (after_run wk "tegrarcm" args true,
                              Raise (CmdError ("tegrarcm failed: " +:+ err)))
                        else tegrarcm_loop (9 - length errs) args (Some err)
                               (after_retry wk args (last_error None errs) err)
                    | Raise e => (after_run wk "tegrarcm" args true, Raise e)
                    end).
    { intros Hl out Hout. rewrite Hk.
      replace (10 - length errs)%nat with (Datatypes.S (9 - length errs)) by lia.
      rewrite tegrarcm_attempt, Hn, Hto, Hty. fold attempt. rewrite Hout.
      reflexivity. }
    assert (Hok : (length errs < 10)%nat -> forall out, attempt = Ok out ->
              snd run = Ok true /\
              trace (fst run) = trace w ++ retried ++ [EvRun "tegrarcm" args true; downloaded]).
    { intros Hl out Hout. rewrite (Hlt Hl _ Hout). cbn [fst snd]. split; [reflexivity|].
      cbn [add_events after_run trace]. rewrite Ht, <- !app_assoc. reflexivity. }
    split; [|split; [|split]].
    + intros H10. rewrite Hk, H10. cbn. split; [reflexivity | assumption].
    + assumption.
    + intros Hl err Hout Hne. rewrite (Hlt Hl _ Hout), Hne. cbn [negb fst snd].
      split; [reflexivity|]. cbn [after_run trace]. rewrite Ht, <- app_assoc. reflexivity.
    + intros err out Herrs Hout.
      destruct (Hok ltac:(rewrite Herrs; cbn; lia) out Hout) as [Hr Htr].
      split; [assumption|]. rewrite Htr. unfold retried. rewrite Herrs.
      cbn [retries_events retry_events app].
      rewrite bool_decide_eq_false_2 by discriminate.
      rewrite bool_decide_eq_true_2 by reflexivity. reflexivity.
  - intros Htty err Hfail. unfold run. rewrite tegrarcm_attempt, Hfail, Htty.
    cbn. split; reflexivity.
Qed.

Lemma tegrarcm_retry_policy_witness :
  let err := "USB: could not open USB device" in
  let args := ["--bct"; "board.bct"] in
  let run := tegrarcm_loop 10 args None (flaky_world 3 err true) in
  snd run = Ok true /\
  trace (fst run) =
    [EvRun "tegrarcm" args true; EvOut LvNotice err; prompt; EvSleep 1000;
     EvRun "tegrarcm" args true; EvSleep 1000;
     EvRun "tegrarcm" args true; EvSleep 1000;
     EvRun "tegrarcm" args true; downloaded].
Proof.
  intros err args run.
  refine (proj2 (proj2 (proj2 (proj1
            (tegrarcm_retry_policy args (flaky_world 3 err true) [err; err; err] _ _)
            _))) err EmptyString eq_refl _).
  - cbn. lia.
  - intros [|[|[|i]]] e He; inversion He; subst; split; vm_compute; reflexivity.
  - reflexivity.
  - vm_compute. reflexivity.
Defined.

(** the claim as it stands: without a terminal nothing is retried or raised *)
Lemma tegrarcm_not_a_tty :
  let args := ["--bct"; "board.bct"] in
  let waiting := tegrarcm_loop 10 args None
                   (flaky_world 3 "USB: could not open USB device" false) in
  let broken := tegrarcm_loop 10 args None (flaky_world 3 "bad BCT" false) in
  snd waiting = Ok false /\
  trace (fst waiting) = [EvRun "tegrarcm" args true] /\
  not_enumerated "bad BCT" = false /\
  snd broken = Ok false /\
  trace (fst broken) = [EvRun "tegrarcm" args true].
Proof. vm_compute. repeat split; reflexivity. Qed.

(** * The servo around the Exynos transfer *)

Section Grows.
Variable port : Z.

Lemma grows_ret {A} (a : A) : grows port (mret a : M A).
Proof. intros w _. exists []. cbn. rewrite app_nil_r. repeat split. constructor. Qed.

Lemma grows_raise {A} (e : exn) : grows port (raise e : M A).
Proof. intros w _. exists []. cbn. rewrite app_nil_r. repeat split. constructor. Qed.

Lemma grows_bind {A B} (m : M A) (k : A -> M B) :
  grows port m -> (forall a, grows port (k a)) -> grows port (m ≫= k).
Proof.
  intros Hm Hk w Hp. unfold mbind, M_bind.
  destruct (Hm w Hp) as (mid & Ht & Hs & Hq).
  destruct (m w) as [w1 [a|e]]; cbn [fst] in *.
  - destruct (Hk a w1 ltac:(congruence)) as (mid2 & Ht2 & Hs2 & Hq2).
    exists (mid ++ mid2). rewrite Ht2, Ht, app_assoc. split; [reflexivity|].
    split; [congruence|]. apply Forall_app. split; assumption.
  - exists mid. cbn. auto.
Qed.

Lemma grows_except {A} (body : M A) (handler : string -> M A) :
  grows port body -> (forall err, grows port (handler err)) ->
  grows port (except_CmdError body handler).
Proof.
  intros Hb Hh w Hp. unfold except_CmdError.
  destruct (Hb w Hp) as (mid & Ht & Hs & Hq).
  destruct (body w) as [w1 [a|[err| | | |]]]; cbn [fst] in *;
    try (exists mid; cbn; auto; fail).
  destruct (Hh err w1 ltac:(congruence)) as (mid2 & Ht2 & Hs2 & Hq2).
  exists (mid ++ mid2). rewrite Ht2, Ht, app_assoc. split; [reflexivity|].
  split; [congruence|]. apply Forall_app. split; assumption.
Qed.

Lemma grows_get_world : grows port get_world.
Proof. intros w _. exists []. cbn. rewrite app_nil_r. repeat split. constructor. Qed.

Lemma grows_out (lvl : level) (msg : string) : grows port (emit (EvOut lvl msg)).
Proof.
  intros w _. exists [EvOut lvl msg]. cbn. repeat split.
  constructor; [|constructor]. intros cmd a s H. discriminate.
Qed.

Lemma grows_sleep (ms : Z) : grows port (sleep ms).
Proof.
  intros w _. exists [EvSleep ms]. cbn. repeat split.
  constructor; [|constructor]. intros cmd a s H. discriminate.
Qed.

Lemma grows_Run (cmd : string) (args : list string) (sudo : bool) :
  cmd <> "dut-control" -> grows port (Run cmd args sudo).
Proof.
  intros Hc w _. exists [EvRun cmd args sudo]. cbn. repeat split.
  constructor; [|constructor]. intros c a s H. inversion H; subst. contradiction.
Qed.

Lemma DutControl_run (args : list string) (w : world) :
  _servo_port (self w) = Some port ->
  _DutControl args w =
    (after_run w "dut-control" (args ++ port_args port) false,
     tool w (ncalls w) "dut-control" (args ++ port_args port)).
Proof.
  intros Hp. unfold _DutControl, mbind, M_bind, get_world. rewrite Hp.
  unfold port_args. destruct (port =? 0); [rewrite app_nil_r|]; reflexivity.
Qed.

Lemma grows_early_release :
  grows port (_DutControl ["fw_up:off"; "pwr_button:release"]).
Proof.
  intros w Hp. rewrite (DutControl_run _ _ Hp).
  eexists. cbn. split; [reflexivity|]. split; [reflexivity|].
  constructor; [|constructor]. intros c a s H _. inversion H; subst. reflexivity.
Qed.

Lemma grows_wait_loop (rounds : nat) (name : string) (args : list string)
    (start_time timeout_ms : Z) :
  grows port (wait_loop rounds name args start_time timeout_ms).
Proof.
  induction rounds as [|rounds IH]; cbn [wait_loop]; [apply grows_ret|].
  apply grows_bind; [apply grows_get_world|]. intros w.
  destruct (clock w - start_time <? timeout_ms); [|apply grows_ret].
  apply grows_except; [|intros _; apply IH].
  apply grows_bind; [apply grows_Run; discriminate|]. intros _.
  apply grows_bind; [apply grows_out|]. intros _. apply grows_ret.
Qed.

Lemma grows_WaitForUSBDevice (name : string) (vendor_id product_id timeout : Z) :
  grows port (_WaitForUSBDevice name vendor_id product_id timeout).
Proof.
  unfold _WaitForUSBDevice.
  apply grows_bind; [apply grows_out|]. intros _.
  apply grows_bind; [apply grows_get_world|]. intros w. apply grows_wait_loop.
Qed.

Lemma grows_download_stages (vendor_id product_id : Z)
    (items : list (string * Z * string)) :
  forall upto, grows port (download_stages vendor_id product_id items upto).
Proof.
  induction items as [|[[stage addr] file] rest IH]; intros upto;
    cbn [download_stages]; [apply grows_ret|].
  apply grows_bind; [apply grows_WaitForUSBDevice|]. intros found.
  destruct found; cbn [negb].
  2: { destruct (upto =? 0); apply grows_raise. }
  apply grows_bind; [apply grows_out|]. intros _.
  apply grows_bind; [apply grows_out|]. intros _.
  apply grows_bind; [destruct (upto =? 0); [apply grows_sleep | apply grows_ret]|].
  intros _.
  apply grows_bind; [apply grows_Run; discriminate|]. intros _.
  apply grows_bind.
  - destruct (upto =? 1); [|apply grows_ret].
    apply grows_bind; [apply grows_early_release|]. intros _. apply grows_ret.
  - intros _. apply IH.
Qed.
End Grows.

(** ** What the control lines are left with *)

Lemma digit_char_decimal (n : Z) : (nat_of_ascii (digit_char (n mod 10)) <? 58)%nat = true.
Proof.
  pose proof (Z.mod_pos_bound n 10 ltac:(lia)) as Hb.
  unfold digit_char. remember (Z.to_nat (n mod 10)) as k eqn:Hk.
  assert (Hlt : (k < 10)%nat) by lia. clear Hk Hb.
  do 10 (destruct k as [|k]; [reflexivity|]). lia.
Qed.

Lemma digits_aux_leading (fuel : nat) (n : Z) (acc : string) :
  leading_ok acc = true -> leading_ok (digits_aux fuel 10 n acc) = true.
Proof.
  revert n acc. induction fuel as [|fuel IH]; intros n acc Hacc; cbn [digits_aux];
    [assumption|].
  destruct (n / 10 =? 0); [apply digit_char_decimal|].
  apply IH. apply digit_char_decimal.
Qed.

Lemma fmt_d_leading (v : Z) : leading_ok (fmt_d v) = true.
Proof.
  unfold fmt_d, fmt_int. cbn [Nat.sub repeat_char String.append].
  destruct (v <? 0); cbn [String.append]; [reflexivity|].
  apply digits_aux_leading. reflexivity.
Qed.

Lemma setting_of_plain (line s : string) :
  is_line line -> leading_ok s = true -> setting_of line s = None.
Proof.
  intros Hl Hs. destruct s as [|c s]; [destruct Hl as [->|[->|[->|[->| ->]]]]; reflexivity|].
  cbn [leading_ok] in Hs.
  destruct Hl as [->|[->|[->|[->| ->]]]]; unfold setting_of;
    match goal with
    | |- strip_prefix ?p _ = None =>
        let p' := eval vm_compute in p in change p with p'
    end;
    cbn [strip_prefix];
    match goal with
    | |- (if Ascii.eqb ?a c then _ else _) = None =>
        destruct (Ascii.eqb a c) eqn:E; [|reflexivity];
        apply Ascii.eqb_eq in E; subst c; vm_compute in Hs; discriminate
    end.
Qed.

Lemma last_setting_fold (line : string) (args : list string) :
  last_setting line args = fold_left (keep line) args None.
Proof. reflexivity. Qed.

Lemma keep_silent (line : string) (args : list string) (acc : option string) :
  Forall (fun arg => setting_of line arg = None) args ->
  fold_left (keep line) args acc = acc.
Proof.
  intros H. revert acc. induction H as [|arg args Ha _ IH]; intros acc; cbn [fold_left];
    [reflexivity|].
  unfold keep at 2. rewrite Ha. apply IH.
Qed.

Lemma port_args_silent (line : string) (port : Z) :
  is_line line -> Forall (fun arg => setting_of line arg = None) (port_args port).
Proof.
  intros Hl. unfold port_args. destruct (port =? 0); [constructor|].
  constructor; [apply setting_of_plain; [assumption | reflexivity]|].
  constructor; [apply setting_of_plain; [assumption | apply fmt_d_leading]|constructor].
Qed.

Lemma dut_control_args_app (tr1 tr2 : list event) :
  dut_control_args (tr1 ++ tr2) = dut_control_args tr1 ++ dut_control_args tr2.
Proof.
  induction tr1 as [|ev tr1 IH]; [reflexivity|]. cbn [app dut_control_args].
  destruct ev; rewrite IH; try reflexivity. rewrite app_assoc. reflexivity.
Qed.

Lemma quiet_args (port : Z) (mid : list event) :
  servo_quiet port mid ->
  Forall (fun arg => arg = "fw_up:off" \/ arg = "pwr_button:release" \/
                     arg ∈ port_args port) (dut_control_args mid).
Proof.
  intros H. induction H as [|ev mid Hev _ IH]; cbn [dut_control_args]; [constructor|].
  destruct ev as [| cmd a s | | |]; try assumption.
  destruct (String.eqb cmd "dut-control") eqn:E; [|assumption].
  apply String.eqb_eq in E. rewrite (Hev cmd a s eq_refl E).
  apply Forall_app. split; [|assumption].
  constructor; [left; reflexivity|]. constructor; [right; left; reflexivity|].
  apply Forall_forall. intros x Hx. right. right. assumption.
Qed.

Lemma quiet_silent (line : string) (port : Z) (mid : list event) :
  line = "warm_reset" \/ line = "cold_reset" \/ line = "dut_hub_sel" ->
  servo_quiet port mid ->
  Forall (fun arg => setting_of line arg = None) (dut_control_args mid).
Proof.
  intros Hl Hq. eapply Forall_impl; [apply (quiet_args port mid Hq)|].
  intros arg [->|[->|Hin]].
  - destruct Hl as [->|[->| ->]]; reflexivity.
  - destruct Hl as [->|[->| ->]]; reflexivity.
  - assert (Hline : is_line line) by (unfold is_line; tauto).
    pose proof (port_args_silent line port Hline) as Hp.
    rewrite Forall_forall in Hp. apply Hp. assumption.
Qed.

(** C9.  However the stage loop ends, the last thing [transfer] does is
    the cleanup command: fw_up off, the power button released and, when
    dut_hub_sel had to be changed, dut_hub_sel set back to the value read
    before.  The loop itself issues no servo command but the early release
    of the button.  So each line the reset asserted is left released:
    fw_up off, pwr_button released, warm_reset and cold_reset off, and
    dut_hub_sel back at the preserved value or never touched.  The outcome
    of the loop is the outcome of [transfer], unless the cleanup command
    itself raises. *)
Theorem transfer_always_releases (vendor_id product_id : Z)
    (download_list : list (string * Z * string)) (preserved_dut_hub_sel : string)
    (port : Z) (w : world) :
  _servo_port (self w) = Some port ->
  let run := transfer vendor_id product_id download_list preserved_dut_hub_sel w in
  let body := download_stages vendor_id product_id download_list 0 w in
  let cleanup := EvRun "dut-control"
                   (release_args preserved_dut_hub_sel ++ port_args port) false in
  exists mid,
    trace (fst body) = trace w ++ mid /\
    trace (fst run) = trace w ++ mid ++ [cleanup] /\
    servo_quiet port mid /\
    (snd run = snd body \/
     exists e, snd run = Raise e /\
       tool (fst body) (ncalls (fst body)) "dut-control"
            (release_args preserved_dut_hub_sel ++ port_args port) = Raise e) /\
    let settings := reset_args preserved_dut_hub_sel ++
                    dut_control_args (mid ++ [cleanup]) in
    last_setting "fw_up" settings = Some "off" /\
    last_setting "pwr_button" settings = Some "release" /\
    last_setting "warm_reset" settings = Some "off" /\
    last_setting "cold_reset" settings = Some "off" /\
    last_setting "dut_hub_sel" settings =
      (if String.eqb preserved_dut_hub_sel required_dut_hub_sel then None
       else Some preserved_dut_hub_sel).
Proof.
  intros Hp run body cleanup.
  destruct (grows_download_stages port vendor_id product_id download_list 0 w Hp)
    as (mid & Ht & Hs & Hq).
  fold body in Ht, Hs.
  exists mid. split; [assumption|].
  assert (Hrun : run = (after_run (fst body) "dut-control"
                          (release_args preserved_dut_hub_sel ++ port_args port) false,
                        match tool (fst body) (ncalls (fst body)) "dut-control"
                                (release_args preserved_dut_hub_sel ++ port_args port) with
                        | Ok _ => snd body
                        | Raise e => Raise e
                        end)).
  { unfold run, transfer, try_finally. fold body. destruct body as [w1 r]. cbn [fst snd] in *.
    unfold release_servo, mbind, M_bind.
    assert (Hp1 : _servo_port (self w1) = Some port) by congruence.
    assert (Hargs : (let args := ["fw_up:off"; "pwr_button:release"] in
                     if negb (String.eqb preserved_dut_hub_sel required_dut_hub_sel)
                     then args ++ ["dut_hub_sel:" +:+ preserved_dut_hub_sel] else args)
                    = release_args preserved_dut_hub_sel).
    { unfold release_args. cbv zeta.
      destruct (String.eqb preserved_dut_hub_sel required_dut_hub_sel); reflexivity. }
    cbv zeta in Hargs. cbv zeta. rewrite Hargs.
    rewrite (DutControl_run port _ _ Hp1).
    destruct (tool w1 (ncalls w1) "dut-control" _); reflexivity. }
  split; [rewrite Hrun; cbn [fst after_run trace]; rewrite Ht, app_assoc; reflexivity|].
  split; [assumption|].
  split.
  { rewrite Hrun. cbn [snd].
    destruct (tool (fst body) (ncalls (fst body)) "dut-control" _) as [out|e];
      [left; reflexivity | right; exists e; split; reflexivity]. }
  cbv zeta. rewrite dut_control_args_app.
  change (dut_control_args [cleanup])
    with ((release_args preserved_dut_hub_sel ++ port_args port) ++ []).
  rewrite app_nil_r.
  rewrite !last_setting_fold, !fold_left_app.
  rewrite !(keep_silent _ (port_args port))
    by (apply port_args_silent; unfold is_line; tauto).
  rewrite (keep_silent "warm_reset" (dut_control_args mid))
    by (apply (quiet_silent _ port); tauto).
  rewrite (keep_silent "cold_reset" (dut_control_args mid))
    by (apply (quiet_silent _ port); tauto).
  rewrite (keep_silent "dut_hub_sel" (dut_control_args mid))
    by (apply (quiet_silent _ port); tauto).
  unfold release_args, reset_args.
  destruct (String.eqb preserved_dut_hub_sel required_dut_hub_sel); cbn [negb];
    repeat split; reflexivity.
Qed.

Lemma UpdateChecksum_detects_corruption_witness :
  exists B',
    _UpdateChecksum (bytes_of "abcdefgh") = Ok B' /\
    drop 4 (<[1%nat := "x"%byte]> B') <>
      le_bytes (byte_sum (take 4 (<[1%nat := "x"%byte]> B')) mod 2 ^ 32).
Proof.
  destruct (UpdateChecksum_detects_corruption (bytes_of "abcdefgh"))
    as (B' & Hrun & _ & _ & _ & Hdetect).
  - cbn. lia.
  - exists B'. split; [exact Hrun|].
    destruct (Hdetect 1%nat "x"%byte "b"%byte) as (_ & Hne & _).
    + cbn. lia.
    + reflexivity.
    + discriminate.
    + exact Hne.
Defined.

Lemma transfer_always_releases_witness :
  let w := servo_world 9999 in
  let items := [("bl1", 0x02021400, "bl1.bin"); ("bl2", 0x02023400, "bl2.bin");
                ("u-boot", 0x43e00000, "u-boot.bin")] in
  exists mid,
    trace (fst (transfer 0x04e8 0x1234 items "servo_sees_usbkey" w)) =
      trace w ++ mid ++
      [EvRun "dut-control"
         (release_args "servo_sees_usbkey" ++ port_args 9999) false].
Proof.
  intros w items.
  destruct (transfer_always_releases 0x04e8 0x1234 items "servo_sees_usbkey" 9999 w)
    as (mid & _ & Htrace & _).
  - reflexivity.
  - exists mid. exact Htrace.
Defined.

(** * Alignment and checksum: further properties *)

Lemma RoundUp_eq (value k : Z) :
  0 <= k -> RoundUp value (2 ^ k) = 2 ^ k * ((value + 2 ^ k - 1) / 2 ^ k).
Proof.
  intros Hk. unfold RoundUp.
  replace (2 ^ k - 1) with (Z.ones k) by (rewrite Z.ones_equiv; lia).
  apply land_lnot_ones. exact Hk.
Qed.

(** X1.  [RoundUp] with a power-of-two boundary returns the least multiple
    of the boundary that is not below the value, for every integer value,
    negative ones included. *)
Theorem RoundUp_least_multiple (value k : Z) :
  0 <= k ->
  let boundary := 2 ^ k in
  let r := RoundUp value boundary in
  r mod boundary = 0 /\
  value <= r < value + boundary /\
  (forall m, m mod boundary = 0 -> value <= m -> r <= m).
Proof.
  intros Hk boundary r.
  assert (Hb : 0 < boundary) by (apply Z.pow_pos_nonneg; lia).
  assert (Hr : r = boundary * ((value + boundary - 1) / boundary))
    by (apply RoundUp_eq; exact Hk).
  pose proof (Z.div_mod (value + boundary - 1) boundary ltac:(lia)) as Hdm.
  pose proof (Z.mod_pos_bound (value + boundary - 1) boundary Hb) as Hmb.
  split; [|split].
  - rewrite Hr, Z.mul_comm. apply Z.mod_mul. lia.
  - lia.
  - intros m Hm Hle.
    apply Z.mod_divide in Hm; [|lia]. destruct Hm as [q Hq].
    assert (Hlt : (value + boundary - 1) / boundary <= q); [|nia].
    apply Z.lt_succ_r. apply Z.div_lt_upper_bound; [lia|]. nia.
Qed.

Lemma RoundUp_least_multiple_witness :
  RoundUp 5000 (2 ^ 12) mod 2 ^ 12 = 0 /\
  5000 <= RoundUp 5000 (2 ^ 12) < 5000 + 2 ^ 12.
Proof.
  pose proof (RoundUp_least_multiple 5000 12 ltac:(lia)) as H.
  cbv zeta in H. destruct H as (H1 & H2 & _). split; assumption.
Defined.

(** X2.  With a power-of-two boundary, [RoundUp] leaves a value as it is
    exactly when the value is a multiple of the boundary; rounding twice is
    rounding once. *)
Theorem RoundUp_fixed_points (value k : Z) :
  0 <= k ->
  (RoundUp value (2 ^ k) = value <-> value mod 2 ^ k = 0) /\
  RoundUp (RoundUp value (2 ^ k)) (2 ^ k) = RoundUp value (2 ^ k).
Proof.
  intros Hk.
  assert (Hb : 0 < 2 ^ k) by (apply Z.pow_pos_nonneg; lia).
  assert (Hfix : forall v, v mod 2 ^ k = 0 -> RoundUp v (2 ^ k) = v).
  { intros v Hv. rewrite RoundUp_eq by exact Hk.
    apply Z.mod_divide in Hv; [|lia]. destruct Hv as [q Hq]. subst v.
    replace (q * 2 ^ k + 2 ^ k - 1) with ((2 ^ k - 1) + q * 2 ^ k) by lia.
    rewrite Z.div_add by lia. rewrite Z.div_small by lia. lia. }
  assert (Hmul : forall v, RoundUp v (2 ^ k) mod 2 ^ k = 0).
  { intros v. rewrite RoundUp_eq by exact Hk. rewrite Z.mul_comm.
    apply Z.mod_mul. lia. }
  split; [split|].
  - intros H. rewrite <- H. apply Hmul.
  - apply Hfix.
  - apply Hfix. apply Hmul.
Qed.

Lemma RoundUp_fixed_points_witness :
  RoundUp 8192 (2 ^ 12) = 8192 /\
  RoundUp (RoundUp 5000 (2 ^ 12)) (2 ^ 12) = RoundUp 5000 (2 ^ 12).
Proof.
  split.
  - apply (proj1 (RoundUp_fixed_points 8192 12 ltac:(lia))). reflexivity.
  - apply (proj2 (RoundUp_fixed_points 5000 12 ltac:(lia))).
Defined.

Lemma slice_to_neg4_short (data : bytes) :
  (length data <= 4)%nat -> slice_to data (-4) = [].
Proof.
  intros H. unfold slice_to, slice, slice_bound.
  change (0 <? 0) with false. change (-4 <? 0) with true. cbv iota.
  replace (Z.to_nat _) with 0%nat by lia. reflexivity.
Qed.

Lemma UpdateChecksum_short (data : bytes) :
  (length data <= 4)%nat -> _UpdateChecksum data = Ok [x00; x00; x00; x00].
Proof.
  intros H. unfold _UpdateChecksum. rewrite slice_to_neg4_short by exact H.
  reflexivity.
Qed.

(** X3.  [_UpdateChecksum] never raises: the sum is masked to 32 bits before
    it is packed.  Its result keeps every byte but the last four and has the
    length of the input, or four bytes when the input is shorter. *)
Theorem UpdateChecksum_total (data : bytes) :
  exists out,
    _UpdateChecksum data = Ok out /\
    len out = Z.max 4 (len data) /\
    take (length data - 4) out = take (length data - 4) data.
Proof.
  destruct (le_lt_dec 4 (length data)) as [Hlong | Hshort].
  - eexists. split; [apply UpdateChecksum_eq; exact Hlong|]. split.
    + unfold len. rewrite length_app, length_take, length_le_bytes. lia.
    + rewrite take_app_length' by (rewrite length_take; lia).
      reflexivity.
  - exists [x00; x00; x00; x00]. split; [apply UpdateChecksum_short; lia|]. split.
    + unfold len. cbn [length]. lia.
    + replace (length data - 4)%nat with 0%nat by lia. reflexivity.
Qed.

(** X4.  [_UpdateChecksum] is idempotent: applied to its own result it
    returns that result, whatever the input. *)
Theorem UpdateChecksum_idempotent (data : bytes) :
  _UpdateChecksum data ≫= _UpdateChecksum = _UpdateChecksum data.
Proof.
  destruct (le_lt_dec 4 (length data)) as [Hlong | Hshort].
  - rewrite (UpdateChecksum_eq data Hlong).
    unfold mbind, result_bind.
    set (pre := take (length data - 4) data).
    assert (Hpre : length pre = (length data - 4)%nat)
      by (unfold pre; rewrite length_take; lia).
    rewrite UpdateChecksum_eq by (rewrite length_app, length_le_bytes; lia).
    rewrite length_app, length_le_bytes.
    replace (length pre + 4 - 4)%nat with (length pre) by lia.
    rewrite take_app_length. reflexivity.
  - rewrite (UpdateChecksum_short data) by lia. reflexivity.
Qed.

(** X5.  An input of four bytes or fewer is replaced by four zero bytes:
    [data[:-4]] is empty, so the sum is 0 and none of the input survives. *)
Theorem UpdateChecksum_short_input (data : bytes) :
  len data <= 4 -> _UpdateChecksum data = Ok (le_bytes 0).
Proof.
  intros H. rewrite UpdateChecksum_short by (unfold len in H; lia). reflexivity.
Qed.

Lemma UpdateChecksum_short_input_witness :
  _UpdateChecksum (bytes_of "abc") = Ok (le_bytes 0).
Proof.
  apply (UpdateChecksum_short_input (bytes_of "abc")). vm_compute. discriminate.
Defined.

(** * The parameter block: what a successful update changes *)

Lemma le_bytes_le_value (word : bytes) :
  length word = 4%nat -> le_bytes (le_value word) = word.
Proof.
  intros H. destruct word as [|a [|b [|c [|d [|]]]]]; try discriminate.
  unfold le_bytes. cbn [le_value].
  assert (Hm : forall x y, (ord x + 256 * y) mod 256 = ord x).
  { intros x y. pose proof (ord_range x).
    replace (ord x + 256 * y) with (ord x + y * 256) by lia.
    rewrite Z.mod_add by lia. apply Z.mod_small. lia. }
  assert (Hd : forall x y, (ord x + 256 * y) / 256 = y).
  { intros x y. pose proof (ord_range x).
    replace (ord x + 256 * y) with (ord x + y * 256) by lia.
    rewrite Z.div_add by lia. rewrite Z.div_small by lia. lia. }
  assert (Hc : forall x v, v mod 256 = ord x -> chr v = x).
  { intros x v Hx. apply ord_inj. rewrite ord_chr. exact Hx. }
  change 65536 with (256 * 256). change 16777216 with (256 * 256 * 256).
  rewrite <- !Z.div_div by lia. rewrite !Hd.
  f_equal; [|f_equal; [|f_equal; [|f_equal]]]; apply Hc; apply Hm.
Qed.

Lemma unpack_L_Ok (word : bytes) (v : Z) :
  unpack_L word = Ok v -> length word = 4%nat /\ v = le_value word.
Proof.
  unfold unpack_L. destruct (decide (length word = 4%nat)); [|discriminate].
  intros H. inversion H. split; [assumption | reflexivity].
Qed.

(** what the loop over the codes produces: four bytes per code, each the
    packed value of that code, read from slots that lie within the data *)
Lemma update_params_slots (spl_source : string) (fdt : Fdt) (spl_load_size : Z)
    (param_list : bytes) :
  forall (data : bytes) (pos upto : Z) (new_data out : bytes),
    0 <= pos + upto ->
    snd (update_params spl_source fdt spl_load_size data pos param_list upto new_data)
      = Ok out ->
    exists tail,
      out = new_data ++ tail /\
      length tail = (4 * length param_list)%nat /\
      (param_list = [] \/ pos + upto + 4 * len param_list <= len data) /\
      forall (k : nat) (param : byte),
        param_list !! k = Some param ->
        exists v,
          snd (param_value spl_source fdt spl_load_size param
                 (le_value (slot data (pos + upto) k))) = Ok v /\
          0 <= v < 2 ^ 32 /\
          length (slot data (pos + upto) k) = 4%nat /\
          take 4 (drop (4 * k) tail) = le_bytes v.
Proof.
  induction param_list as [|param rest IH]; intros data pos upto new_data out Hnn H.
  - cbn in H. inversion H; subst. exists []. rewrite app_nil_r.
    split; [reflexivity|]. split; [reflexivity|]. split; [left; reflexivity|].
    intros k p Hk. rewrite lookup_nil in Hk. discriminate.
  - cbn [update_params] in H. rewrite !snd_Logged_bind in H.
    apply result_bind_Ok in H as [v0 [Hread H]]. rewrite snd_quiet in Hread.
    rewrite snd_Logged_bind in H.
    apply result_bind_Ok in H as [v [Hval H]].
    rewrite snd_Logged_bind in H.
    apply result_bind_Ok in H as [packed [Hpack H]]. rewrite snd_quiet in Hpack.
    apply IH in H as [tail [-> [Hlen [Hin Hslots]]]]; [|lia].
    pose proof (pack_L_Ok _ _ Hpack) as [Hp Hrange].
    assert (Hpl : length packed = 4%nat) by (subst packed; reflexivity).
    pose proof (unpack_L_slice_Ok _ _ _ Hnn Hread) as Hfit.
    pose proof (unpack_L_Ok _ _ Hread) as [Hw4 Hv0].
    exists (packed ++ tail).
    split; [rewrite app_assoc; reflexivity|].
    split; [rewrite length_app, Hlen, Hpl; cbn [length]; lia|].
    split.
    { right. unfold len in *. cbn [length].
      destruct Hin as [-> | Hin]; [cbn [length]; lia | lia]. }
    intros k p Hk. destruct k as [|k].
    + cbn in Hk. inversion Hk; subst p. exists v.
      unfold slot. rewrite Z.mul_0_r, Z.add_0_r. rewrite <- Hv0.
      split; [exact Hval|]. split; [exact Hrange|]. split; [exact Hw4|].
      change (4 * 0)%nat with 0%nat. rewrite drop_0.
      rewrite take_app_length' by done. exact Hp.
    + cbn in Hk. destruct (Hslots k p Hk) as (v' & Hv' & Hr' & Hl' & Ht').
      exists v'.
      assert (Hs : slot data (pos + upto) (S k) = slot data (pos + (upto + 4)) k).
      { unfold slot. f_equal; lia. }
      rewrite Hs. split; [exact Hv'|]. split; [exact Hr'|]. split; [exact Hl'|].
      replace (4 * S k)%nat with (length packed + 4 * k)%nat by lia.
      rewrite drop_app_add'; [exact Ht' | reflexivity].
Qed.

Lemma slice_to_from (data : bytes) (s : Z) :
  0 <= s -> slice_to data s ++ slice_from data s = data.
Proof.
  intros Hs. destruct (Z_le_gt_dec s (len data)) as [Hle | Hgt].
  - rewrite slice_to_in_range, slice_from_in_range by lia. apply take_drop.
  - unfold slice_to, slice_from, slice, slice_bound, len in *.
    replace (s <? 0) with false by lia. change (0 <? 0) with false.
    replace (Z.of_nat (length data) <? 0) with false by lia.
    replace (Z.to_nat (Z.max 0 (Z.min (Z.of_nat (length data)) s) -
                       Z.max 0 (Z.min (Z.of_nat (length data)) 0)))
      with (length data) by lia.
    replace (Z.to_nat (Z.max 0 (Z.min (Z.of_nat (length data)) 0))) with 0%nat by lia.
    replace (Z.to_nat (Z.max 0 (Z.min (Z.of_nat (length data)) s))) with (length data)
      by lia.
    rewrite drop_0, drop_all, take_ge by lia.
    rewrite take_nil. apply app_nil_r.
Qed.

Lemma param_slots_nonneg (data : bytes) (pos : Z) : -12 <= pos -> 0 <= param_slots data pos.
Proof.
  intros Hpos. unfold param_slots.
  assert (0 <= Z.land (py_find [x00] (slice_from data (pos + 12)) + 4) (Z.lnot 3)); [|lia].
  change 3 with (Z.ones 2). rewrite land_lnot_ones by lia.
  pose proof (find_at_bounds [x00] (slice_from data (pos + 12)) 0) as Hb.
  fold (py_find [x00] (slice_from data (pos + 12))) in Hb.
  apply Z.mul_nonneg_nonneg; [lia|]. apply Z.div_pos; lia.
Qed.

(** a successful update is the input with the slots of its codes replaced *)
Lemma UpdateBl2Parameters_shape (spl_source : string) (fdt : Fdt) (spl_load_size : Z)
    (data : bytes) (pos : Z) (out : bytes) :
  -12 <= pos ->
  snd (_UpdateBl2Parameters spl_source fdt spl_load_size data pos) = Ok out ->
  let codes := param_codes data pos in
  let slots := param_slots data pos in
  0 <= slots /\
  (codes = [] /\ out = data \/
   exists tail,
     slots + 4 * len codes <= len data /\
     length tail = (4 * length codes)%nat /\
     out = take (Z.to_nat slots) data ++ tail ++
           drop (Z.to_nat (slots + 4 * len codes)) data) /\
  forall (k : nat) (param : byte),
    codes !! k = Some param ->
    exists v,
      snd (param_value spl_source fdt spl_load_size param
             (le_value (slot data slots k))) = Ok v /\
      0 <= v < 2 ^ 32 /\
      length (slot data slots k) = 4%nat /\
      slot out slots k = le_bytes v.
Proof.
  intros Hpos H codes slots.
  pose proof (param_slots_nonneg data pos Hpos) as Hnn. fold slots in Hnn.
  apply UpdateBl2Parameters_Ok_iff in H as (size & nd & _ & _ & _ & Hu & Hout).
  cbv zeta in Hu, Hout. fold (param_codes data pos) in Hu. fold codes in Hu.
  fold (param_slots data pos) in Hu, Hout. fold slots in Hu, Hout.
  apply update_params_slots in Hu as (tail & Hnd & Hlen & Hin & Hslots); [|lia].
  cbn [app] in Hnd. subst nd. rewrite Z.add_0_r in Hin.
  assert (Hlt : len tail = 4 * len codes) by (unfold len; lia).
  rewrite Hlt in Hout.
  split; [exact Hnn|].
  destruct Hin as [Hnil | Hin].
  - split.
    + left. split; [exact Hnil|].
      rewrite Hnil in Hlen, Hout. destruct tail; [|discriminate].
      cbn [app] in Hout. change (len []) with 0 in Hout.
      rewrite Z.mul_0_r, Z.add_0_r in Hout. rewrite Hout. apply slice_to_from. exact Hnn.
    + intros k p Hk. rewrite Hnil, lookup_nil in Hk. discriminate.
  - assert (Hl0 : 0 <= len codes) by (unfold len; lia).
    rewrite slice_to_in_range, slice_from_in_range in Hout by lia.
    split.
    + right. exists tail. repeat split; assumption.
    + intros k p Hk. destruct (Hslots k p Hk) as (v & Hv & Hr & Hl & Ht).
      rewrite Z.add_0_r in Hv, Hl. exists v.
      split; [exact Hv|]. split; [exact Hr|]. split; [exact Hl|].
      apply lookup_lt_Some in Hk.
      unfold slot. rewrite slice_in_range.
      * rewrite Hout.
        replace (Z.to_nat (slots + 4 * Z.of_nat k))
          with (length (take (Z.to_nat slots) data) + 4 * k)%nat
          by (rewrite length_take; unfold len in *; lia).
        rewrite drop_app_add' by reflexivity.
        replace (Z.to_nat (slots + 4 * Z.of_nat k + 4 - (slots + 4 * Z.of_nat k)))
          with 4%nat by lia.
        rewrite drop_app_le by lia.
        rewrite take_app_le by (rewrite length_drop; lia). exact Ht.
      * lia.
      * rewrite Hout. unfold len in *.
        rewrite !length_app, length_take, length_drop. lia.
Qed.

(** outside the slots a successful update changes nothing *)
Lemma UpdateBl2Parameters_outside (spl_source : string) (fdt : Fdt) (spl_load_size : Z)
    (data : bytes) (pos : Z) (out : bytes) :
  -1 <= pos ->
  snd (_UpdateBl2Parameters spl_source fdt spl_load_size data pos) = Ok out ->
  let slots := param_slots data pos in
  let n := len (param_codes data pos) in
  len out = len data /\
  forall i : nat,
    Z.of_nat i < slots \/ slots + 4 * n <= Z.of_nat i -> out !! i = data !! i.
Proof.
  intros Hpos H slots n.
  destruct (UpdateBl2Parameters_shape spl_source fdt spl_load_size data pos out ltac:(lia) H) as (Hnn & Hshape & _).
  fold slots in Hnn, Hshape.
  destruct Hshape as [[_ ->] | (tail & Hin & Hlen & ->)].
  - split; [reflexivity | intros; reflexivity].
  - fold n in Hin. assert (Hn : 0 <= n) by (unfold n, len; lia).
    assert (Hn' : length tail = Z.to_nat (4 * n)) by (unfold n, len; lia).
    unfold len in *. split.
    + rewrite !length_app, length_take, length_drop. lia.
    + intros i [Hi | Hi].
      * rewrite lookup_app_l by (rewrite length_take; lia).
        apply lookup_take_lt. lia.
      * rewrite lookup_app_r by (rewrite length_take; lia).
        rewrite lookup_app_r by (rewrite length_take; lia).
        rewrite lookup_drop. f_equal. rewrite length_take. lia.
Qed.

(** X6.  A successful [_UpdateBl2Parameters] keeps the length of the binary
    and changes nothing outside the value slots of its codes: what comes
    before the first slot (marker, header and code list included) and what
    comes after the last slot are those of the input. *)
Theorem UpdateBl2Parameters_frame (spl_source : string) (fdt : Fdt) (spl_load_size : Z)
    (data : bytes) (pos : Z) (out : bytes) :
  -1 <= pos ->
  snd (_UpdateBl2Parameters spl_source fdt spl_load_size data pos) = Ok out ->
  let slots := param_slots data pos in
  let n := len (param_codes data pos) in
  len out = len data /\
  slice_to out slots = slice_to data slots /\
  slice_from out (slots + 4 * n) = slice_from data (slots + 4 * n).
Proof.
  intros Hpos H slots n.
  destruct (UpdateBl2Parameters_shape spl_source fdt spl_load_size data pos out
              ltac:(lia) H) as (Hnn & Hshape & _).
  fold slots in Hnn, Hshape.
  destruct Hshape as [[_ ->] | (tail & Hin & Hlen & ->)]; [auto|].
  fold n in Hin. fold n. assert (Hn : 0 <= n) by (unfold n, len; lia).
  assert (Hn' : length tail = Z.to_nat (4 * n)) by (unfold n, len; lia).
  remember (take (Z.to_nat slots) data) as pre eqn:Epre.
  remember (drop (Z.to_nat (slots + 4 * n)) data) as post eqn:Epost.
  assert (Hpre : length pre = Z.to_nat slots)
    by (subst pre; unfold len in *; rewrite length_take; lia).
  assert (Hpost : length post = (length data - Z.to_nat (slots + 4 * n))%nat)
    by (subst post; apply length_drop).
  assert (Hout : len (pre ++ tail ++ post) = len data)
    by (unfold len in *; rewrite !length_app; lia).
  split; [exact Hout|]. unfold len in *. split.
  - rewrite !slice_to_in_range by (unfold len; lia).
    rewrite take_app_length' by lia. exact Epre.
  - rewrite !slice_from_in_range by (unfold len; lia).
    rewrite app_assoc, drop_app_length' by (rewrite length_app; lia). exact Epost.
Qed.

Lemma UpdateBl2Parameters_frame_witness :
  let data := bl2_example "vu" [x00; x00] (zeros 8) (bytes_of "tail") in
  exists out,
    snd (_UpdateBl2Parameters "straps" (board_fdt "ddr3" "samsung" 800000000)
           0x5001 data 1) = Ok out /\
    len out = len data /\
    slice_from out (param_slots data 1 + 8) = bytes_of "tail" ++ le_bytes 0.
Proof.
  eexists. split; [vm_compute; reflexivity|].
  pose proof (UpdateBl2Parameters_frame "straps"
                (board_fdt "ddr3" "samsung" 800000000) 0x5001
                (bl2_example "vu" [x00; x00] (zeros 8) (bytes_of "tail")) 1 _
                ltac:(lia) ltac:(vm_compute; reflexivity)) as (Hl & _ & Hpost).
  split; [exact Hl|]. cbv zeta in Hpost.
  change (4 * len (param_codes (bl2_example "vu" [x00; x00] (zeros 8) (bytes_of "tail")) 1))
    with 8 in Hpost.
  rewrite Hpost. vm_compute. reflexivity.
Defined.

(** X7.  After a successful [_UpdateBl2Parameters], the slot of the [k]-th
    code holds, as a little-endian word, the value the branch of that code
    computes from the word the slot held before; the value fits 32 bits. *)
Theorem UpdateBl2Parameters_slot_values (spl_source : string) (fdt : Fdt)
    (spl_load_size : Z) (data : bytes) (pos : Z) (out : bytes) (k : nat) (param : byte) :
  -1 <= pos ->
  snd (_UpdateBl2Parameters spl_source fdt spl_load_size data pos) = Ok out ->
  param_codes data pos !! k = Some param ->
  let slots := param_slots data pos in
  exists v,
    snd (param_value spl_source fdt spl_load_size param
           (le_value (slot data slots k))) = Ok v /\
    0 <= v < 2 ^ 32 /\
    slot out slots k = le_bytes v /\
    (param = "v"%byte -> v = 31) /\
    (param = "u"%byte -> v = RoundUp spl_load_size 4096) /\
    (param = "f"%byte ->
       exists hz, GetInt fdt "/dmc" "clock-frequency" None = Ok hz /\ v = hz / 1000000).
Proof.
  intros Hpos H Hk slots.
  destruct (UpdateBl2Parameters_shape spl_source fdt spl_load_size data pos out ltac:(lia) H) as (_ & _ & Hslots).
  destruct (Hslots k param Hk) as (v & Hv & Hr & Hl & Hs). fold slots in Hv, Hl, Hs.
  exists v. split; [exact Hv|]. split; [exact Hr|]. split; [exact Hs|].
  split; [|split]; intros ->.
  - unfold param_value in Hv. cbn in Hv. congruence.
  - unfold param_value in Hv. cbn in Hv. unfold RoundUp. inversion Hv.
    replace (spl_load_size + 4096 - 1) with (spl_load_size + 4095) by lia.
    reflexivity.
  - assert (Hf : forall value,
              snd (param_value spl_source fdt spl_load_size "f" value) =
              hz ← GetInt fdt "/dmc" "clock-frequency" None; Ok (hz / 1000000)).
    { intros value. unfold param_value.
      change (Byte.eqb "f" "m") with false. change (Byte.eqb "f" "M") with false.
      change (Byte.eqb "f" "f") with true. cbv iota.
      rewrite snd_Logged_bind, snd_quiet.
      destruct (GetInt fdt "/dmc" "clock-frequency" None) as [hz|e]; [|reflexivity].
      cbn [mbind result_bind]. rewrite !snd_Logged_bind.
      destruct ((hz / 1000000 =? 533) || (hz / 1000000 =? 667) || (hz / 1000000 =? 800));
        reflexivity. }
    rewrite Hf in Hv. apply result_bind_Ok in Hv as [hz [Hhz Hv]].
    exists hz. split; [exact Hhz | congruence].
Qed.

Lemma UpdateBl2Parameters_slot_values_witness :
  let data := bl2_example "vu" [x00; x00] (zeros 8) (bytes_of "tail") in
  exists out,
    snd (_UpdateBl2Parameters "straps" (board_fdt "ddr3" "samsung" 800000000)
           0x5001 data 1) = Ok out /\
    slot out (param_slots data 1) 1 = le_bytes 0x6000.
Proof.
  eexists. split; [vm_compute; reflexivity|].
  destruct (UpdateBl2Parameters_slot_values "straps"
              (board_fdt "ddr3" "samsung" 800000000) 0x5001
              (bl2_example "vu" [x00; x00] (zeros 8) (bytes_of "tail")) 1 _ 1%nat "u"%byte
              ltac:(lia) ltac:(vm_compute; reflexivity) ltac:(vm_compute; reflexivity))
    as (v & _ & _ & Hs & _ & Hu & _).
  rewrite Hs, (Hu eq_refl). reflexivity.
Defined.

(** X8.  A code that is none of m, M, f, v, u, b leaves its slot as it
    was: the word is read, reported as unknown, and written back. *)
Theorem UpdateBl2Parameters_unknown_code (spl_source : string) (fdt : Fdt)
    (spl_load_size : Z) (data : bytes) (pos : Z) (out : bytes) (k : nat) (param : byte) :
  -1 <= pos ->
  snd (_UpdateBl2Parameters spl_source fdt spl_load_size data pos) = Ok out ->
  param_codes data pos !! k = Some param ->
  known_code param = false ->
  let slots := param_slots data pos in
  slot out slots k = slot data slots k /\
  fst (param_value spl_source fdt spl_load_size param (le_value (slot data slots k))) =
    [(LvWarning, "Unknown machine parameter type '" +:+ char_str param +:+ "'");
     (LvInfo, "  Unknown value: " +:+ fmt_alt_x (le_value (slot data slots k)))].
Proof.
  intros Hpos H Hk Hunknown slots.
  destruct (UpdateBl2Parameters_shape spl_source fdt spl_load_size data pos out ltac:(lia) H) as (_ & _ & Hslots).
  destruct (Hslots k param Hk) as (v & Hv & Hr & Hl & Hs). fold slots in Hv, Hl, Hs.
  unfold known_code in Hunknown.
  repeat (apply orb_false_elim in Hunknown as [Hunknown ?]).
  unfold param_value in *.
  repeat match goal with
         | E : Byte.eqb param ?c = false |- _ => rewrite E in *; clear E
         end.
  split.
  - cbn in Hv. inversion Hv; subst v. rewrite Hs. apply le_bytes_le_value. exact Hl.
  - reflexivity.
Qed.

Lemma UpdateBl2Parameters_unknown_code_witness :
  let data := bl2_example "zv" [x00; x00] (bytes_of "abcd" ++ zeros 4) [] in
  exists out,
    snd (_UpdateBl2Parameters "straps" (board_fdt "ddr3" "samsung" 800000000)
           0x5001 data 1) = Ok out /\
    slot out (param_slots data 1) 0 = bytes_of "abcd".
Proof.
  eexists. split; [vm_compute; reflexivity|].
  destruct (UpdateBl2Parameters_unknown_code "straps"
              (board_fdt "ddr3" "samsung" 800000000) 0x5001
              (bl2_example "zv" [x00; x00] (bytes_of "abcd" ++ zeros 4) []) 1 _ 0%nat
              "z"%byte
              ltac:(lia) ltac:(vm_compute; reflexivity) ltac:(vm_compute; reflexivity)
              ltac:(reflexivity)) as [Hs _].
  rewrite Hs. vm_compute. reflexivity.
Defined.

(** * The configured BL2 file *)

Lemma length_slice_le (data : bytes) (lo hi : Z) :
  (length (slice data lo hi) <= length data)%nat.
Proof.
  unfold slice. rewrite length_take, length_drop. lia.
Qed.

Lemma UpdateBl2Parameters_min_length (spl_source : string) (fdt : Fdt)
    (spl_load_size : Z) (data : bytes) (pos : Z) (out : bytes) :
  snd (_UpdateBl2Parameters spl_source fdt spl_load_size data pos) = Ok out ->
  (8 <= length data)%nat.
Proof.
  intros H. apply UpdateBl2Parameters_Ok_iff in H as (size & nd & Hh & _).
  apply unpack_2L_length in Hh.
  pose proof (length_slice_le data (pos + 4) (pos + 12)). lia.
Qed.

(** X9.  When [ConfigureExynosBl2] succeeds, the file it names holds a
    binary of the length of the original whose last four bytes are the
    checksum of the bytes before them, and which differs from the original
    only in the value slots of the parameter block and in those last four
    bytes. *)
Theorem ConfigureExynosBl2_output (spl_source : string) (fdt : Fdt)
    (spl_load_size : Z) (orig_bl2 name : string) (w w1 : world)
    (d0 : bytes) (out : string) :
  files w !! orig_bl2 = Some d0 ->
  ConfigureExynosBl2 spl_source fdt spl_load_size orig_bl2 name w = (w1, Ok out) ->
  let pos := py_rfind (le_bytes MARKER) d0 in
  let slots := param_slots d0 pos in
  let n := len (param_codes d0 pos) in
  out = bl2_name w name /\
  exists d1,
    files w1 !! out = Some d1 /\
    len d1 = len d0 /\
    drop (length d1 - 4) d1 = le_bytes (byte_sum (take (length d1 - 4) d1) mod 2 ^ 32) /\
    forall i : nat,
      Z.of_nat i < slots \/ slots + 4 * n <= Z.of_nat i ->
      Z.of_nat i < len d0 - 4 ->
      d1 !! i = d0 !! i.
Proof.
  intros Hfile Hrun pos slots n.
  rewrite (ConfigureExynosBl2_run _ _ _ _ _ _ _ Hfile) in Hrun. cbv zeta in Hrun.
  fold pos in Hrun.
  destruct (pos =? 0) eqn:Epos; [inversion Hrun|].
  destruct (snd (_UpdateBl2Parameters spl_source fdt spl_load_size d0 pos))
    as [p|e] eqn:Ep; [|inversion Hrun].
  pose proof (py_rfind_bounds (le_bytes MARKER) d0) as Hpos. fold pos in Hpos.
  destruct (UpdateBl2Parameters_outside _ _ _ _ _ _ Hpos Ep) as [Hlen Hsame].
  pose proof (UpdateBl2Parameters_min_length _ _ _ _ _ _ Ep) as Hmin.
  assert (Hp4 : (4 <= length p)%nat) by (unfold len in Hlen; lia).
  rewrite (UpdateChecksum_eq p Hp4) in Hrun.
  inversion Hrun; subst w1 out. clear Hrun.
  split; [reflexivity|].
  eexists. split; [cbn [with_file files]; apply lookup_insert_eq|].
  set (pre := take (length p - 4) p).
  assert (Hpre : length pre = (length p - 4)%nat)
    by (unfold pre; rewrite length_take; lia).
  assert (Hd1 : length (pre ++ le_bytes (byte_sum pre mod 2 ^ 32)) = length p)
    by (rewrite length_app, length_le_bytes; lia).
  split; [unfold len in *; lia|]. split.
  - rewrite Hd1, <- Hpre, drop_app_length, take_app_length. reflexivity.
  - intros i Hi Hlast. unfold len in *.
    rewrite lookup_app_l by lia. unfold pre.
    rewrite lookup_take_lt by lia. apply Hsame. exact Hi.
Qed.

Lemma ConfigureExynosBl2_output_witness :
  let fdt := board_fdt "ddr3" "samsung" 800000000 in
  let d0 := bl2_example "mMfvub" [x00; x00] (zeros 24) [] in
  let w := idle_world {[ "bl2.bin" := d0 ]} fdt in
  let w1 := fst (ConfigureExynosBl2 "straps" fdt 0x5001 "bl2.bin" EmptyString w) in
  exists d1,
    files w1 !! "out/updated-spl.bin" = Some d1 /\
    len d1 = len d0 /\
    drop (length d1 - 4) d1 = le_bytes (byte_sum (take (length d1 - 4) d1) mod 2 ^ 32).
Proof.
  intros fdt d0 w w1.
  assert (Hfile : files w !! "bl2.bin" = Some d0) by apply lookup_singleton_eq.
  assert (Hok : snd (ConfigureExynosBl2 "straps" fdt 0x5001 "bl2.bin" EmptyString w)
                = Ok "out/updated-spl.bin") by (vm_compute; reflexivity).
  assert (Hrun : ConfigureExynosBl2 "straps" fdt 0x5001 "bl2.bin" EmptyString w
                 = (w1, Ok "out/updated-spl.bin"))
    by (unfold w1; rewrite <- Hok; apply surjective_pairing).
  destruct (ConfigureExynosBl2_output "straps" fdt 0x5001 "bl2.bin" EmptyString
              w w1 d0 "out/updated-spl.bin" Hfile Hrun) as (_ & d1 & Hf & Hl & Hc & _).
  exists d1. repeat split; assumption.
Defined.

(** X10.  [ConfigureExynosBl2] writes to one file only, the updated copy in
    the output directory: whatever the outcome, every other file, the
    original included when it has another name, is left as it was.  When
    the original cannot be read, nothing is written at all. *)
Theorem ConfigureExynosBl2_other_files (spl_source : string) (fdt : Fdt)
    (spl_load_size : Z) (orig_bl2 name : string) (w : world) :
  let run := ConfigureExynosBl2 spl_source fdt spl_load_size orig_bl2 name w in
  (forall f, f <> bl2_name w name -> files (fst run) !! f = files w !! f) /\
  (files w !! orig_bl2 = None ->
   files (fst run) = files w /\ exists msg, snd run = Raise (IOError msg)).
Proof.
  intros run. destruct (files w !! orig_bl2) as [d0|] eqn:Hfile.
  - split; [|discriminate]. intros f Hf. unfold run.
    rewrite (ConfigureExynosBl2_run _ _ _ _ _ _ _ Hfile). cbv zeta.
    assert (Hcopy : files (bl2_copied w name d0) !! f = files w !! f).
    { unfold bl2_copied, with_file, add_events. cbn [files].
      apply lookup_insert_ne. congruence. }
    destruct (_ =? 0); [exact Hcopy|].
    destruct (snd (_UpdateBl2Parameters _ _ _ _ _)) as [p|e]; [|exact Hcopy].
    destruct (_UpdateChecksum p) as [d|e]; [|exact Hcopy].
    unfold with_file, add_events. cbn [files fst].
    rewrite lookup_insert_ne by congruence. exact Hcopy.
  - assert (Hrun : run = (add_events w [EvOut LvInfo "Configuring BL2"],
                          Raise (IOError ("No such file or directory: '" +:+
                                          orig_bl2 +:+ "'")))).
    { unfold run, ConfigureExynosBl2, mbind, M_bind, out_Info, emit, get_world,
        ReadFile, add_events.
      cbn [files trace ncalls tool duration clock outdir stdout_is_tty self].
      rewrite Hfile. reflexivity. }
    rewrite Hrun. split; [intros; reflexivity|]. intros _.
    split; [reflexivity | eexists; reflexivity].
Qed.

Lemma ConfigureExynosBl2_other_files_witness :
  let fdt := board_fdt "ddr3" "samsung" 800000000 in
  let w := idle_world {[ "bl2.bin" := bad_version_bl2 ]} fdt in
  files (fst (ConfigureExynosBl2 "straps" fdt 0x5000 "bl2.bin" EmptyString w)) !! "bl2.bin"
    = files w !! "bl2.bin" /\
  files (fst (ConfigureExynosBl2 "straps" fdt 0x5000 "missing.bin" EmptyString w))
    = files w.
Proof.
  intros fdt w. split.
  - apply (proj1 (ConfigureExynosBl2_other_files "straps" fdt 0x5000 "bl2.bin"
                    EmptyString w)).
    vm_compute. discriminate.
  - apply (proj2 (ConfigureExynosBl2_other_files "straps" fdt 0x5000 "missing.bin"
                    EmptyString w)).
    vm_compute. reflexivity.
Defined.

(** * The scan of [DecodeTextBase] as one sequence of words *)

Lemma scan_window_app (data : bytes) (start : Z) (a b : list Z) :
  forall found,
    scan_window data start (a ++ b) found =
      match scan_window data start a found with
      | Ok (Scanned f) => scan_window data start b f
      | r => r
      end.
Proof.
  induction a as [|i a IH]; intros found; [reflexivity|].
  cbn [app scan_window].
  destruct (unpack_L (slice data i (i + 4))) as [v|e]; [|reflexivity].
  cbn [mbind result_bind]. destruct found; [reflexivity|]. apply IH.
Qed.

Lemma scan_window_miss (data : bytes) (start : Z) (idx : list Z) :
  Forall (fun i => 0 <= i /\ i + 4 <= len data /\ word_at data i <> SENTINEL) idx ->
  scan_window data start idx false = Ok (Scanned false).
Proof.
  induction 1 as [|i idx (Hi & Hfit & Hw) _ IH]; [reflexivity|].
  cbn [scan_window]. rewrite unpack_L_slice_in by assumption.
  cbn [mbind result_bind]. fold (word_at data i).
  apply Z.eqb_neq in Hw. rewrite Hw. exact IH.
Qed.

Lemma scan_window_hit (data : bytes) (start i : Z) :
  0 <= i -> i + 4 <= len data -> word_at data i = SENTINEL ->
  scan_window data start [i] false = Ok (Scanned true).
Proof.
  intros Hi Hfit Hw. cbn [scan_window]. rewrite unpack_L_slice_in by assumption.
  cbn [mbind result_bind]. fold (word_at data i). rewrite Hw. reflexivity.
Qed.

Lemma scan_window_next (data : bytes) (start i : Z) (rest : list Z) :
  0 <= i -> i + 4 <= len data ->
  scan_window data start (i :: rest) true = Ok (Returned (word_at data i - start)).
Proof.
  intros Hi Hfit. cbn [scan_window]. rewrite unpack_L_slice_in by assumption.
  reflexivity.
Qed.

Lemma length_W0 : length W0 = 40%nat.
Proof. reflexivity. Qed.

Lemma length_W1 : length W1 = 40%nat.
Proof. reflexivity. Qed.

Lemma scan_order_range (k : nat) (i : Z) :
  scan_order !! k = Some i -> 0 <= i /\ i + 4 <= 0x40a0.
Proof.
  intros H.
  assert (Hall : forallb (fun i => (0 <=? i) && (i + 4 <=? 0x40a0)) scan_order = true)
    by (vm_compute; reflexivity).
  rewrite forallb_forall in Hall. specialize (Hall i).
  rewrite andb_true_iff, !Z.leb_le in Hall. apply Hall.
  apply list_elem_of_In. apply (list_elem_of_lookup_2 _ k). exact H.
Qed.

Lemma scan_order_nonneg (k : nat) (i : Z) : scan_order !! k = Some i -> 0 <= i.
Proof. intros H. apply (scan_order_range k i H). Qed.

(** the scan of one window whose first sentinel is its [k]-th word *)
Lemma scan_window_first (data : bytes) (start : Z) (idx : list Z) (k : nat) (i : Z) :
  idx !! k = Some i ->
  (forall j ij, (j <= k)%nat -> idx !! j = Some ij -> 0 <= ij /\ ij + 4 <= len data) ->
  (forall j ij, (j < k)%nat -> idx !! j = Some ij -> word_at data ij <> SENTINEL) ->
  word_at data i = SENTINEL ->
  scan_window data start idx false = scan_window data start (drop (S k) idx) true.
Proof.
  intros Hk Hread Hmiss Hw.
  rewrite <- (take_drop_middle idx k i Hk) at 1.
  rewrite scan_window_app, scan_window_miss.
  - change (i :: drop (S k) idx) with ([i] ++ drop (S k) idx).
    rewrite scan_window_app, scan_window_hit; [reflexivity | | | exact Hw];
      apply (Hread k i); [lia | exact Hk | lia | exact Hk].
  - apply Forall_lookup_2. intros j ij Hj.
    assert (Hjk : (j < k)%nat).
    { apply lookup_lt_Some in Hj. rewrite length_take in Hj. lia. }
    rewrite lookup_take_lt in Hj by exact Hjk.
    destruct (Hread j ij ltac:(lia) Hj). split; [assumption|]. split; [assumption|].
    apply (Hmiss j ij Hjk Hj).
Qed.

(** what [DecodeTextBase] does when the first sentinel of the scan is the
    [k]-th word visited *)
Lemma DecodeTextBase_scan (data : bytes) (k : nat) (i : Z) :
  scan_order !! k = Some i ->
  (forall j ij, (j <= k)%nat -> scan_order !! j = Some ij -> ij + 4 <= len data) ->
  (forall j ij, (j < k)%nat -> scan_order !! j = Some ij -> word_at data ij <> SENTINEL) ->
  word_at data i = SENTINEL ->
  match scan_order !! S k with
  | Some i' =>
      i' + 4 <= len data ->
      DecodeTextBase data =
        Ok (Some (word_at data i' - (if (k <? 39)%nat then 0 else 0x4000)))
  | None => DecodeTextBase data = Ok None
  end.
Proof.
  intros Hk Hread Hmiss Hw.
  assert (Hread' : forall j ij, (j <= k)%nat -> scan_order !! j = Some ij ->
                                0 <= ij /\ ij + 4 <= len data).
  { intros j ij Hj Hl. split; [eapply scan_order_nonneg; exact Hl | eauto]. }
  rewrite DecodeTextBase_unfold.
  destruct (le_lt_dec 40 k) as [Hsecond | Hfirst].
  - (* the sentinel is in the second window *)
    assert (E0 : scan_window data 0 W0 false = Ok (Scanned false)).
    { apply scan_window_miss. apply Forall_lookup_2. intros j ij Hj.
      pose proof (lookup_lt_Some _ _ _ Hj) as Hlt. rewrite length_W0 in Hlt.
      assert (Hj' : scan_order !! j = Some ij)
        by (unfold scan_order; rewrite lookup_app_l by (rewrite length_W0; lia); exact Hj).
      destruct (Hread' j ij ltac:(lia) Hj'). split; [assumption|]. split; [assumption|].
      apply (Hmiss j ij ltac:(lia) Hj'). }
    rewrite E0.
    assert (Hsh : forall j, scan_order !! (40 + j)%nat = W1 !! j).
    { intros j. unfold scan_order. rewrite lookup_app_r by (rewrite length_W0; lia).
      rewrite length_W0. f_equal. lia. }
    assert (Hk1 : W1 !! (k - 40)%nat = Some i).
    { rewrite <- Hsh. replace (40 + (k - 40))%nat with k by lia. exact Hk. }
    rewrite (scan_window_first data 0x4000 W1 (k - 40) i Hk1); [| | |exact Hw].
    + replace (S k) with (40 + S (k - 40))%nat by lia. rewrite Hsh.
      destruct (W1 !! S (k - 40)%nat) as [i'|] eqn:En.
      * intros Hfit. rewrite (drop_S _ _ _ En).
        rewrite scan_window_next; [|eapply (scan_order_nonneg (40 + S (k - 40)));
                                     rewrite Hsh; exact En | exact Hfit].
        replace (k <? 39)%nat with false by (symmetry; apply Nat.ltb_ge; lia).
        reflexivity.
      * rewrite drop_ge by (apply lookup_ge_None in En; lia). reflexivity.
    + intros j ij Hj Hl. apply (Hread' (40 + j)%nat ij); [lia | rewrite Hsh; exact Hl].
    + intros j ij Hj Hl. apply (Hmiss (40 + j)%nat ij); [lia | rewrite Hsh; exact Hl].
  - (* the sentinel is in the first window *)
    assert (Hsh : forall j, (j < 40)%nat -> scan_order !! j = W0 !! j).
    { intros j Hj. unfold scan_order. apply lookup_app_l. rewrite length_W0. exact Hj. }
    assert (Hk0 : W0 !! k = Some i) by (rewrite <- Hsh by lia; exact Hk).
    rewrite (scan_window_first data 0 W0 k i Hk0); [| | |exact Hw].
    + destruct (le_lt_dec 39 k) as [Hlast | Hinner].
      * (* the last word of the first window: the flag is carried over *)
        assert (k = 39%nat) by lia. subst k.
        rewrite drop_ge by (rewrite length_W0; lia).
        change (scan_order !! 40%nat) with (Some 0x4000).
        intros Hfit. cbn [scan_window].
        change W1 with (0x4000 :: drop 1 W1).
        rewrite scan_window_next by lia. reflexivity.
      * rewrite Hsh by lia.
        destruct (W0 !! S k) as [i'|] eqn:En.
        2: { apply lookup_ge_None in En. rewrite length_W0 in En. lia. }
        intros Hfit. rewrite (drop_S _ _ _ En).
        rewrite scan_window_next; [|eapply (scan_order_nonneg (S k));
                                     rewrite Hsh by lia; exact En | exact Hfit].
        replace (k <? 39)%nat with true by (symmetry; apply Nat.ltb_lt; lia).
        reflexivity.
    + intros j ij Hj Hl. apply (Hread' j ij Hj). rewrite Hsh by lia. exact Hl.
    + intros j ij Hj Hl. apply (Hmiss j ij Hj). rewrite Hsh by lia. exact Hl.
Qed.

Lemma scan_order_lookup (j : nat) :
  (j < 80)%nat -> scan_order !! j = Some (word_offset j).
Proof.
  intros Hj.
  assert (Hall : forallb (fun j => match scan_order !! j with
                                   | Some i => i =? word_offset j
                                   | None => false
                                   end) (seq 0 80) = true) by (vm_compute; reflexivity).
  rewrite forallb_forall in Hall. specialize (Hall j).
  destruct (scan_order !! j) as [i|].
  - f_equal. apply Z.eqb_eq, Hall, in_seq. lia.
  - discriminate Hall. apply in_seq. lia.
Qed.

(** X11.  [DecodeTextBase] treats its two windows as one sequence of eighty
    words, at offsets 0, 4, ..., 156, 0x4000, ..., 0x409c.  When the first
    sentinel of that sequence is its [k]-th word and the words up to it can
    be read, the result is the word visited next minus the start of the
    window that word is in; so a sentinel in the last word of the first
    window returns the first word of the second window minus 0x4000, and
    after the last word of the second window there is nothing to return.
    The buffer need not reach beyond the word that is returned. *)
Theorem DecodeTextBase_first_sentinel (data : bytes) (k : nat) :
  (k < 80)%nat ->
  (forall j, (j <= k)%nat -> word_offset j + 4 <= len data) ->
  (forall j, (j < k)%nat -> word_at data (word_offset j) <> SENTINEL) ->
  word_at data (word_offset k) = SENTINEL ->
  (k = 79%nat -> DecodeTextBase data = Ok None) /\
  ((k < 79)%nat -> word_offset (S k) + 4 <= len data ->
   DecodeTextBase data =
     Ok (Some (word_at data (word_offset (S k)) - (if (k <? 39)%nat then 0 else 0x4000)))).
Proof.
  intros Hk Hread Hmiss Hw.
  pose proof (DecodeTextBase_scan data k (word_offset k) (scan_order_lookup k Hk)) as Hscan.
  assert (Hscan' :
    match scan_order !! S k with
    | Some i' =>
        i' + 4 <= len data ->
        DecodeTextBase data =
          Ok (Some (word_at data i' - (if (k <? 39)%nat then 0 else 0x4000)))
    | None => DecodeTextBase data = Ok None
    end).
  { apply Hscan; [| |exact Hw].
    - intros j ij Hj Hl. rewrite scan_order_lookup in Hl by lia.
      inversion Hl; subst ij. apply Hread. exact Hj.
    - intros j ij Hj Hl. rewrite scan_order_lookup in Hl by lia.
      inversion Hl; subst ij. apply Hmiss. exact Hj. }
  split.
  - intros ->. exact Hscan'.
  - intros Hlt Hfit. rewrite scan_order_lookup in Hscan' by lia. apply Hscan'. exact Hfit.
Qed.

Lemma DecodeTextBase_first_sentinel_witness :
  DecodeTextBase (le_bytes 0 ++ le_bytes SENTINEL ++ le_bytes 0x10c000) = Ok (Some 0x10c000).
Proof.
  refine (proj2 (DecodeTextBase_first_sentinel
                   (le_bytes 0 ++ le_bytes SENTINEL ++ le_bytes 0x10c000) 1 _ _ _ _) _ _).
  - lia.
  - intros j Hj. destruct j as [|[|j]]; [| |lia]; vm_compute; discriminate.
  - intros j Hj. destruct j as [|j]; [|lia]. vm_compute. discriminate.
  - reflexivity.
  - lia.
  - vm_compute. discriminate.
Defined.

(** X12.  [DecodeTextBase] returns [None] exactly when the buffer holds all
    of both windows (0x40a0 bytes at least) and none of the first 79 words
    visited is the sentinel; a sentinel in the last word of the second
    window is not noticed. *)
Theorem DecodeTextBase_None_iff (data : bytes) :
  DecodeTextBase data = Ok None <->
  0x40a0 <= len data /\
  forall j, (j < 79)%nat -> word_at data (word_offset j) <> SENTINEL.
Proof.
  assert (Hbound : forall j ij, scan_order !! j = Some ij -> ij + 4 <= 0x40a0).
  { intros j ij H. apply (scan_order_range j ij H). }
  assert (Hlen : length scan_order = 80%nat) by reflexivity.
  split.
  - intros Hnone. pose proof (DecodeTextBase_None_length data Hnone) as Hl.
    split; [exact Hl|].
    intros j. induction j as [j IH] using lt_wf_ind. intros Hj Hw.
    pose proof (DecodeTextBase_scan data j (word_offset j)
                  (scan_order_lookup j ltac:(lia))) as Hscan.
    rewrite (scan_order_lookup (S j)) in Hscan by lia.
    rewrite Hscan in Hnone; [discriminate | | | exact Hw |].
    + intros j' ij' _ H'. pose proof (Hbound j' ij' H'). lia.
    + intros j' ij' Hlt H'. rewrite scan_order_lookup in H' by lia.
      inversion H'; subst ij'. apply (IH j' Hlt). lia.
    + pose proof (Hbound (S j) _ (scan_order_lookup (S j) ltac:(lia))). lia.
  - intros [Hl Hmiss].
    destruct (Z.eq_dec (word_at data (word_offset 79)) SENTINEL) as [Hlast | Hlast].
    + pose proof (DecodeTextBase_scan data 79 (word_offset 79) eq_refl) as Hscan.
      change (scan_order !! 80%nat) with (@None Z) in Hscan. cbv iota in Hscan.
      apply Hscan; [| |exact Hlast].
      * intros j' ij' _ H'. pose proof (Hbound j' ij' H'). lia.
      * intros j' ij' Hlt H'. rewrite scan_order_lookup in H' by lia.
        inversion H'; subst ij'. apply (Hmiss j' Hlt).
    + rewrite DecodeTextBase_unfold.
      assert (Hall : Forall (fun i => 0 <= i /\ i + 4 <= len data /\
                                      word_at data i <> SENTINEL) scan_order).
      { apply Forall_lookup_2. intros j ij Hij.
        split; [eapply scan_order_nonneg; exact Hij|].
        split; [pose proof (Hbound j ij Hij); lia|].
        apply lookup_lt_Some in Hij as Hj. rewrite Hlen in Hj.
        rewrite scan_order_lookup in Hij by exact Hj. inversion Hij; subst ij.
        destruct (le_lt_dec 79 j) as [Hge | Hlt]; [|apply (Hmiss j Hlt)].
        assert (j = 79%nat) by lia. subst j. exact Hlast. }
      unfold scan_order in Hall. apply Forall_app in Hall as [H0 H1].
      rewrite (scan_window_miss data 0 W0 H0), (scan_window_miss data 0x4000 W1 H1).
      reflexivity.
Qed.

Lemma DecodeTextBase_None_iff_witness :
  DecodeTextBase (zeros 0x409c ++ le_bytes SENTINEL) = Ok None.
Proof.
  apply (proj2 (DecodeTextBase_None_iff (zeros 0x409c ++ le_bytes SENTINEL))).
  split; [vm_compute; discriminate|].
  assert (H : forallb (fun j => negb (word_at (zeros 0x409c ++ le_bytes SENTINEL)
                                        (word_offset j) =? SENTINEL))
                (seq 0 79) = true) by (vm_compute; reflexivity).
  intros j Hj Hw.
  rewrite forallb_forall in H. specialize (H j).
  rewrite Hw, Z.eqb_refl in H. discriminate H.
  apply in_seq. lia.
Defined.

(** * The flash script holds its placeholder once *)

Lemma bytes_of_app (a b : string) : bytes_of (a +:+ b) = bytes_of a ++ bytes_of b.
Proof.
  induction a as [|c a IH]; [reflexivity|].
  change (bytes_of (String c a +:+ b)) with (byte_of_ascii c :: bytes_of (a +:+ b)).
  rewrite IH. reflexivity.
Qed.

Lemma tame_tail (b : byte) (rest : bytes) : tame (b :: rest) = true -> tame rest = true.
Proof.
  destruct rest as [|c rest]; [reflexivity|]. cbn [tame].
  intros H. apply andb_true_iff in H as [_ H]. exact H.
Qed.

Lemma tame_app (a b : bytes) : tame a = true -> tame b = true -> tame (a ++ b) = true.
Proof.
  induction a as [|x a IH]; intros Ha Hb; [exact Hb|].
  destruct a as [|y a].
  - cbn [app]. destruct b as [|c b]; [exact Ha|].
    cbn [tame] in Ha |- *. apply negb_true_iff in Ha. rewrite Ha. exact Hb.
  - specialize (IH (tame_tail _ _ Ha) Hb).
    change ((x :: y :: a) ++ b) with (x :: y :: (a ++ b)).
    change ((y :: a) ++ b) with (y :: (a ++ b)) in IH.
    cbn [tame] in Ha. apply andb_true_iff in Ha as [Hxy _].
    change (tame (x :: y :: a ++ b))
      with (negb (Byte.eqb "z" x && Byte.eqb "s" y) && tame (y :: a ++ b)).
    rewrite Hxy, IH. reflexivity.
Qed.

Lemma noz_tame (data : bytes) : noz data = true -> tame data = true.
Proof.
  induction data as [|b rest IH]; [reflexivity|].
  unfold noz. cbn [forallb]. intros H. apply andb_true_iff in H as [Hb Hrest].
  specialize (IH Hrest). destruct rest as [|c rest]; [exact Hb|].
  change (tame (b :: c :: rest))
    with (negb (Byte.eqb "z" b && Byte.eqb "s" c) && tame (c :: rest)).
  apply negb_true_iff in Hb. rewrite Hb, IH. reflexivity.
Qed.

Lemma noz_app (a b : bytes) : noz (a ++ b) = noz a && noz b.
Proof. apply forallb_app. Qed.

Lemma digit_char_noz (d : Z) : negb (Byte.eqb "z" (byte_of_ascii (digit_char d))) = true.
Proof.
  unfold digit_char. generalize (Z.to_nat d). intros n.
  do 17 (destruct n as [|n]; [reflexivity|]). reflexivity.
Qed.

Lemma digits_aux_noz (fuel : nat) (base : Z) :
  forall n acc, noz (bytes_of acc) = true -> noz (bytes_of (digits_aux fuel base n acc)) = true.
Proof.
  induction fuel as [|fuel IH]; intros n acc Hacc; [exact Hacc|].
  cbn [digits_aux].
  assert (Hstep : noz (bytes_of (String (digit_char (n mod base)) acc)) = true).
  { change (bytes_of (String (digit_char (n mod base)) acc))
      with (byte_of_ascii (digit_char (n mod base)) :: bytes_of acc).
    unfold noz. cbn [forallb]. rewrite digit_char_noz. exact Hacc. }
  destruct (n / base =? 0); [exact Hstep | apply IH; exact Hstep].
Qed.

Lemma repeat_char_noz (c : ascii) (n : nat) :
  negb (Byte.eqb "z" (byte_of_ascii c)) = true -> noz (bytes_of (repeat_char c n)) = true.
Proof.
  intros Hc. induction n as [|n IH]; [reflexivity|].
  change (bytes_of (repeat_char c (S n)))
    with (byte_of_ascii c :: bytes_of (repeat_char c n)).
  unfold noz. cbn [forallb]. rewrite Hc. exact IH.
Qed.

Lemma fmt_int_noz (base : Z) (alt zero : bool) (width : nat) (v : Z) :
  noz (bytes_of (fmt_int base alt zero width v)) = true.
Proof.
  unfold fmt_int.
  assert (Hsign : noz (bytes_of (if v <? 0 then "-" else EmptyString)) = true)
    by (destruct (v <? 0); reflexivity).
  assert (Hprefix : noz (bytes_of (if alt then "0x" else EmptyString)) = true)
    by (destruct alt; reflexivity).
  assert (Hbody : noz (bytes_of (digits base (Z.abs v))) = true)
    by (apply digits_aux_noz; reflexivity).
  destruct zero; rewrite !bytes_of_app, !noz_app, Hsign, Hprefix, Hbody,
    repeat_char_noz by reflexivity; reflexivity.
Qed.

Lemma contains_z_noz (s : string) : contains "z" s = false -> noz (bytes_of s) = true.
Proof.
  induction s as [|c s IH]; [reflexivity|].
  cbn [contains]. intros H. apply orb_false_iff in H as [Hc Hs].
  change (bytes_of (String c s)) with (byte_of_ascii c :: bytes_of s).
  unfold noz. cbn [forallb]. fold (noz (bytes_of s)). rewrite (IH Hs), andb_true_r.
  apply negb_true_iff. destruct (Byte.eqb "z" (byte_of_ascii c)) eqn:E; [|reflexivity].
  exfalso. apply Byte.byte_dec_bl in E.
  assert (Hcz : c = "z"%char).
  { rewrite <- (ascii_of_byte_of_ascii c), <- E. reflexivity. }
  subst c. cbn in Hc. destruct s; discriminate Hc.
Qed.

Lemma tame_s_app (a b : string) : tame_s a -> tame_s b -> tame_s (a +:+ b).
Proof. unfold tame_s. rewrite bytes_of_app. apply tame_app. Qed.

Lemma tame_s_fmt (base : Z) (alt zero : bool) (width : nat) (v : Z) :
  tame_s (fmt_int base alt zero width v).
Proof. apply noz_tame, fmt_int_noz. Qed.

Lemma concat_cons (sep x y : string) (l : list string) :
  String.concat sep (x :: y :: l) = x +:+ sep +:+ String.concat sep (y :: l).
Proof. reflexivity. Qed.

Lemma tame_s_concat (sep : string) (l : list string) :
  tame_s sep -> Forall tame_s l -> tame_s (String.concat sep l).
Proof.
  intros Hsep. induction 1 as [|x l Hx Hl IH]; [reflexivity|].
  destruct l as [|y l]; [exact Hx|].
  rewrite concat_cons. apply tame_s_app; [exact Hx|]. apply tame_s_app; assumption.
Qed.

Lemma count_matches_tame (data : bytes) :
  tame data = true -> count_matches (bytes_of replace_me) data 0 = 0.
Proof.
  induction data as [|b rest IH]; intros H; [reflexivity|].
  cbn [count_matches].
  assert (Hno : starts_with (bytes_of replace_me) (b :: rest) = false).
  { change (bytes_of replace_me)
      with ("z"%byte :: "s"%byte :: bytes_of "HEXYla").
    cbn [starts_with]. destruct rest as [|c rest].
    - destruct (Byte.eqb "z" b); reflexivity.
    - cbn [tame] in H. apply andb_true_iff in H as [H _].
      apply negb_true_iff in H.
      destruct (Byte.eqb "z" b); [|reflexivity].
      destruct (Byte.eqb "s" c); [discriminate H | reflexivity]. }
  rewrite Hno. apply IH. exact (tame_tail _ _ H).
Qed.

Lemma count_matches_once (a b : bytes) :
  tame a = true -> tame b = true ->
  count_matches (bytes_of replace_me) (a ++ bytes_of replace_me ++ b) 0 = 1.
Proof.
  intros Ha Hb. induction a as [|x a IH].
  - cbn [app].
    change (bytes_of replace_me ++ b)
      with ("z"%byte :: (bytes_of "sHEXYla" ++ b)).
    cbn [count_matches].
    change (starts_with (bytes_of replace_me) ("z"%byte :: bytes_of "sHEXYla" ++ b))
      with (starts_with (bytes_of "sHEXYla") (bytes_of "sHEXYla" ++ b)).
    assert (Hs : starts_with (bytes_of "sHEXYla") (bytes_of "sHEXYla" ++ b) = true).
    { apply starts_with_take. rewrite take_app_length. reflexivity. }
    rewrite Hs.
    rewrite (count_matches_skip (bytes_of replace_me)).
    change (length (bytes_of replace_me) - 1)%nat with (length (bytes_of "sHEXYla")).
    rewrite drop_app_length, count_matches_tame by exact Hb. reflexivity.
  - specialize (IH (tame_tail _ _ Ha)).
    change ((x :: a) ++ bytes_of replace_me ++ b)
      with (x :: (a ++ bytes_of replace_me ++ b)).
    cbn [count_matches].
    assert (Hno : starts_with (bytes_of replace_me)
                    (x :: a ++ bytes_of replace_me ++ b) = false).
    { change (bytes_of replace_me)
        with ("z"%byte :: "s"%byte :: bytes_of "HEXYla") at 1.
      cbn [starts_with]. destruct a as [|y a].
      - cbn [tame] in Ha. apply negb_true_iff in Ha. rewrite Ha. reflexivity.
      - cbn [tame] in Ha. apply andb_true_iff in Ha as [Ha _].
        apply negb_true_iff in Ha. cbn [app].
        destruct (Byte.eqb "z" x); [|reflexivity].
        destruct (Byte.eqb "s" y); [discriminate Ha | reflexivity]. }
    rewrite Hno. exact IH.
Qed.

Ltac tame_text :=
  repeat first
    [ assumption
    | apply tame_s_app
    | (vm_compute; reflexivity) ].

(** X13.  The script of [_GetFlashScript] holds the placeholder exactly
    once, whatever the payload size, checksum, boot type and options, for a
    bus specifier without the letter z: the numbers are formatted in
    hexadecimal and the fixed text never has [z] followed by [s]. *)
Theorem GetFlashScript_one_placeholder (payload_size : Z) (update verify : bool)
    (boot_type : string) (checksum : Z) (bus : string) :
  contains "z" bus = false ->
  let '(script, marker) :=
    _GetFlashScript payload_size update verify boot_type checksum bus in
  marker = replace_me /\
  count_matches (bytes_of marker) (bytes_of script) 0 = 1.
Proof.
  intros Hbus.
  assert (Hb : tame_s bus) by (apply noz_tame, contains_z_noz; exact Hbus).
  unfold _GetFlashScript. cbv zeta. split; [reflexivity|].
  assert (Hpage : forall c : bool,
            tame_s (fmt_alt_x (RoundUp payload_size (if c then 512 else 4096))) /\
            tame_s (fmt_alt_x (RoundUp payload_size (if c then 512 else 4096)
                               / (if c then 512 else 4096))))
    by (intros c; split; apply tame_s_fmt).
  destruct (Hpage (boot_type =? "sdmmc")%string) as [Hlen Hblocks].
  revert Hlen Hblocks.
  generalize (fmt_alt_x (RoundUp payload_size
                (if (boot_type =? "sdmmc")%string then 512 else 4096))).
  generalize (fmt_alt_x (RoundUp payload_size
                (if (boot_type =? "sdmmc")%string then 512 else 4096)
                / (if (boot_type =? "sdmmc")%string then 512 else 4096))).
  intros blocks length Hlen Hblocks.
  assert (Hsize : tame_s (fmt_alt_x payload_size)) by apply tame_s_fmt.
  assert (Hsum : tame_s (fmt_alt_08x checksum)) by apply tame_s_fmt.
  revert Hsize Hsum.
  generalize (fmt_alt_x payload_size). generalize (fmt_alt_08x checksum).
  intros sum size Hsize Hsum.
  assert (Hif : forall (c : bool) (l a b : list string),
            (if c then l ++ a else l ++ b) = l ++ (if c then a else b))
    by (intros []; reflexivity).
  rewrite !Hif. cbn [app].
  rewrite concat_cons, !bytes_of_app, <- !app_assoc.
  apply count_matches_once; [vm_compute; reflexivity|].
  rewrite <- bytes_of_app.
  apply tame_s_app; [vm_compute; reflexivity|].
  apply tame_s_concat; [vm_compute; reflexivity|].
  repeat (apply Forall_cons; split; [tame_text|]).
  repeat (apply Forall_app; split);
    repeat match goal with
           | |- Forall _ (if ?c then _ else _) => destruct c
           end;
    repeat (apply Forall_cons; split; [tame_text|]); apply Forall_nil; exact I.
Qed.

Lemma GetFlashScript_one_placeholder_witness :
  count_matches (bytes_of replace_me)
    (bytes_of (fst (_GetFlashScript 7 true false "spi" 0x1234 "1:0"))) 0 = 1.
Proof.
  pose proof (GetFlashScript_one_placeholder 7 true false "spi" 0x1234 "1:0"
                ltac:(reflexivity)) as H.
  rewrite GetFlashScript_pair in H. exact (proj2 H).
Defined.

(** * The tegrarcm loop never runs away *)

Lemma runs_app (a b : list event) : runs (a ++ b) = runs a ++ runs b.
Proof. apply List.filter_app. Qed.

Lemma slept_app (a b : list event) : slept (a ++ b) = slept a + slept b.
Proof.
  induction a as [|ev a IH]; [reflexivity|].
  destruct ev; cbn [app slept]; rewrite IH; lia.
Qed.

(** X14.  Whatever tegrarcm answers, the retry loop of [NvidiaFlashImage]
    runs it at most ten times, runs nothing else, and sleeps no more than
    ten seconds in all. *)
Theorem tegrarcm_loop_bounded (n : nat) (args : list string) :
  forall (last_err : option string) (w : world),
    exists mid,
      trace (fst (tegrarcm_loop n args last_err w)) = trace w ++ mid /\
      (length (runs mid) <= n)%nat /\
      Forall (fun ev => ev = EvRun "tegrarcm" args true) (runs mid) /\
      0 <= slept mid <= 1000 * Z.of_nat n.
Proof.
  induction n as [|n IH]; intros last_err w.
  - exists []. cbn. rewrite app_nil_r. repeat split; [lia | constructor | lia | lia].
  - rewrite tegrarcm_attempt.
    destruct (tool w (ncalls w) "tegrarcm" args) as [out|[err| | | |]].
    1: { exists [EvRun "tegrarcm" args true; downloaded]. cbn [fst add_events after_run trace].
         rewrite <- app_assoc. split; [reflexivity|]. cbn.
         repeat split; [lia | repeat constructor | lia | lia]. }
    2-5: exists [EvRun "tegrarcm" args true]; cbn;
         repeat split; [lia | repeat constructor | lia | lia].
    destruct (stdout_is_tty w); cbn [negb].
    2: { exists [EvRun "tegrarcm" args true]. cbn.
         repeat split; [lia | repeat constructor | lia | lia]. }
    destruct (not_enumerated err); cbn [negb].
    2: { exists [EvRun "tegrarcm" args true]. cbn.
         repeat split; [lia | repeat constructor | lia | lia]. }
    destruct (IH (Some err) (after_retry w args last_err err)) as (mid & Ht & Hn & Hall & Hs).
    exists (retry_events args last_err err ++ mid).
    rewrite Ht. cbn [after_retry trace]. rewrite <- app_assoc.
    split; [reflexivity|].
    rewrite runs_app, slept_app.
    assert (Hr : runs (retry_events args last_err err) = [EvRun "tegrarcm" args true])
      by (unfold retry_events; destruct (bool_decide (Some err = last_err)); reflexivity).
    assert (Hsl : slept (retry_events args last_err err) = 1000)
      by (unfold retry_events; destruct (bool_decide (Some err = last_err)); reflexivity).
    rewrite Hr, Hsl. cbn [app length].
    repeat split; [lia | constructor; [reflexivity | exact Hall] | lia | lia].
Qed.

Section Nvidia.
Variable crc32 : bytes -> Z.
Variable fdt_put_string : bytes -> string -> string -> string -> bytes.
Variable bct_boot_type : string -> result string.

(** X15.  When neither a flasher nor a bootstub is asked for and the text
    base is not known (-1), [NvidiaFlashImage] decodes it from the payload
    past the first 64KB.  A value found becomes the load address handed to
    tegrarcm; when none is found the method stops with an exception before
    tegrarcm is run: a struct error for a payload that is too short, a
    [TypeError] when [None] reaches the formatting of the message. *)
Theorem NvidiaFlashImage_decodes_text_base (flash_dest bootstub : option string)
    (uboot bct payload : string) (w : world) (dump boot_type : string) (data : bytes) :
  given flash_dest = false -> given bootstub = false ->
  text_base (self w) = Some (-1) ->
  tool w (ncalls w) "bct_dump" [bct] = Ok dump ->
  bct_boot_type dump = Ok boot_type ->
  files w !! payload = Some data ->
  let run := NvidiaFlashImage crc32 fdt_put_string bct_boot_type
               flash_dest uboot bct payload bootstub w in
  let w1 := after_run w "bct_dump" [bct] false in
  (forall v, DecodeTextBase (slice_from data 0x10000) = Ok (Some v) ->
     run = tegrarcm_loop 10
             ["--bct"; bct; "--bootloader"; payload; "--loadaddr"; fmt_alt_x v] None
             (add_events (with_text_base w1 (Some v))
                [EvOut LvNotice ("TEXT_BASE is " +:+ fmt_alt_x v);
                 EvOut LvProgress "Uploading flasher image"])) /\
  (DecodeTextBase (slice_from data 0x10000) = Ok None ->
     run = (with_text_base w1 None, Raise TypeError)) /\
  (forall e, DecodeTextBase (slice_from data 0x10000) = Raise e ->
     run = (w1, Raise StructError)).
Proof.
  intros Hfd Hbs Htb Hdump Hboot Hfile run w1.
  assert (Hrun : run =
    match DecodeTextBase (slice_from data 0x10000) with
    | Ok (Some v) =>
        tegrarcm_loop 10
          ["--bct"; bct; "--bootloader"; payload; "--loadaddr"; fmt_alt_x v] None
          (add_events (with_text_base w1 (Some v))
             [EvOut LvNotice ("TEXT_BASE is " +:+ fmt_alt_x v);
              EvOut LvProgress "Uploading flasher image"])
    | Ok None => (with_text_base w1 None, Raise TypeError)
    | Raise e => (w1, Raise e)
    end).
  { unfold run, NvidiaFlashImage, mbind, M_bind, Run, lift, get_world, ReadFile,
      set_text_base, mret, M_ret, Notice, Progress, emit.
    cbn [files trace ncalls tool duration clock outdir stdout_is_tty self
         text_base _fdt update verify _servo_port].
    rewrite Hdump. cbv beta iota. rewrite Hboot. cbv beta iota.
    cbn [files trace ncalls tool duration clock outdir stdout_is_tty self
         text_base _fdt update verify _servo_port].
    rewrite Hfd, Hbs, Htb. cbv beta iota.
    rewrite bool_decide_eq_true_2 by reflexivity.
    cbn [files trace ncalls tool duration clock outdir stdout_is_tty self
         text_base _fdt update verify _servo_port].
    rewrite Hfile. cbv beta iota.
    destruct (DecodeTextBase (slice_from data 0x10000)) as [[v|]|e]; try reflexivity.
    cbn [files trace ncalls tool duration clock outdir stdout_is_tty self
         text_base _fdt update verify _servo_port].
    unfold add_events, with_text_base, w1, after_run.
    cbn [files trace ncalls tool duration clock outdir stdout_is_tty self
         text_base _fdt update verify _servo_port].
    rewrite <- !app_assoc. reflexivity. }
  split; [|split].
  - intros v Hv. rewrite Hrun, Hv. reflexivity.
  - intros Hv. rewrite Hrun, Hv. reflexivity.
  - intros e He. rewrite Hrun, He. rewrite (DecodeTextBase_Raise _ _ He). reflexivity.
Qed.

End Nvidia.

Lemma NvidiaFlashImage_decodes_text_base_witness :
  let w := payload_world (bytes_of "short") in
  NvidiaFlashImage crc32_bitwise short_put (fun _ => Ok "spi")
                   None "u-boot.bin" "board.bct" "image.bin" None w =
    (after_run w "bct_dump" ["board.bct"] false, Raise StructError).
Proof.
  intros w.
  refine (proj2 (proj2 (NvidiaFlashImage_decodes_text_base crc32_bitwise short_put
            (fun _ => Ok "spi") None None "u-boot.bin" "board.bct" "image.bin" w
            EmptyString "spi" (bytes_of "short") _ _ _ _ _ _)) StructError _);
    vm_compute; reflexivity.
Defined.

(** * Waiting for the board *)

Lemma wait_loop_outcome (name : string) (args : list string) (start T : Z)
    (rounds : nat) :
  forall w,
    let run := wait_loop rounds name args start T w in
    exists mid,
      trace (fst run) = trace w ++ mid /\
      Forall (fun ev => ev = EvRun "lsusb" args true) (runs mid) /\
      (forall msg, snd run <> Raise (CmdError msg)) /\
      (snd run = Ok false ->
         mid = runs mid /\
         (T - (clock w - start) < Z.of_nat rounds -> T <= clock (fst run) - start)) /\
      (snd run = Ok true ->
         exists before,
           mid = before ++ [EvRun "lsusb" args true; found_board name]) /\
      (T <= clock w - start -> mid = [] /\ snd run = Ok false).
Proof.
  induction rounds as [|rounds IH]; intros w run.
  - exists []. unfold run. cbn. rewrite app_nil_r.
    repeat split; try discriminate; try constructor; lia.
  - assert (Hstep : wait_loop (S rounds) name args start T w =
      if clock w - start <? T then
        match tool w (ncalls w) "lsusb" args with
        | Ok _ => (add_events (after_run w "lsusb" args true) [found_board name], Ok true)
        | Raise (CmdError _) =>
            wait_loop rounds name args start T (after_run w "lsusb" args true)
        | Raise e => (after_run w "lsusb" args true, Raise e)
        end
      else (w, Ok false)).
    { cbn [wait_loop].
      unfold mbind, M_bind, get_world, except_CmdError, Run, Progress, emit, mret, M_ret.
      cbn [files trace ncalls tool duration clock outdir stdout_is_tty self].
      destruct (clock w - start <? T); [|reflexivity].
      destruct (tool w (ncalls w) "lsusb" args) as [out|[err| | | |]]; reflexivity. }
    unfold run. clear run. rewrite Hstep. clear Hstep.
    destruct (clock w - start <? T) eqn:Et.
    2: { apply Z.ltb_ge in Et. exists []. cbn. rewrite app_nil_r.
         repeat split; try discriminate; try (constructor; fail); lia. }
    apply Z.ltb_lt in Et.
    destruct (tool w (ncalls w) "lsusb" args) as [out|[err| | | |]].
    1: { exists [EvRun "lsusb" args true; found_board name].
         cbn [fst snd trace add_events after_run]. rewrite <- app_assoc.
         split; [reflexivity|]. split; [repeat constructor|].
         split; [discriminate|]. split; [discriminate|].
         split; [intros _; exists []; reflexivity | lia]. }
    2-5: exists [EvRun "lsusb" args true]; cbn [fst snd trace after_run];
         (split; [reflexivity|]); (split; [repeat constructor|]);
         (split; [discriminate|]); (split; [discriminate|]);
         (split; [discriminate | lia]).
    destruct (IH (after_run w "lsusb" args true)) as (mid & Ht & Hall & Hno & Hf & Hs & _).
    exists (EvRun "lsusb" args true :: mid).
    split; [rewrite Ht; cbn [after_run trace]; rewrite <- app_assoc; reflexivity|].
    split; [cbn [runs List.filter]; constructor; [reflexivity | exact Hall]|].
    split; [exact Hno|]. split; [|split].
    + intros Hfalse. destruct (Hf Hfalse) as [Hm Hc]. split.
      * cbn [runs List.filter]. fold (runs mid). rewrite <- Hm. reflexivity.
      * intros Hfuel. apply Hc. cbn [after_run clock]. lia.
    + intros Htrue. destruct (Hs Htrue) as [before Hb].
      exists (EvRun "lsusb" args true :: before). rewrite Hb. reflexivity.
    + intros Hge. lia.
Qed.

(** X16.  [_WaitForUSBDevice] announces the wait and then runs nothing but
    lsusb with the device id.  A failure of lsusb is never passed on.  It
    returns [True] right after an lsusb that succeeded, and [False] only
    when the timeout has elapsed; with a timeout of zero or less it returns
    [False] without running lsusb at all. *)
Theorem WaitForUSBDevice_outcome (name : string) (vendor_id product_id timeout : Z)
    (w : world) :
  let run := _WaitForUSBDevice name vendor_id product_id timeout w in
  let probe := EvRun "lsusb" (lsusb_args vendor_id product_id) true in
  exists mid,
    trace (fst run) = trace w ++ waiting :: mid /\
    Forall (fun ev => ev = probe) (runs mid) /\
    (forall msg, snd run <> Raise (CmdError msg)) /\
    (snd run = Ok false ->
       mid = runs mid /\ 1000 * timeout <= clock (fst run) - clock w) /\
    (snd run = Ok true -> exists before, mid = before ++ [probe; found_board name]) /\
    (timeout <= 0 -> mid = [] /\ snd run = Ok false).
Proof.
  intros run probe.
  assert (Hrun : run =
            wait_loop (S (Z.to_nat (1000 * timeout))) name
              (lsusb_args vendor_id product_id) (clock w) (1000 * timeout)
              (add_events w [waiting])) by reflexivity.
  rewrite Hrun. clear Hrun run.
  destruct (wait_loop_outcome name (lsusb_args vendor_id product_id) (clock w)
              (1000 * timeout) (S (Z.to_nat (1000 * timeout))) (add_events w [waiting]))
    as (mid & Ht & Hall & Hno & Hf & Hs & Hz).
  exists mid. cbn [add_events trace clock] in *.
  split; [rewrite Ht, <- app_assoc; reflexivity|].
  split; [exact Hall|]. split; [exact Hno|]. split; [|split].
  - intros Hfalse. destruct (Hf Hfalse) as [Hm Hc]. split; [exact Hm|].
    apply Hc. lia.
  - exact Hs.
  - intros Hle. apply Hz. lia.
Qed.

Lemma WaitForUSBDevice_outcome_witness :
  let run := _WaitForUSBDevice "exynos" 0x04e8 0x1234 4 (usb_world 100 2500) in
  snd run = Ok false /\ 4000 <= clock (fst run) /\
  snd (_WaitForUSBDevice "exynos" 0x04e8 0x1234 0 (usb_world 0 1)) = Ok false.
Proof.
  intros run.
  destruct (WaitForUSBDevice_outcome "exynos" 0x04e8 0x1234 4 (usb_world 100 2500))
    as (mid & _ & _ & _ & Hf & _).
  destruct (WaitForUSBDevice_outcome "exynos" 0x04e8 0x1234 0 (usb_world 0 1))
    as (mid0 & _ & _ & _ & _ & _ & Hz).
  assert (Hfalse : snd run = Ok false) by (vm_compute; reflexivity).
  split; [exact Hfalse|]. split.
  - destruct (Hf Hfalse) as [_ Hc]. change (clock (usb_world 100 2500)) with 0 in Hc.
    fold run in Hc. lia.
  - apply Hz. lia.
Defined.

(** * The parts of an Exynos payload *)

Lemma find_at_found (sub data : bytes) :
  forall i r, find_at sub data i = r -> r <> -1 -> 0 <= i ->
    i <= r /\ starts_with sub (drop (Z.to_nat (r - i)) data) = true.
Proof.
  induction data as [|b data IH]; intros i r Hr Hne Hi.
  - cbn [find_at] in Hr. destruct (starts_with sub []) eqn:Es; [|lia].
    subst r. replace (Z.to_nat (i - i)) with 0%nat by lia. split; [lia | exact Es].
  - cbn [find_at] in Hr. destruct (starts_with sub (b :: data)) eqn:Es.
    + subst r. replace (Z.to_nat (i - i)) with 0%nat by lia. split; [lia | exact Es].
    + destruct (IH (i + 1) r Hr Hne ltac:(lia)) as [Hle Hs]. split; [lia|].
      replace (Z.to_nat (r - i)) with (S (Z.to_nat (r - (i + 1)))) by lia.
      exact Hs.
Qed.

Lemma uboot_offset_found (data : bytes) :
  uboot_offset_of data <> -1 ->
  0x5800 <= uboot_offset_of data /\
  uboot_offset_of data + 4 <= len data /\
  take 4 (drop (Z.to_nat (uboot_offset_of data)) data) = first_instr.
Proof.
  unfold uboot_offset_of, py_find_from. change (0x2000 + 0x3800) with 0x5800.
  destruct (0x5800 >? len data) eqn:El; [intros H; exfalso; apply H; reflexivity|].
  intros Hne.
  destruct (find_at_found first_instr (drop (Z.to_nat 0x5800) data) 0x5800 _ eq_refl Hne
              ltac:(lia)) as [Hle Hs].
  set (off := find_at first_instr (drop (Z.to_nat 0x5800) data) 0x5800) in *.
  rewrite drop_drop in Hs.
  replace (Z.to_nat 0x5800 + Z.to_nat (off - 0x5800))%nat with (Z.to_nat off) in Hs by lia.
  apply starts_with_take in Hs. change (length first_instr) with 4%nat in Hs.
  split; [exact Hle|]. split; [|exact Hs].
  assert (Hl : length (take 4 (drop (Z.to_nat off) data)) = 4%nat) by (rewrite Hs; reflexivity).
  rewrite length_take, length_drop in Hl. unfold len. lia.
Qed.

Lemma part_names_distinct (w : world) :
  bl1_name w <> bl2_part_name w /\ bl1_name w <> image_name w /\
  bl2_part_name w <> image_name w.
Proof.
  unfold bl1_name, bl2_part_name, image_name.
  repeat split; intros H; apply path_join_inj in H; discriminate H.
Qed.

(** what [_ExtractPayloadParts] does with a payload that can be read *)
Lemma ExtractPayloadParts_run (payload : string) (w : world) (data : bytes) :
  files w !! payload = Some data ->
  let off := uboot_offset_of data in
  let kb := Z.shiftr (off - 0x2000 - 0x800) 10 in
  let w1 := with_file w (bl1_name w) (slice_to data 0x2000) in
  _ExtractPayloadParts payload w =
    if off =? -1 then (w1, Raise (ValueError "Could not locate start of U-Boot"))
    else if negb (bool_decide (kb ∈ [14; 30])) then
      (w1, Raise (ValueError ("BL2 size is " +:+ fmt_d kb +:+ "K - only " +:+
                              String.concat ", " (map fmt_d [14; 30]) +:+ " supported")))
    else
      (with_file
         (with_file
            (add_events w1 [EvOut LvNotice ("BL2 size is " +:+ fmt_d kb +:+ "KB")])
            (bl2_part_name w) (slice data 0x2000 (off - 0x800)))
         (image_name w) (slice_from data off),
       Ok (bl1_name w, bl2_part_name w, image_name w)).
Proof.
  intros Hfile off kb w1.
  unfold _ExtractPayloadParts, mbind, M_bind, get_world, ReadFile, WriteFile, lift, raise,
    Notice, emit, mret, M_ret.
  cbn [files trace ncalls tool duration clock outdir stdout_is_tty self].
  rewrite Hfile. cbv beta iota.
  change (pack_L 0xea000014) with (Ok first_instr). cbv beta iota.
  fold (uboot_offset_of data). fold off.
  destruct (off =? -1); [reflexivity|].
  fold kb. destruct (negb (bool_decide (kb ∈ [14; 30]))); reflexivity.
Qed.

(** X17.  When [_ExtractPayloadParts] succeeds, the three files it names
    hold BL1 (the first 8KB), BL2 and the U-Boot image, and with the 2KB gap
    between BL2 and the image they make up the payload again.  The image
    begins with the branch instruction that was searched for from offset
    0x5800 on, and BL2 has 14KB or 30KB and less than 1KB more. *)
Theorem ExtractPayloadParts_parts (payload : string) (w w' : world) (data : bytes)
    (bl1 bl2 image : string) :
  files w !! payload = Some data ->
  _ExtractPayloadParts payload w = (w', Ok (bl1, bl2, image)) ->
  let off := uboot_offset_of data in
  exists b1 b2 gap im,
    files w' !! bl1 = Some b1 /\ files w' !! bl2 = Some b2 /\
    files w' !! image = Some im /\
    data = b1 ++ b2 ++ gap ++ im /\
    len b1 = 0x2000 /\ len gap = 0x800 /\ len b2 = off - 0x2800 /\
    (14 * 1024 <= len b2 < 15 * 1024 \/ 30 * 1024 <= len b2 < 31 * 1024) /\
    take 4 im = first_instr.
Proof.
  intros Hfile Hrun off.
  rewrite (ExtractPayloadParts_run payload w data Hfile) in Hrun. cbv zeta in Hrun.
  fold off in Hrun.
  destruct (off =? -1) eqn:Eoff; [inversion Hrun|]. apply Z.eqb_neq in Eoff.
  destruct (bool_decide (Z.shiftr (off - 0x2000 - 0x800) 10 ∈ [14; 30])) eqn:Ekb;
    [|inversion Hrun].
  cbn [negb] in Hrun. inversion Hrun; subst w' bl1 bl2 image. clear Hrun.
  apply bool_decide_eq_true_1 in Ekb.
  destruct (uboot_offset_found data Eoff) as (Hmin & Hfit & Hinstr). fold off in Hmin, Hfit, Hinstr.
  destruct (part_names_distinct w) as (H12 & H13 & H23).
  exists (take (Z.to_nat 0x2000) data),
         (take (Z.to_nat (off - 0x2800)) (drop (Z.to_nat 0x2000) data)),
         (take (Z.to_nat 0x800) (drop (Z.to_nat (off - 0x800)) data)),
         (drop (Z.to_nat off) data).
  assert (Hkb : 14 * 1024 <= off - 0x2800 < 15 * 1024 \/
                30 * 1024 <= off - 0x2800 < 31 * 1024).
  { replace (off - 0x2000 - 0x800) with (off - 0x2800) in Ekb by lia.
    rewrite Z.shiftr_div_pow2 in Ekb by lia. change (2 ^ 10) with 1024 in Ekb.
    pose proof (Z.div_mod (off - 0x2800) 1024 ltac:(lia)).
    pose proof (Z.mod_pos_bound (off - 0x2800) 1024 ltac:(lia)).
    apply elem_of_cons in Ekb as [E | Ekb]; [left; lia|].
    apply elem_of_cons in Ekb as [E | Ekb]; [right; lia|].
    apply elem_of_nil in Ekb. contradiction. }
  unfold with_file, add_events. cbn [files].
  split; [|split; [|split; [|split; [|split; [|split; [|split; [|split]]]]]]].
  - rewrite lookup_insert_ne by congruence. rewrite lookup_insert_ne by congruence.
    rewrite lookup_insert_eq. rewrite slice_to_in_range by lia. reflexivity.
  - rewrite lookup_insert_ne by congruence. rewrite lookup_insert_eq.
    rewrite slice_in_range by lia. do 3 f_equal. lia.
  - rewrite lookup_insert_eq. rewrite slice_from_in_range by lia. reflexivity.
  - rewrite <- (take_drop (Z.to_nat 0x2000) data) at 1. f_equal.
    rewrite <- (take_drop (Z.to_nat (off - 0x2800)) (drop (Z.to_nat 0x2000) data)) at 1.
    f_equal. rewrite drop_drop.
    replace (Z.to_nat 0x2000 + Z.to_nat (off - 0x2800))%nat with (Z.to_nat (off - 0x800))
      by lia.
    rewrite <- (take_drop (Z.to_nat 0x800) (drop (Z.to_nat (off - 0x800)) data)) at 1.
    f_equal. rewrite drop_drop. f_equal. lia.
  - unfold len in *. rewrite length_take. lia.
  - unfold len in *. rewrite length_take, length_drop. lia.
  - unfold len in *. rewrite length_take, length_drop. lia.
  - unfold len in *. rewrite length_take, length_drop. lia.
  - exact Hinstr.
Qed.

Lemma ExtractPayloadParts_parts_witness :
  let data := exynos_payload 0x3800 (bytes_of "u-boot") in
  let w := idle_world {[ "image.bin" := data ]} (declared_fdt 0) in
  exists w' b1 b2 gap im,
    _ExtractPayloadParts "image.bin" w
      = (w', Ok ("out/bl1.bin", "out/bl2.bin", "out/u-boot-from-image.bin")) /\
    files w' !! "out/bl2.bin" = Some b2 /\
    data = b1 ++ b2 ++ gap ++ im /\ len b2 = 0x3800.
Proof.
  intros data w.
  assert (Hfile : files w !! "image.bin" = Some data) by apply lookup_singleton_eq.
  assert (Hoff : uboot_offset_of data = 0x6000)
    by (apply Z.eqb_eq; vm_compute; reflexivity).
  assert (Hrun : _ExtractPayloadParts "image.bin" w =
                 (fst (_ExtractPayloadParts "image.bin" w),
                  Ok ("out/bl1.bin", "out/bl2.bin", "out/u-boot-from-image.bin"))).
  { rewrite (ExtractPayloadParts_run "image.bin" w data Hfile). cbv zeta.
    rewrite Hoff. reflexivity. }
  destruct (ExtractPayloadParts_parts "image.bin" w _ data _ _ _ Hfile Hrun)
    as (b1 & b2 & gap & im & _ & H2 & _ & Hd & _ & _ & Hl & _).
  exists (fst (_ExtractPayloadParts "image.bin" w)), b1, b2, gap, im.
  split; [exact Hrun|]. split; [exact H2|]. split; [exact Hd|].
  rewrite Hl, Hoff. reflexivity.
Defined.

(** X18.  When the payload can be read but [_ExtractPayloadParts] fails,
    the failure is a [ValueError] and comes after BL1 has been written:
    bl1.bin holds the first 8KB of the payload, and nothing else was
    written or reported. *)
Theorem ExtractPayloadParts_failure (payload : string) (w w' : world) (data : bytes)
    (e : exn) :
  files w !! payload = Some data ->
  _ExtractPayloadParts payload w = (w', Raise e) ->
  (exists msg, e = ValueError msg) /\
  w' = with_file w (bl1_name w) (slice_to data 0x2000) /\
  (uboot_offset_of data = -1 \/
   ~ (14 * 1024 <= uboot_offset_of data - 0x2800 < 15 * 1024 \/
      30 * 1024 <= uboot_offset_of data - 0x2800 < 31 * 1024)).
Proof.
  intros Hfile Hrun.
  rewrite (ExtractPayloadParts_run payload w data Hfile) in Hrun. cbv zeta in Hrun.
  destruct (uboot_offset_of data =? -1) eqn:Eoff.
  - inversion Hrun. apply Z.eqb_eq in Eoff.
    split; [eexists; reflexivity|]. split; [reflexivity | left; exact Eoff].
  - destruct (bool_decide (Z.shiftr (uboot_offset_of data - 0x2000 - 0x800) 10 ∈ [14; 30]))
      eqn:Ekb; cbn [negb] in Hrun; inversion Hrun.
    split; [eexists; reflexivity|]. split; [reflexivity|]. right.
    apply bool_decide_eq_false_1 in Ekb. intros Hkb. apply Ekb.
    replace (uboot_offset_of data - 0x2000 - 0x800) with (uboot_offset_of data - 0x2800)
      by lia.
    rewrite Z.shiftr_div_pow2 by lia. change (2 ^ 10) with 1024.
    destruct Hkb as [Hkb | Hkb].
    + replace ((uboot_offset_of data - 0x2800) / 1024) with 14.
      * apply elem_of_cons. left. reflexivity.
      * apply Z.div_unique with (uboot_offset_of data - 0x2800 - 14 * 1024); lia.
    + replace ((uboot_offset_of data - 0x2800) / 1024) with 30.
      * apply elem_of_cons. right. apply elem_of_cons. left. reflexivity.
      * apply Z.div_unique with (uboot_offset_of data - 0x2800 - 30 * 1024); lia.
Qed.

Lemma ExtractPayloadParts_failure_witness :
  let data := exynos_payload 0x3000 (bytes_of "u-boot") in
  let w := idle_world {[ "image.bin" := data ]} (declared_fdt 0) in
  exists msg,
    snd (_ExtractPayloadParts "image.bin" w) = Raise (ValueError msg) /\
    fst (_ExtractPayloadParts "image.bin" w) =
      with_file w (bl1_name w) (slice_to data 0x2000).
Proof.
  intros data w.
  assert (Hfile : files w !! "image.bin" = Some data) by apply lookup_singleton_eq.
  assert (Hoff : uboot_offset_of data = 0x5800)
    by (apply Z.eqb_eq; vm_compute; reflexivity).
  destruct (_ExtractPayloadParts "image.bin" w) as [w' [parts|e]] eqn:Hrun.
  - exfalso. rewrite (ExtractPayloadParts_run "image.bin" w data Hfile) in Hrun.
    cbv zeta in Hrun. rewrite Hoff in Hrun. discriminate Hrun.
  - destruct (ExtractPayloadParts_failure "image.bin" w w' data e Hfile Hrun)
      as ([msg ->] & -> & _).
    exists msg. split; reflexivity.
Defined.

(** * Without a servo *)

Lemma calm_ret {A} (a : A) : calm (mret a : M A).
Proof. intros w. exists []. cbn. rewrite app_nil_r. auto. Qed.

Lemma calm_raise {A} (e : exn) : calm (raise e : M A).
Proof. intros w. exists []. cbn. rewrite app_nil_r. auto. Qed.

Lemma calm_lift {A} (r : result A) : calm (lift r).
Proof. intros w. exists []. cbn. rewrite app_nil_r. auto. Qed.

Lemma calm_get_world : calm get_world.
Proof. intros w. exists []. cbn. rewrite app_nil_r. auto. Qed.

Lemma calm_bind {A B} (m : M A) (k : A -> M B) :
  calm m -> (forall a, calm (k a)) -> calm (m ≫= k).
Proof.
  intros Hm Hk w. destruct (Hm w) as (mid & Ht & Hr & Hs & Hself).
  unfold mbind, M_bind. destruct (m w) as [w1 [a|e]]; cbn [fst] in *.
  - destruct (Hk a w1) as (mid' & Ht' & Hr' & Hs' & Hself').
    exists (mid ++ mid'). rewrite Ht', Ht, <- app_assoc, runs_app, slept_app, Hr, Hr', Hs, Hs'.
    split; [reflexivity|]. split; [reflexivity|]. split; [reflexivity|]. congruence.
  - exists mid. auto.
Qed.

Lemma calm_ReadFile (name : string) : calm (ReadFile name).
Proof.
  intros w. exists []. unfold ReadFile. destruct (files w !! name);
    cbn; rewrite app_nil_r; auto.
Qed.

Lemma calm_WriteFile (name : string) (data : bytes) : calm (WriteFile name data).
Proof. intros w. exists [EvWrite name data]. cbn. auto. Qed.

Lemma calm_Notice (msg : string) : calm (Notice msg).
Proof. intros w. exists [EvOut LvNotice msg]. cbn. auto. Qed.

Lemma calm_OutputSize (label name : string) : calm (OutputSize label name).
Proof. intros w. exists [EvOutputSize label name]. cbn. auto. Qed.

Lemma calm_ExtractPayloadParts (payload : string) : calm (_ExtractPayloadParts payload).
Proof.
  unfold _ExtractPayloadParts.
  apply calm_bind; [apply calm_get_world | intros w0].
  apply calm_bind; [apply calm_ReadFile | intros data].
  apply calm_bind; [apply calm_WriteFile | intros _].
  apply calm_bind; [apply calm_lift | intros first].
  destruct (_ =? -1); [apply calm_raise|].
  destruct (negb _); [apply calm_raise|].
  apply calm_bind; [apply calm_Notice | intros _].
  apply calm_bind; [apply calm_WriteFile | intros _].
  apply calm_bind; [apply calm_WriteFile | intros _].
  apply calm_ret.
Qed.

Section NoServo.
Variable crc32 : bytes -> Z.
Variable fdt_put_string : bytes -> string -> string -> string -> bytes.

Lemma calm_PrepareFlasher (uboot payload : string) (update verify : bool)
    (boot_type bus : string) :
  calm (PrepareFlasher crc32 fdt_put_string uboot payload update verify boot_type bus).
Proof.
  unfold PrepareFlasher, Fdt_Copy, Fdt_PutString.
  apply calm_bind; [apply calm_get_world | intros w0].
  apply calm_bind.
  { apply calm_bind; [apply calm_ReadFile | intros d].
    apply calm_bind; [apply calm_WriteFile | intros _]. apply calm_ret. }
  intros fdt.
  apply calm_bind; [apply calm_ReadFile | intros p].
  destruct (_GetFlashScript _ _ _ _ _ _) as [script marker].
  apply calm_bind; [apply calm_ReadFile | intros u].
  apply calm_bind.
  { apply calm_bind; [apply calm_ReadFile | intros d]. apply calm_WriteFile. }
  intros _.
  apply calm_bind; [apply calm_ReadFile | intros fdt_data].
  apply calm_bind; [apply calm_lift | intros image].
  apply calm_bind; [apply calm_WriteFile | intros _].
  apply calm_bind; [apply calm_OutputSize | intros _].
  apply calm_bind; [apply calm_OutputSize | intros _].
  apply calm_bind; [apply calm_Notice | intros _].
  apply calm_bind; [apply calm_OutputSize | intros _].
  apply calm_ret.
Qed.

(** X19.  When no servo is available, [ExynosFlashImage] never succeeds
    and neither runs an external command nor sleeps: once the flasher or
    the payload parts have been prepared, reading [dut_hub_sel] raises the
    [IOError] of [_DutControl], before any reset or download. *)
Theorem ExynosFlashImage_without_servo (flash_dest : option string)
    (flash_uboot bl1 bl2 payload : string) (kernel : option string) (w : world) :
  _servo_port (self w) = None ->
  let run := ExynosFlashImage crc32 fdt_put_string flash_dest flash_uboot bl1 bl2
               payload kernel w in
  let prepared :=
    if given flash_dest
    then snd (PrepareFlasher crc32 fdt_put_string flash_uboot payload
                (update (self w)) (verify (self w)) (or_empty flash_dest) "1:0" w)
         ≫= (fun _ => Ok tt)
    else snd (_ExtractPayloadParts payload w) ≫= (fun _ => Ok tt) in
  exists mid,
    trace (fst run) = trace w ++ mid /\ runs mid = [] /\ slept mid = 0 /\
    snd run = match prepared with
              | Ok _ => Raise no_servo
              | Raise e => Raise e
              end.
Proof.
  intros Hservo run prepared.
  set (prep := if given flash_dest
               then (image ← PrepareFlasher crc32 fdt_put_string flash_uboot payload
                               (update (self w)) (verify (self w)) (or_empty flash_dest)
                               "1:0";
                     mret (bl1, bl2, image))
               else _ExtractPayloadParts payload).
  assert (Hcalm : calm prep).
  { unfold prep. destruct (given flash_dest).
    - apply calm_bind; [apply calm_PrepareFlasher | intros; apply calm_ret].
    - apply calm_ExtractPayloadParts. }
  assert (Hprep : prepared = snd (prep w) ≫= (fun _ => Ok tt)).
  { unfold prepared, prep. destruct (given flash_dest); [|reflexivity].
    unfold mbind at 3, M_bind.
    destruct (PrepareFlasher _ _ _ _ _ _ _ _ w) as [w1 [image|e]]; reflexivity. }
  assert (Hrun : run = match prep w with
                       | (w1, Ok _) => (w1, Raise no_servo)
                       | (w1, Raise e) => (w1, Raise e)
                       end).
  { unfold run, ExynosFlashImage.
    unfold mbind at 1, M_bind at 1, get_world at 1. cbv beta iota.
    fold prep. unfold mbind at 1, M_bind at 1.
    destruct (Hcalm w) as (mid & _ & _ & _ & Hself).
    destruct (prep w) as [w1 [[[b1 b2] im]|e]]; [|reflexivity].
    cbn [fst] in Hself.
    unfold mbind at 1, M_bind at 1, _DutControl at 1.
    unfold mbind at 1, M_bind at 1, get_world at 1. cbv beta iota.
    rewrite Hself, Hservo. reflexivity. }
  destruct (Hcalm w) as (mid & Ht & Hr & Hs & _).
  exists mid. rewrite Hprep, Hrun.
  destruct (prep w) as [w1 [parts|e]]; cbn [fst snd] in *; auto.
Qed.

End NoServo.

Lemma ExynosFlashImage_without_servo_witness :
  let w := no_servo_world {[ "image.bin" := bytes_of "short" ]} in
  let run := ExynosFlashImage crc32_bitwise short_put None "u-boot.bin" "bl1" "bl2"
               "image.bin" None w in
  exists mid, trace (fst run) = trace w ++ mid /\ runs mid = [].
Proof.
  intros w run.
  destruct (ExynosFlashImage_without_servo crc32_bitwise short_put None "u-boot.bin"
              "bl1" "bl2" "image.bin" None w eq_refl) as (mid & Ht & Hr & _).
  exists mid. split; assumption.
Defined.

(** * Writing to an SD card *)

Lemma bind_inv {A B} (m : M A) (k : A -> M B) (w w' : world) (b : B) :
  (m ≫= k) w = (w', Ok b) -> exists w1 a, m w = (w1, Ok a) /\ k a w1 = (w', Ok b).
Proof.
  unfold mbind, M_bind. destruct (m w) as [w1 [a|e]]; [eauto | discriminate].
Qed.

Lemma ReadFile_inv (name : string) (w w' : world) (d : bytes) :
  ReadFile name w = (w', Ok d) -> w' = w /\ files w !! name = Some d.
Proof.
  unfold ReadFile. destruct (files w !! name); intros H; inversion H. auto.
Qed.

Section SdCard.
Variable crc32 : bytes -> Z.
Variable fdt_put_string : bytes -> string -> string -> string -> bytes.

Lemma PrepareFlasher_Ok (uboot payload : string) (update verify : bool)
    (boot_type bus : string) (w w' : world) (f : string) :
  PrepareFlasher crc32 fdt_put_string uboot payload update verify boot_type bus w
    = (w', Ok f) ->
  f = flasher_name w /\ outdir w' = outdir w /\ self w' = self w /\
  exists d fdt_data image,
    files w' = <[flasher_name w := image]>
                 (<[dtb_name w := fdt_data]> (<[dtb_name w := d]> (files w))).
Proof.
  intros H.
  destruct (files w !! fname (_fdt (self w))) as [d|] eqn:Hd.
  2: { exfalso. revert H.
       unfold PrepareFlasher, Fdt_Copy, mbind, M_bind, get_world, ReadFile.
       cbn [files trace ncalls tool duration clock outdir stdout_is_tty self fname].
       rewrite Hd. discriminate. }
  destruct (<[dtb_name w := d]> (files w) !! payload) as [p|] eqn:Hp.
  2: { exfalso. revert H.
       unfold PrepareFlasher, Fdt_Copy, mbind, M_bind, get_world, ReadFile, WriteFile,
         mret, M_ret.
       cbn [files trace ncalls tool duration clock outdir stdout_is_tty self fname].
       rewrite Hd.
       cbn [files trace ncalls tool duration clock outdir stdout_is_tty self fname].
       fold (dtb_name w). rewrite Hp. discriminate. }
  destruct (<[dtb_name w := d]> (files w) !! uboot) as [u|] eqn:Hu.
  2: { exfalso. revert H.
       unfold PrepareFlasher, Fdt_Copy, mbind, M_bind, get_world, ReadFile, WriteFile,
         mret, M_ret.
       cbn [files trace ncalls tool duration clock outdir stdout_is_tty self fname].
       rewrite Hd.
       cbn [files trace ncalls tool duration clock outdir stdout_is_tty self fname].
       fold (dtb_name w). rewrite Hp.
       cbn [files trace ncalls tool duration clock outdir stdout_is_tty self fname].
       rewrite GetFlashScript_pair.
       cbn [files trace ncalls tool duration clock outdir stdout_is_tty self fname].
       rewrite Hu. discriminate. }
  rewrite (PrepareFlasher_run crc32 fdt_put_string uboot payload update verify boot_type
             bus w d u p Hd Hp Hu) in H.
  cbv zeta in H.
  destruct (assemble_flasher _ _ _ _ _) as [image|e]; inversion H; subst w' f.
  split; [reflexivity|]. split; [reflexivity|]. split; [reflexivity|].
  eexists d, _, image. reflexivity.
Qed.

End SdCard.

Lemma ExtractPayloadParts_Ok (payload : string) (w w' : world) (bl1 bl2 image : string) :
  _ExtractPayloadParts payload w = (w', Ok (bl1, bl2, image)) ->
  bl1 = bl1_name w /\ bl2 = bl2_part_name w /\
  outdir w' = outdir w /\ self w' = self w /\
  exists b1 b2 im,
    files w' = <[image_name w := im]> (<[bl2_part_name w := b2]>
                 (<[bl1_name w := b1]> (files w))) /\
    len b1 = 0x2000 /\
    (14 * 1024 <= len b2 < 15 * 1024 \/ 30 * 1024 <= len b2 < 31 * 1024).
Proof.
  intros H.
  destruct (files w !! payload) as [data|] eqn:Hfile.
  2: { exfalso. revert H. unfold _ExtractPayloadParts, mbind, M_bind, get_world, ReadFile.
       rewrite Hfile. discriminate. }
  rewrite (ExtractPayloadParts_run payload w data Hfile) in H. cbv zeta in H.
  set (off := uboot_offset_of data) in *.
  destruct (off =? -1) eqn:Eoff; [inversion H|]. apply Z.eqb_neq in Eoff.
  destruct (bool_decide (Z.shiftr (off - 0x2000 - 0x800) 10 ∈ [14; 30])) eqn:Ekb;
    [|inversion H].
  cbn [negb] in H. inversion H; subst w' bl1 bl2 image. clear H.
  apply bool_decide_eq_true_1 in Ekb.
  destruct (uboot_offset_found data Eoff) as (Hmin & Hfit & _).
  fold off in Hmin, Hfit.
  split; [reflexivity|]. split; [reflexivity|]. split; [reflexivity|].
  split; [reflexivity|].
  eexists _, _, _. split; [reflexivity|].
  assert (Hkb : 14 * 1024 <= off - 0x2800 < 15 * 1024 \/
                30 * 1024 <= off - 0x2800 < 31 * 1024).
  { replace (off - 0x2000 - 0x800) with (off - 0x2800) in Ekb by lia.
    rewrite Z.shiftr_div_pow2 in Ekb by lia. change (2 ^ 10) with 1024 in Ekb.
    pose proof (Z.div_mod (off - 0x2800) 1024 ltac:(lia)).
    pose proof (Z.mod_pos_bound (off - 0x2800) 1024 ltac:(lia)).
    apply elem_of_cons in Ekb as [E | Ekb]; [left; lia|].
    apply elem_of_cons in Ekb as [E | Ekb]; [right; lia|].
    apply elem_of_nil in Ekb. contradiction. }
  split.
  - unfold slice_to. rewrite length_slice by lia. lia.
  - rewrite length_slice by lia. lia.
Qed.

Lemma ConfigureExynosBl2_Ok (spl_source : string) (fdt : Fdt) (spl_load_size : Z)
    (orig_bl2 name : string) (w w' : world) (d0 : bytes) (out : string) :
  files w !! orig_bl2 = Some d0 ->
  ConfigureExynosBl2 spl_source fdt spl_load_size orig_bl2 name w = (w', Ok out) ->
  out = bl2_name w name /\ outdir w' = outdir w /\ self w' = self w /\
  exists d1,
    files w' = <[bl2_name w name := d1]> (<[bl2_name w name := d0]> (files w)) /\
    len d1 = len d0.
Proof.
  intros Hfile Hrun.
  rewrite (ConfigureExynosBl2_run _ _ _ _ _ _ _ Hfile) in Hrun. cbv zeta in Hrun.
  destruct (_ =? 0); [inversion Hrun|].
  destruct (snd (_UpdateBl2Parameters spl_source fdt spl_load_size d0 _))
    as [p|e] eqn:Ep; [|inversion Hrun].
  pose proof (py_rfind_bounds (le_bytes MARKER) d0) as Hpos.
  destruct (UpdateBl2Parameters_outside _ _ _ _ _ _ Hpos Ep) as [Hlen _].
  pose proof (UpdateBl2Parameters_min_length _ _ _ _ _ _ Ep) as Hmin.
  assert (Hp4 : (4 <= length p)%nat) by (unfold len in Hlen; lia).
  rewrite (UpdateChecksum_eq p Hp4) in Hrun.
  inversion Hrun; subst w' out. clear Hrun.
  split; [reflexivity|]. split; [reflexivity|]. split; [reflexivity|].
  eexists. split; [reflexivity|].
  unfold len in *. rewrite length_app, length_take, length_le_bytes. lia.
Qed.

Lemma names_ne (dir a b : string) : a <> b -> path_join dir a <> path_join dir b.
Proof. intros Hne E. apply Hne. exact (path_join_inj dir a b E). Qed.

Ltac other_name :=
  unfold flasher_name, dtb_name, bl1_name, bl2_part_name, image_name, bl2_name,
    sd_image_name;
  apply names_ne; cbn; discriminate.

Section SdCardLayout.
Variable crc32 : bytes -> Z.
Variable fdt_put_string : bytes -> string -> string -> string -> bytes.

(** X20.  When [WriteToSd] succeeds with a flash destination, the image it
    hands to dd is BL1 (8KB), the configured BL2, zero padding up to 24KB,
    and the flasher.  A BL2 of the 14KB kind puts the flasher at offset
    0x6000; a BL2 of the 30KB kind is already past that mark, the padding is
    empty and the flasher follows the BL2 directly.  The last thing done is
    dd of that image to the disk with 512-byte blocks, skipping the first. *)
Theorem WriteToSd_layout (spl_source : string) (flash_dest : option string)
    (disk uboot payload : string) (w w' : world) :
  given flash_dest = true ->
  WriteToSd crc32 fdt_put_string spl_source flash_dest disk uboot payload w = (w', Ok tt) ->
  exists b1 c2 raw image before,
    files w' !! sd_image_name w = Some image /\
    image = b1 ++ c2 ++ zeros (0x6000 - len b1 - len c2) ++ raw /\
    files w' !! bl1_name w = Some b1 /\
    files w' !! bl2_name w "flasher" = Some c2 /\
    files w' !! flasher_name w = Some raw /\
    len b1 = 0x2000 /\
    (14 * 1024 <= len c2 < 15 * 1024 /\ drop (Z.to_nat 0x6000) image = raw \/
     30 * 1024 <= len c2 < 31 * 1024 /\ drop (Z.to_nat (0x2000 + len c2)) image = raw) /\
    trace w' = before ++ [EvOut LvProgress ("Writing flasher to " +:+ disk);
                          EvRun "dd" (dd_args (sd_image_name w) disk) true].
Proof.
  intros Hgiven H. unfold WriteToSd in H.
  apply bind_inv in H as (w0 & wv & Hg & H). inversion Hg; subst w0 wv. clear Hg.
  rewrite Hgiven in H.
  apply bind_inv in H as (w5 & image & Hprep & Hdd).
  apply bind_inv in Hprep as (wa & raw_image & HPF & Hprep).
  destruct (PrepareFlasher_Ok crc32 fdt_put_string _ _ _ _ _ _ _ _ _ HPF)
    as (-> & Hout1 & Hself1 & d & fd & img & Hfiles1).
  apply bind_inv in Hprep as (wb & [[bl1 bl2] im] & HEx & Hprep).
  destruct (ExtractPayloadParts_Ok _ _ _ _ _ _ HEx)
    as (-> & -> & Hout2 & Hself2 & b1 & b2 & u & Hfiles2 & Hb1 & Hb2).
  assert (Hn1 : bl1_name wa = bl1_name w) by (unfold bl1_name; rewrite Hout1; reflexivity).
  assert (Hn2 : bl2_part_name wa = bl2_part_name w)
    by (unfold bl2_part_name; rewrite Hout1; reflexivity).
  assert (Hn3 : image_name wa = image_name w)
    by (unfold image_name; rewrite Hout1; reflexivity).
  rewrite Hn1, Hn2, Hn3 in *.
  apply bind_inv in Hprep as (wc & raw & Hraw & Hprep).
  apply ReadFile_inv in Hraw as [-> Hraw].
  assert (Hraw_img : raw = img).
  { rewrite Hfiles2, Hfiles1 in Hraw.
    rewrite !lookup_insert_ne in Hraw by other_name.
    rewrite lookup_insert_eq in Hraw. congruence. }
  subst raw. cbv zeta in Hprep.
  apply bind_inv in Hprep as (wd & bl2' & HCfg & Hprep).
  assert (Hb2file : files wb !! bl2_part_name w = Some b2).
  { rewrite Hfiles2. rewrite lookup_insert_ne by other_name. apply lookup_insert_eq. }
  destruct (ConfigureExynosBl2_Ok _ _ _ _ _ _ _ _ _ Hb2file HCfg)
    as (-> & Hout3 & Hself3 & c2 & Hfiles3 & Hc2).
  assert (Hn4 : bl2_name wb "flasher" = bl2_name w "flasher")
    by (unfold bl2_name; rewrite Hout2, Hout1; reflexivity).
  rewrite Hn4 in *.
  apply bind_inv in Hprep as (we & bl1_data & Hr1 & Hprep).
  apply ReadFile_inv in Hr1 as [-> Hr1].
  assert (bl1_data = b1).
  { rewrite Hfiles3, Hfiles2 in Hr1.
    rewrite !lookup_insert_ne in Hr1 by other_name.
    rewrite lookup_insert_eq in Hr1. congruence. }
  subst bl1_data.
  apply bind_inv in Hprep as (we & bl2_data & Hr2 & Hprep).
  apply ReadFile_inv in Hr2 as [-> Hr2].
  assert (bl2_data = c2).
  { rewrite Hfiles3, lookup_insert_eq in Hr2. congruence. }
  subst bl2_data. cbv zeta in Hprep.
  apply bind_inv in Hprep as (we & raw_data & Hr3 & Hprep).
  apply ReadFile_inv in Hr3 as [-> Hr3].
  assert (Himg3 : files wd !! flasher_name w = Some img).
  { rewrite Hfiles3, Hfiles2, Hfiles1.
    rewrite !lookup_insert_ne by other_name. apply lookup_insert_eq. }
  assert (raw_data = img) by congruence. subst raw_data.
  apply bind_inv in Hprep as (we & [] & Hwr & Hprep).
  apply bind_inv in Hprep as (wf & [] & Hpr & Hret).
  inversion Hwr; subst we. inversion Hpr; subst wf. inversion Hret; subst w5 image.
  clear Hwr Hpr Hret.
  apply bind_inv in Hdd as (wg & out & Hrun & Hret).
  inversion Hret; subst wg. clear Hret.
  unfold Run in Hrun. inversion Hrun as [[Hw' Htool]]. clear Hrun Htool.
  cbn [files trace ncalls tool duration clock outdir stdout_is_tty self].
  fold (sd_image_name w).
  assert (Hfinal : forall n, n <> sd_image_name w -> 
            <[sd_image_name w := ((b1 ++ c2) ++ zeros (0x6000 - len (b1 ++ c2))) ++ img]>
              (files wd) !! n = files wd !! n)
    by (intros n Hn; apply lookup_insert_ne; congruence).
  exists b1, c2, img, (b1 ++ c2 ++ zeros (0x6000 - len b1 - len c2) ++ img),
    (trace wd ++ [EvWrite (sd_image_name w)
                    (((b1 ++ c2) ++ zeros (0x6000 - len (b1 ++ c2))) ++ img)]).
  assert (Hl : len (b1 ++ c2) = len b1 + len c2) by (unfold len; rewrite length_app; lia).
  split.
  { rewrite lookup_insert_eq. f_equal. rewrite Hl, <- !app_assoc.
    do 4 f_equal. lia. }
  split; [reflexivity|].
  split.
  { rewrite Hfinal by (apply not_eq_sym; other_name).
    rewrite Hfiles3, Hfiles2. rewrite !lookup_insert_ne by other_name.
    apply lookup_insert_eq. }
  split.
  { rewrite Hfinal by (apply not_eq_sym; other_name).
    rewrite Hfiles3. apply lookup_insert_eq. }
  split.
  { rewrite Hfinal by (apply not_eq_sym; other_name). exact Himg3. }
  split; [exact Hb1|].
  split.
  { rewrite <- Hc2 in Hb2. unfold len in *. unfold zeros.
    destruct Hb2 as [Hk | Hk]; [left | right]; (split; [exact Hk|]).
    - rewrite !app_assoc.
      apply drop_app_length'. rewrite !length_app, length_replicate. lia.
    - replace (Z.to_nat (24576 - Z.of_nat (length b1) - Z.of_nat (length c2)))
        with 0%nat by lia.
      cbn [replicate app]. rewrite app_assoc.
      apply drop_app_length'. rewrite length_app. lia. }
  rewrite <- !app_assoc. reflexivity.
Qed.

End SdCardLayout.

Lemma WriteToSd_layout_witness :
  let run := WriteToSd crc32_bitwise short_put "straps" (Some "spi") "/dev/sdx"
               "u-boot.bin" "image.bin" sd_world in
  exists b1 c2 raw image,
    files (fst run) !! sd_image_name sd_world = Some image /\
    image = b1 ++ c2 ++ zeros (0x6000 - len b1 - len c2) ++ raw /\
    len b1 = 0x2000.
Proof.
  intros run.
  assert (Hok : snd run = Ok tt) by (vm_compute; reflexivity).
  assert (Hrun : run = (fst run, Ok tt)) by (rewrite <- Hok; apply surjective_pairing).
  destruct (WriteToSd_layout crc32_bitwise short_put "straps" (Some "spi") "/dev/sdx"
              "u-boot.bin" "image.bin" sd_world (fst run) eq_refl Hrun)
    as (b1 & c2 & raw & image & before & Hf & Hi & _ & _ & _ & Hl & _).
  exists b1, c2, raw, image. repeat split; assumption.
Defined.

(** * The stages are downloaded in order *)

Lemma downloads_app (a b : list event) : downloads (a ++ b) = downloads a ++ downloads b.
Proof. apply List.filter_app. Qed.

Lemma downloads_runs (tr : list event) : downloads (runs tr) = downloads tr.
Proof.
  induction tr as [|ev tr IH]; [reflexivity|].
  destruct ev; cbn [runs downloads List.filter]; try exact IH.
  fold (runs tr). fold (downloads (runs tr)). fold (downloads tr). rewrite IH. reflexivity.
Qed.

Lemma downloads_none (tr : list event) (cmd : string) (args : list string) (sudo : bool) :
  cmd <> "smdk-usbdl" ->
  Forall (fun ev => ev = EvRun cmd args sudo) (runs tr) -> downloads tr = [].
Proof.
  intros Hcmd Hall. rewrite <- downloads_runs.
  induction Hall as [|ev l Hev _ IH]; [reflexivity|].
  subst ev. cbn [downloads List.filter].
  apply String.eqb_neq in Hcmd. rewrite Hcmd. exact IH.
Qed.

Lemma no_download_bind {A B} (m : M A) (k : A -> M B) :
  no_download m -> (forall a, no_download (k a)) -> no_download (m ≫= k).
Proof.
  intros Hm Hk w. destruct (Hm w) as (mid & Ht & Hd).
  unfold mbind, M_bind. destruct (m w) as [w1 [a|e]]; cbn [fst] in *.
  - destruct (Hk a w1) as (mid' & Ht' & Hd'). exists (mid ++ mid').
    rewrite Ht', Ht, <- app_assoc, downloads_app, Hd, Hd'. auto.
  - exists mid. auto.
Qed.

Lemma no_download_ret {A} (a : A) : no_download (mret a : M A).
Proof. intros w. exists []. cbn. rewrite app_nil_r. auto. Qed.

Lemma no_download_out (lvl : level) (msg : string) : no_download (emit (EvOut lvl msg)).
Proof. intros w. exists [EvOut lvl msg]. auto. Qed.

Lemma no_download_sleep (ms : Z) : no_download (sleep ms).
Proof. intros w. exists [EvSleep ms]. auto. Qed.

Lemma no_download_WaitForUSBDevice (name : string) (vendor_id product_id timeout : Z) :
  no_download (_WaitForUSBDevice name vendor_id product_id timeout).
Proof.
  intros w.
  assert (Hrun : _WaitForUSBDevice name vendor_id product_id timeout w =
            wait_loop (S (Z.to_nat (1000 * timeout))) name
              (lsusb_args vendor_id product_id) (clock w) (1000 * timeout)
              (add_events w [waiting])) by reflexivity.
  rewrite Hrun.
  destruct (wait_loop_outcome name (lsusb_args vendor_id product_id) (clock w)
              (1000 * timeout) (S (Z.to_nat (1000 * timeout))) (add_events w [waiting]))
    as (mid & Ht & Hall & _).
  exists (waiting :: mid). cbn [add_events trace] in Ht.
  split; [rewrite Ht, <- app_assoc; reflexivity|].
  cbn [downloads List.filter]. fold (downloads mid).
  apply (downloads_none mid "lsusb" (lsusb_args vendor_id product_id) true);
    [discriminate | exact Hall].
Qed.

Lemma no_download_DutControl (args : list string) : no_download (_DutControl args).
Proof.
  intros w. unfold _DutControl, mbind, M_bind, get_world, raise, Run.
  destruct (_servo_port (self w)) as [port|].
  - eexists [_]. cbn [fst trace]. split; reflexivity.
  - exists []. cbn [fst]. rewrite app_nil_r. split; reflexivity.
Qed.

Lemma downloads_within_raise {A} (evs : list event) (e : exn) :
  downloads_within evs (raise e : M A).
Proof.
  intros w. exists [], evs. cbn. rewrite app_nil_r.
  split; [reflexivity|]. split; [reflexivity | discriminate].
Qed.

Lemma downloads_within_bind {A B} (evs : list event) (m : M A) (k : A -> M B) :
  no_download m -> (forall a, downloads_within evs (k a)) ->
  downloads_within evs (m ≫= k).
Proof.
  intros Hm Hk w. destruct (Hm w) as (mid & Ht & Hd).
  unfold mbind, M_bind. destruct (m w) as [w1 [a|e]]; cbn [fst] in *.
  - destruct (Hk a w1) as (mid' & rest & Ht' & Hd' & Hok). exists (mid ++ mid'), rest.
    rewrite Ht', Ht, <- app_assoc, downloads_app, Hd. auto.
  - exists mid, evs. rewrite Hd. cbn [snd].
    split; [exact Ht|]. split; [reflexivity | discriminate].
Qed.

Lemma downloads_within_run {B} (evs : list event) (args : list string)
    (k : string -> M B) :
  (forall a, downloads_within evs (k a)) ->
  downloads_within (EvRun "smdk-usbdl" args true :: evs)
                   (Run "smdk-usbdl" args true ≫= k).
Proof.
  intros Hk w. unfold mbind, M_bind, Run.
  destruct (tool w (ncalls w) "smdk-usbdl" args) as [out|e].
  - match goal with
    | |- context [k out ?w1] => destruct (Hk out w1) as (mid & rest & Ht & Hd & Hok)
    end.
    exists (EvRun "smdk-usbdl" args true :: mid), rest.
    rewrite Ht. cbn [trace]. rewrite <- app_assoc.
    split; [reflexivity|]. split; [|exact Hok].
    cbn [downloads List.filter String.eqb]. fold (downloads mid). rewrite Hd. reflexivity.
  - exists [EvRun "smdk-usbdl" args true], evs. cbn [fst snd trace].
    split; [reflexivity|]. split; [reflexivity | discriminate].
Qed.

(** X21.  The body of the download loop of [ExynosFlashImage] runs
    smdk-usbdl for the stages in the order of the list, each with its
    address and file, and never for a stage whose predecessor was not
    downloaded: what has been run is always a prefix of the list, and all of
    it when the loop ends normally. *)
Theorem download_stages_in_order (vendor_id product_id : Z)
    (items : list (string * Z * string)) (upto : Z) (w : world) :
  let run := download_stages vendor_id product_id items upto w in
  exists mid rest,
    trace (fst run) = trace w ++ mid /\
    map usbdl items = downloads mid ++ rest /\
    (snd run = Ok tt -> rest = []).
Proof.
  assert (H : forall upto,
            downloads_within (map usbdl items)
              (download_stages vendor_id product_id items upto)).
  { clear upto w. induction items as [|[[stage addr] file] items IH]; intros upto.
    - intros w. exists [], []. cbn. rewrite app_nil_r. auto.
    - cbn [download_stages map usbdl].
      apply downloads_within_bind; [apply no_download_WaitForUSBDevice | intros found].
      destruct found; cbn [negb].
      2: { destruct (upto =? 0); apply downloads_within_raise. }
      apply downloads_within_bind; [apply no_download_out | intros _].
      apply downloads_within_bind; [apply no_download_out | intros _].
      apply downloads_within_bind.
      { destruct (upto =? 0); [apply no_download_sleep | apply no_download_ret]. }
      intros _. apply downloads_within_run. intros _.
      apply downloads_within_bind; [|intros _; apply IH].
      destruct (upto =? 1); [|apply no_download_ret].
      apply no_download_bind; [apply no_download_DutControl | intros; apply no_download_ret]. }
  intros run. destruct (H upto w) as (mid & rest & Ht & Hd & Hok).
  exists mid, rest. split; [exact Ht|]. split; [exact Hd|]. apply Hok.
Qed.

Lemma download_stages_in_order_witness :
  let items := [("bl1", 0x02021400, "bl1.bin"); ("bl2", 0x02023400, "bl2.bin");
                ("u-boot", 0x43e00000, "u-boot.bin")] in
  let w := servo_world 9999 in
  exists mid,
    trace (fst (download_stages 0x04e8 0x1234 items 0 w)) = trace w ++ mid /\
    map usbdl items = downloads mid.
Proof.
  intros items w.
  destruct (download_stages_in_order 0x04e8 0x1234 items 0 w)
    as (mid & rest & Ht & Hd & Hok).
  exists mid. split; [exact Ht|].
  rewrite (Hok ltac:(vm_compute; reflexivity)), app_nil_r in Hd. exact Hd.
Defined.

Section FlasherEffects.
Variable crc32 : bytes -> Z.
Variable fdt_put_string : bytes -> string -> string -> string -> bytes.

(** X22.  [PrepareFlasher] works on files only: whatever the outcome it
    runs no external command, does not sleep and leaves the attributes of
    the object alone.  When it succeeds it returns the name of the flasher
    in the output directory, and the only files it has written are that one
    and flasher.dtb; every other file is as it was. *)
Theorem PrepareFlasher_effects (uboot payload : string) (update verify : bool)
    (boot_type bus : string) (w : world) :
  let run := PrepareFlasher crc32 fdt_put_string uboot payload update verify
               boot_type bus w in
  (exists mid,
     trace (fst run) = trace w ++ mid /\ runs mid = [] /\ slept mid = 0 /\
     self (fst run) = self w) /\
  (forall f, snd run = Ok f ->
     f = flasher_name w /\
     (exists image, files (fst run) !! f = Some image) /\
     forall n, n <> flasher_name w -> n <> dtb_name w ->
               files (fst run) !! n = files w !! n).
Proof.
  intros run. split.
  - apply (calm_PrepareFlasher crc32 fdt_put_string).
  - intros f Hf.
    assert (Hrun : run = (fst run, Ok f)) by (rewrite <- Hf; apply surjective_pairing).
    destruct (PrepareFlasher_Ok crc32 fdt_put_string _ _ _ _ _ _ _ _ _ Hrun)
      as (-> & _ & _ & d & fdt_data & image & Hfiles).
    split; [reflexivity|]. rewrite Hfiles. split.
    + exists image. apply lookup_insert_eq.
    + intros n Hn1 Hn2. rewrite !lookup_insert_ne by congruence. reflexivity.
Qed.

End FlasherEffects.

Lemma PrepareFlasher_effects_witness :
  let w := flasher_world 0x108000 in
  let run := PrepareFlasher crc32_bitwise short_put "u-boot.bin" "image.bin"
               true false "spi" "0" w in
  files (fst run) !! "u-boot.bin" = files w !! "u-boot.bin".
Proof.
  intros w run.
  destruct (PrepareFlasher_effects crc32_bitwise short_put "u-boot.bin" "image.bin"
              true false "spi" "0" w) as [_ Hok].
  apply (Hok "out/flasher-for-image.bin"); vm_compute; [reflexivity | discriminate..].
Defined.
